(** * MQTT client of micropython-embedded: [umqttsimple.py] and [umqttrobust.py]

    A shallow embedding of the two MQTT client classes
    ([middleware/network/MQTT/code/umqttsimple.py] and [umqttrobust.py]) and
    the properties of the packet codec, of the publish/subscribe exchanges and
    of the reconnect wrapper.

    The client is a Python object mutated by its methods, talking to a socket
    and to [time.sleep]; here every method is a function from the state of the
    client and of its surroundings to an outcome and a new state.  Python
    [int] is [Z]; [bytes] and [bytearray] are lists of [Z] in [0..255]. *)

From Stdlib Require Import ZArith List Lia Bool.
Import ListNotations.
Open Scope Z_scope.

(** ** Bytes *)

Definition bytes := list Z.

Definition len {A : Type} (b : list A) : Z := Z.of_nat (length b).

Fixpoint bytes_eqb (a b : bytes) : bool :=
  match a, b with
  | [], [] => true
  | x :: a', y :: b' => (x =? y) && bytes_eqb a' b'
  | _, _ => false
  end.

(** ** Exceptions and outcomes *)

(** The exceptions the two modules can end in.  [OSError] carries its errno;
    [MQTTException] carries the code the server sent. *)
Inductive exn : Type :=
| OSError (errno : Z)
| MQTTException (code : Z)
| AssertionError
| IndexError
| TypeError
| AttributeError
| ValueError
| OverflowError
| MemoryError
| StructError.


Definition ECONNRESET : Z := 104.
Definition EBADF : Z := 9.
Definition EHOSTUNREACH : Z := 113.

(** What a call does: it returns, it raises, it waits forever inside a
    blocking read on a silent peer, or the loop budget of the model ran out. *)
Inductive outcome (A : Type) : Type :=
| Ret (a : A)
| Raise (e : exn)
| Blocked
| NoFuel.

Arguments Ret {A} a.
Arguments Raise {A} e.
Arguments Blocked {A}.
Arguments NoFuel {A}.

Definition obind {A B : Type} (o : outcome A) (k : A -> outcome B) : outcome B :=
  match o with
  | Ret a => k a
  | Raise e => Raise e
  | Blocked => Blocked
  | NoFuel => NoFuel
  end.

(** ** The struct module and bytearray stores

    The source imports [ustruct], [usocket] and [ubinascii] and names its
    platform as MicroPython v1.23.0.  MicroPython's [struct.pack] keeps the
    low-order bytes of a value that does not fit its field and a bytearray
    store keeps the low byte; CPython raises [struct.error] and [ValueError].
    The flag [strict] selects the second behaviour, so that a statement can be
    made for either. *)

Definition in_range (size : nat) (v : Z) : bool :=
  (0 <=? v) && (v <? 2 ^ (8 * Z.of_nat size)).

(** Big-endian, [size] bytes, low-order bytes of [v]. *)
Fixpoint be_bytes (size : nat) (v : Z) : bytes :=
  match size with
  | O => []
  | S k => Z.land (Z.shiftr v (8 * Z.of_nat k)) 0xFF :: be_bytes k v
  end.

Definition pack_uint (strict : bool) (size : nat) (v : Z) : outcome bytes :=
  if strict && negb (in_range size v) then Raise StructError
  else Ret (be_bytes size v).

(** [buf[off : off + len data] = data], as [pack_into] writes its fields. *)
Definition blit (buf : bytes) (off : nat) (data : bytes) : outcome bytes :=
  if (off + length data <=? length buf)%nat
  then Ret (firstn off buf ++ data ++ skipn (off + length data) buf)
  else Raise ValueError.

(** [struct.pack_into("!H", buf, off, v)] *)
Definition pack_into_H (strict : bool) (buf : bytes) (off : nat) (v : Z)
  : outcome bytes :=
  obind (pack_uint strict 2 v) (fun d => blit buf off d).

(** [struct.pack_into("!BH", buf, off, v1, v2)] *)
Definition pack_into_BH (strict : bool) (buf : bytes) (off : nat) (v1 v2 : Z)
  : outcome bytes :=
  obind (pack_uint strict 1 v1) (fun d1 =>
  obind (pack_uint strict 2 v2) (fun d2 => blit buf off (d1 ++ d2))).

(** [buf[i]] for a non-negative index. *)
Definition getitem (buf : bytes) (i : nat) : outcome Z :=
  match nth_error buf i with
  | Some b => Ret b
  | None => Raise IndexError
  end.

(** [buf[i] = v] on a bytearray, for a non-negative index. *)
Definition setitem (strict : bool) (buf : bytes) (i : nat) (v : Z)
  : outcome bytes :=
  if (i <? length buf)%nat then
    if strict && negb (in_range 1 v) then Raise ValueError
    else Ret (firstn i buf ++ Z.land v 0xFF :: skipn (S i) buf)
  else Raise IndexError.

(** The loop that writes the remaining length into a packet buffer, shared by
    [connect] (lines 293-304) and [publish] (lines 400-406):

      while sz > 0x7F:
          pkt[i] = (sz & 0x7F) | 0x80
          sz >>= 7
          i += 1
      pkt[i] = sz

    It returns the buffer and the final [i]. *)
Fixpoint len_loop (fuel : nat) (strict : bool) (pkt : bytes) (i : nat) (sz : Z)
  : outcome (bytes * nat) :=
  if sz >? 0x7F then
    match fuel with
    | O => NoFuel
    | S f =>
        obind (setitem strict pkt i (Z.lor (Z.land sz 0x7F) 0x80)) (fun pkt' =>
        len_loop f strict pkt' (S i) (Z.shiftr sz 7))
    end
  else
    obind (setitem strict pkt i sz) (fun pkt' => Ret (pkt', i)).

(** ** The transport *)

(** What a read finds once the bytes in flight are used up: the peer has
    closed (a short or empty read), the peer sends nothing more, or the
    connection is broken (the read raises [OSError]). *)
Inductive rx_end : Type := Eof | Silent | Broken.

Record socket : Type := mkSocket {
  rx : bytes;                (* bytes that will arrive, in order *)
  at_end : rx_end;           (* what follows them *)
  tx : bytes;                (* bytes written so far, in order *)
  wbudget : option nat;      (* writes that succeed before writes raise; None: all *)
  blocking : bool;
  closed : bool
}.

(** A socket object that was created but never connected. *)
Definition unconnected : socket :=
  mkSocket [] Broken [] (Some O) true false.

Definition set_rx (s : socket) (r : bytes) : socket :=
  mkSocket r (at_end s) (tx s) (wbudget s) (blocking s) (closed s).
Definition sent (s : socket) (data : bytes) (left : option nat) : socket :=
  mkSocket (rx s) (at_end s) (tx s ++ data) left (blocking s) (closed s).
Definition set_closed (s : socket) : socket :=
  mkSocket (rx s) (at_end s) (tx s) (wbudget s) (blocking s) true.

(** ** The client object and its surroundings *)

Record config : Type := mkConfig {
  client_id : bytes;
  user : option bytes;
  pswd : option bytes;
  keepalive : Z;
  lw_topic : option bytes;
  lw_msg : option bytes;
  lw_qos : Z;
  lw_retain : bool;
  debug : bool;
  strict : bool              (* range-checking struct and bytearray *)
}.

Record client : Type := mkClient {
  cfg : config;
  sock : option socket;                            (* self.sock *)
  pid : Z;                                         (* self.pid *)
  cb : bool;                                       (* self.cb is not None *)
  delivered : list (option bytes * option bytes);  (* calls of self.cb *)
  net : list (option socket);   (* what the next connection attempts meet *)
  sleeps : list Z;              (* arguments of time.sleep, in order *)
  printed : list (bool * exn)   (* lines printed by log *)
}.

Definition set_sock (w : client) (s : option socket) : client :=
  mkClient (cfg w) s (pid w) (cb w) (delivered w) (net w) (sleeps w) (printed w).
Definition set_pid (w : client) (p : Z) : client :=
  mkClient (cfg w) (sock w) p (cb w) (delivered w) (net w) (sleeps w) (printed w).
Definition set_cb (w : client) (c : bool) : client :=
  mkClient (cfg w) (sock w) (pid w) c (delivered w) (net w) (sleeps w) (printed w).
Definition set_delivered (w : client) (d : list (option bytes * option bytes))
  : client :=
  mkClient (cfg w) (sock w) (pid w) (cb w) d (net w) (sleeps w) (printed w).
Definition set_net (w : client) (n : list (option socket)) : client :=
  mkClient (cfg w) (sock w) (pid w) (cb w) (delivered w) n (sleeps w) (printed w).
Definition set_sleeps (w : client) (l : list Z) : client :=
  mkClient (cfg w) (sock w) (pid w) (cb w) (delivered w) (net w) l (printed w).
Definition set_printed (w : client) (l : list (bool * exn)) : client :=
  mkClient (cfg w) (sock w) (pid w) (cb w) (delivered w) (net w) (sleeps w) l.

(** [MQTTClient.__init__] (lines 96-142): no socket, [pid = 0], no callback. *)
Definition init (c : config) (network : list (option socket)) : client :=
  mkClient c None 0 false [] network [] [].

(** ** The monad of methods *)

Definition M (A : Type) : Type := client -> outcome A * client.

Definition ret {A : Type} (a : A) : M A := fun w => (Ret a, w).

Definition raise {A : Type} (e : exn) : M A := fun w => (Raise e, w).

Definition lift {A : Type} (o : outcome A) : M A := fun w => (o, w).

Definition bind {A B : Type} (m : M A) (k : A -> M B) : M B :=
  fun w =>
    match m w with
    | (Ret a, w') => k a w'
    | (Raise e, w') => (Raise e, w')
    | (Blocked, w') => (Blocked, w')
    | (NoFuel, w') => (NoFuel, w')
    end.

Declare Scope mqtt_scope.
Delimit Scope mqtt_scope with mqtt.
Notation "x <- c1 ;; c2" := (bind c1 (fun x => c2))
  (at level 61, c1 at next level, right associativity) : mqtt_scope.
Notation "c1 ;; c2" := (bind c1 (fun _ => c2))
  (at level 61, right associativity) : mqtt_scope.
Notation "' pat <- c1 ;; c2" := (bind c1 (fun x => match x with pat => c2 end))
  (at level 61, pat pattern, c1 at next level, right associativity) : mqtt_scope.
Open Scope mqtt_scope.

(** [assert b] *)
Definition assert (b : bool) : M unit :=
  if b then ret tt else raise AssertionError.

(** [try: return m / except OSError as e: h e], the handler's result being
    what follows the [try] statement. *)
Definition on_OSError {A : Type} (m : M A) (h : Z -> M A) : M A :=
  fun w =>
    match m w with
    | (Raise (OSError n), w') => h n w'
    | r => r
    end.

Definition get_strict : M bool := fun w => (Ret (strict (cfg w)), w).

(** ** Socket operations *)

(** [self.sock.write(data)]: the bytes are appended to what was sent, unless
    there is no socket, it is closed, or the write fails. *)
Definition sock_write (data : bytes) : M unit :=
  fun w =>
    match sock w with
    | None => (Raise AttributeError, w)
    | Some s =>
        if closed s then (Raise (OSError EBADF), w)
        else
          match wbudget s with
          | Some O => (Raise (OSError ECONNRESET), w)
          | Some (S k) => (Ret tt, set_sock w (Some (sent s data (Some k))))
          | None => (Ret tt, set_sock w (Some (sent s data None)))
          end
    end.

(** What a read returns when fewer bytes than asked for are in flight. *)
Definition short_read (s : socket) : outcome (option bytes) * socket :=
  let drained := set_rx s [] in
  match at_end s with
  | Eof => (Ret (Some (rx s)), drained)
  | Broken => (Raise (OSError ECONNRESET), drained)
  | Silent =>
      if blocking s then (Blocked, s)
      else
        match rx s with
        | [] => (Ret None, s)
        | _ => (Ret (Some (rx s)), drained)
        end
  end.

(** [self.sock.read(n)]: [n] bytes when they arrive; at the end of the stream
    a shorter (possibly empty) result; [None] from a non-blocking socket with
    nothing to read.  [read(-1)] reads to the end and a size below -1 is a
    buffer no memory holds. *)
Definition sock_read (n : Z) : M (option bytes) :=
  fun w =>
    match sock w with
    | None => (Raise AttributeError, w)
    | Some s =>
        if closed s then (Raise (OSError EBADF), w)
        else if n <? -1 then (Raise MemoryError, w)
        else if (0 <=? n) && (Z.to_nat n <=? length (rx s))%nat then
          (Ret (Some (firstn (Z.to_nat n) (rx s))),
           set_sock w (Some (set_rx s (skipn (Z.to_nat n) (rx s)))))
        else
          let (o, s') := short_read s in (o, set_sock w (Some s'))
    end.


(** [self.sock.close()] *)
Definition sock_close : M unit :=
  fun w =>
    match sock w with
    | None => (Raise AttributeError, w)
    | Some s =>
        (Ret tt, set_sock w (Some (set_closed s)))
    end.

(** [r[i]] where [r] is the result of a read: [None] has no items. *)
Definition item (r : option bytes) (i : nat) : M Z :=
  match r with
  | None => raise TypeError
  | Some b => lift (getitem b i)
  end.

(** ** umqttsimple.MQTTClient *)

(** [_send_str] (lines 145-158) *)
Definition _send_str (s : bytes) : M unit :=
  st <- get_strict ;;
  l <- lift (pack_uint st 2 (len s)) ;;
  sock_write l ;;
  sock_write s.

(** [_recv_len] (lines 161-184); [n] and [sh] are the loop's variables. *)
Fixpoint _recv_len_loop (fuel : nat) (n sh : Z) : M Z :=
  match fuel with
  | O => lift NoFuel
  | S f =>
      r <- sock_read 1 ;;
      b <- item r 0 ;;
      let n' := Z.lor n (Z.shiftl (Z.land b 0x7F) sh) in
      if Z.land b 0x80 =? 0 then ret n'
      else _recv_len_loop f n' (sh + 7)
  end.

Definition _recv_len (fuel : nat) : M Z := _recv_len_loop fuel 0 0.

(** [buf[i] = v] and [buf[i] |= v] inside a method. *)
Definition store (buf : bytes) (i : nat) (v : Z) : M bytes :=
  st <- get_strict ;;
  lift (setitem st buf i v).

Definition store_or (buf : bytes) (i : nat) (v : Z) : M bytes :=
  old <- lift (getitem buf i) ;;
  store buf i (Z.lor old v).

(** [len(x)] of an attribute that may be [None]. *)
Definition len_opt (x : option bytes) : M Z :=
  match x with
  | None => raise TypeError
  | Some b => ret (len b)
  end.

Definition send_opt (x : option bytes) : M unit :=
  match x with
  | None => raise TypeError
  | Some b => _send_str b
  end.

(** Truth value of [self.lw_topic]: neither [None] nor empty. *)
Definition truthy (x : option bytes) : bool :=
  match x with
  | Some (_ :: _) => true
  | _ => false
  end.

(** [self.sock = socket.socket()] followed by [self.sock.connect(addr)]
    (lines 244-248): the attribute holds the new socket object even when the
    connection attempt raises.  Once the scripted attempts are used up the
    server stays unreachable. *)
Definition open_socket : M unit :=
  fun w =>
    match net w with
    | [] => (Raise (OSError EHOSTUNREACH), set_sock w (Some unconnected))
    | None :: rest =>
        (Raise (OSError EHOSTUNREACH),
         set_net (set_sock w (Some unconnected)) rest)
    | Some s :: rest => (Ret tt, set_net (set_sock w (Some s)) rest)
    end.

(** [connect] (lines 229-340), for [ssl = False]. *)
Definition connect (fuel : nat) (clean_session : bool) : M Z :=
  open_socket ;;
  c <- (fun w => (Ret (cfg w), w)) ;;
  let premsg := [0x10; 0; 0; 0; 0; 0] in
  let msg := [0x04; 77; 81; 84; 84; 0x04; 0x02; 0; 0] in
  let sz := 10 + 2 + len (client_id c) in
  msg <- store msg 6 (Z.shiftl (Z.b2z clean_session) 1) ;;
  '(sz, msg) <-
     match user c with
     | Some u =>
         lp <- len_opt (pswd c) ;;
         msg <- store_or msg 6 0xC0 ;;
         ret (sz + (2 + len u + 2 + lp), msg)
     | None => ret (sz, msg)
     end ;;
  msg <-
     (if keepalive c =? 0 then ret msg
      else
        assert (keepalive c <? 65536) ;;
        msg <- store_or msg 7 (Z.shiftr (keepalive c) 8) ;;
        store_or msg 8 (Z.land (keepalive c) 0x00FF)) ;;
  '(sz, msg) <-
     (if truthy (lw_topic c) then
        lt <- len_opt (lw_topic c) ;;
        lm <- len_opt (lw_msg c) ;;
        msg <- store_or msg 6
                 (Z.lor (Z.lor 0x4 (Z.shiftl (Z.land (lw_qos c) 0x1) 3))
                        (Z.shiftl (Z.land (lw_qos c) 0x2) 3)) ;;
        msg <- store_or msg 6 (Z.shiftl (Z.b2z (lw_retain c)) 5) ;;
        ret (sz + (2 + lt + 2 + lm), msg)
      else ret (sz, msg)) ;;
  '(premsg, i) <- lift (len_loop fuel (strict c) premsg 1 sz) ;;
  sock_write (firstn (i + 2) premsg) ;;
  sock_write msg ;;
  _send_str (client_id c) ;;
  (if truthy (lw_topic c) then
     send_opt (lw_topic c) ;; send_opt (lw_msg c)
   else ret tt) ;;
  match user c with
  | Some u => _send_str u ;; send_opt (pswd c)
  | None => ret tt
  end ;;
  resp <- sock_read 4 ;;
  r0 <- item resp 0 ;;
  ok <- (if r0 =? 0x20 then r1 <- item resp 1 ;; ret (r1 =? 0x02)
         else ret false) ;;
  assert ok ;;
  r3 <- item resp 3 ;;
  if negb (r3 =? 0) then raise (MQTTException r3)
  else
    r2 <- item resp 2 ;;
    ret (Z.land r2 1).

(** [disconnect] (lines 343-353) *)
Definition disconnect : M unit :=
  sock_write [0xe0; 0] ;;
  sock_close.

(** [ping] (lines 356-363) *)
Definition ping : M unit :=
  sock_write [0xc0; 0].

(** [self.cb(topic, msg)]: the call is recorded; calling [None] is a
    [TypeError]. *)
Definition call_cb (topic msg : option bytes) : M unit :=
  fun w =>
    if cb w then (Ret tt, set_delivered w (delivered w ++ [(topic, msg)]))
    else (Raise TypeError, w).

(** [n] of [self.sock.read(n)] when [n] is the two-byte big-endian value
    just read. *)
Definition read_u16 : M Z :=
  r <- sock_read 2 ;;
  a <- item r 0 ;;
  b <- item r 1 ;;
  ret (Z.lor (Z.shiftl a 8) b).

(** [wait_msg] (lines 487-556).  The result is the opcode or [None]. *)
Definition wait_msg (fuel : nat) : M (option Z) :=
  res <- sock_read 1 ;;
  match res with
  | None => ret None
  | Some [] => raise (OSError (-1))
  | Some ((op :: _) as r) =>
      if bytes_eqb r [0xd0] then
        r' <- sock_read 1 ;;
        sz <- item r' 0 ;;
        assert (sz =? 0) ;;
        ret None
      else if negb (Z.land op 0xF0 =? 0x30) then ret (Some op)
      else
        sz <- _recv_len fuel ;;
        topic_len <- read_u16 ;;
        topic <- sock_read topic_len ;;
        let sz := sz - (topic_len + 2) in
        '(pid, sz) <-
           (if negb (Z.land op 6 =? 0) then
              p <- read_u16 ;; ret (p, sz - 2)
            else ret (0, sz)) ;;
        msg <- sock_read sz ;;
        call_cb topic msg ;;
        (if Z.land op 6 =? 2 then
           st <- get_strict ;;
           pkt <- lift (pack_into_H st [0x40; 0x02; 0; 0] 2 pid) ;;
           sock_write pkt
         else if Z.land op 6 =? 4 then assert false
         else ret tt) ;;
        ret (Some op)
  end.

(** [self.pid += 1], returning the new value. *)
Definition next_pid : M Z :=
  fun w => (Ret (pid w + 1), set_pid w (pid w + 1)).

(** The loop of [publish] that waits for the PUBACK (lines 426-434); [pid] is
    the identifier given to this publish. *)
Fixpoint puback_loop (fuel : nat) (pid : Z) : M unit :=
  match fuel with
  | O => lift NoFuel
  | S f =>
      op <- wait_msg f ;;
      match op with
      | Some 0x40 =>
          sz <- sock_read 1 ;;
          assert (match sz with Some b => bytes_eqb b [0x02] | None => false end) ;;
          rcv_pid <- read_u16 ;;
          if pid =? rcv_pid then ret tt
          else puback_loop f pid
      | _ => puback_loop f pid
      end
  end.

(** [publish] (lines 366-438) *)
Definition publish (fuel : nat) (topic msg : bytes) (retain : bool) (qos : Z)
  : M unit :=
  let pkt := [0x30; 0; 0; 0] in
  pkt <- store_or pkt 0 (Z.lor (Z.shiftl qos 1) (Z.b2z retain)) ;;
  let sz := 2 + len topic + len msg in
  let sz := if qos >? 0 then sz + 2 else sz in
  assert (sz <? 2097152) ;;
  st <- get_strict ;;
  '(pkt, i) <- lift (len_loop fuel st pkt 1 sz) ;;
  sock_write (firstn (i + 1) pkt) ;;
  _send_str topic ;;
  pid <-
    (if qos >? 0 then
       pid <- next_pid ;;
       pkt <- lift (pack_into_H st pkt 0 pid) ;;
       sock_write (firstn 2 pkt) ;;
       ret pid
     else ret 0) ;;
  sock_write msg ;;
  if qos =? 1 then puback_loop fuel pid
  else if qos =? 2 then assert false
  else ret tt.

(** [qos.to_bytes(1, "little")] *)
Definition to_bytes1 (strict : bool) (v : Z) : outcome bytes :=
  if strict && negb (in_range 1 v) then Raise OverflowError
  else Ret [Z.land v 0xFF].

(** The loop of [subscribe] that waits for the SUBACK (lines 474-482); [pkt]
    is the header that was sent, with the identifier in [pkt[2]], [pkt[3]]. *)
Fixpoint suback_loop (fuel : nat) (pkt : bytes) : M unit :=
  match fuel with
  | O => lift NoFuel
  | S f =>
      op <- wait_msg f ;;
      match op with
      | Some 0x90 =>
          resp <- sock_read 4 ;;
          r1 <- item resp 1 ;;
          p2 <- lift (getitem pkt 2) ;;
          ok <- (if r1 =? p2 then
                   r2 <- item resp 2 ;;
                   p3 <- lift (getitem pkt 3) ;;
                   ret (r2 =? p3)
                 else ret false) ;;
          assert ok ;;
          r3 <- item resp 3 ;;
          if r3 =? 0x80 then raise (MQTTException r3)
          else ret tt
      | _ => suback_loop f pkt
      end
  end.

(** [subscribe] (lines 440-482) *)
Definition subscribe (fuel : nat) (topic : bytes) (qos : Z) : M unit :=
  has_cb <- (fun w => (Ret (cb w), w)) ;;
  assert has_cb ;;
  let pkt := [0x82; 0; 0; 0] in
  pid <- next_pid ;;
  st <- get_strict ;;
  pkt <- lift (pack_into_BH st pkt 1 (2 + 2 + len topic + 1) pid) ;;
  sock_write pkt ;;
  _send_str topic ;;
  q <- lift (to_bytes1 st qos) ;;
  sock_write q ;;
  suback_loop fuel pkt.

(** [set_callback] (lines 187-198) *)
Definition set_callback : M unit :=
  fun w => (Ret tt, set_cb w true).

(** ** umqttrobust.MQTTClient *)

(** [log] (lines 93-111) *)
Definition log (in_reconnect : bool) (e : exn) : M unit :=
  fun w =>
    if debug (cfg w) then (Ret tt, set_printed w (printed w ++ [(in_reconnect, e)]))
    else (Ret tt, w).

(** [time.sleep(secs)] *)
Definition sleep (secs : Z) : M unit :=
  fun w => (Ret tt, set_sleeps w (sleeps w ++ [secs])).

(** [reconnect] (lines 113-137); [i] is the loop's counter. *)
Fixpoint reconnect_loop (fuel : nat) (i : Z) : M Z :=
  match fuel with
  | O => lift NoFuel
  | S f =>
      on_OSError (connect f false) (fun errno =>
        log true (OSError errno) ;;
        let i := i + 1 in
        sleep i ;;
        reconnect_loop f i)
  end.

Definition reconnect (fuel : nat) : M Z := reconnect_loop fuel 0.

(** [publish] of the subclass (lines 139-164) *)
Fixpoint robust_publish (fuel : nat) (topic msg : bytes) (retain : bool)
  (qos : Z) : M unit :=
  match fuel with
  | O => lift NoFuel
  | S f =>
      on_OSError (publish f topic msg retain qos) (fun errno =>
        log false (OSError errno) ;;
        reconnect f ;;
        robust_publish f topic msg retain qos)
  end.

(** [wait_msg] of the subclass (lines 166-186) *)
Fixpoint robust_wait_msg (fuel : nat) : M (option Z) :=
  match fuel with
  | O => lift NoFuel
  | S f =>
      on_OSError (wait_msg f) (fun errno =>
        log false (OSError errno) ;;
        reconnect f ;;
        robust_wait_msg f)
  end.


(** The bytes of the remaining-length field inside the header that [publish]
    writes with [self.sock.write(pkt, i + 1)]: everything after [pkt[0]]. *)
Definition length_field (pkt : bytes) (i : nat) : bytes :=
  skipn 1 (firstn (i + 1) pkt).

(** ** What the statements below speak of *)

(** The bytes written so far on the client's socket, and the bytes still to
    be read from it. *)
Definition written (w : client) : bytes :=
  match sock w with Some s => tx s | None => [] end.

Definition unread (w : client) : bytes :=
  match sock w with Some s => rx s | None => [] end.

(** A method keeps a relation between the state before and the state after,
    whatever its outcome. *)
Definition keeps {A : Type} (R : client -> client -> Prop) (m : M A) : Prop :=
  forall (w : client) (o : outcome A) (w' : client), m w = (o, w') -> R w w'.

(** A client with identifier [b"c"], no credentials, no last will, no
    keepalive, on MicroPython. *)
Definition plain_config : config :=
  mkConfig [99] None None 0 None None 0 false false false.

(** A connected, blocking socket on which [incoming] will arrive. *)
Definition fresh_socket (incoming : bytes) (e : rx_end) (writes : option nat)
  : socket :=
  mkSocket incoming e [] writes true false.

(** The client right after [set_callback] and a successful [connect] that left
    it the socket [s]. *)
Definition connected (c : config) (s : socket) (network : list (option socket))
  : client :=
  mkClient c (Some s) 0 true [] network [] [].

(** A value fits a field of [size] bytes, where the platform checks it. *)
Definition fits (st : bool) (size : nat) (v : Z) : Prop :=
  st = true -> in_range size v = true.

(** What the encoder leaves in the buffer of [publish], by the size of [n]. *)
Definition publish_header (hdr n : Z) : bytes * nat :=
  if n <=? 0x7F then ([hdr; n; 0; 0], 1%nat)
  else if n <=? 0x3FFF then
    ([hdr; Z.lor (Z.land n 0x7F) 0x80; Z.shiftr n 7; 0], 2%nat)
  else
    ([hdr; Z.lor (Z.land n 0x7F) 0x80;
      Z.lor (Z.land (Z.shiftr n 7) 0x7F) 0x80; Z.shiftr (Z.shiftr n 7) 7], 3%nat).

(** The bytes of a PUBLISH packet as [publish] writes them: header byte,
    remaining length, topic with its length, the identifier when [qos > 0],
    the payload. *)
Definition publish_size (topic msg : bytes) (qos : Z) : Z :=
  let sz := 2 + len topic + len msg in
  if qos >? 0 then sz + 2 else sz.

Definition publish_packet (topic msg : bytes) (retain : bool) (qos id : Z)
  : bytes :=
  let hdr := Z.lor 0x30 (Z.lor (Z.shiftl qos 1) (Z.b2z retain)) in
  let (pkt, i) := publish_header hdr (publish_size topic msg qos) in
  firstn (i + 1) pkt ++ be_bytes 2 (len topic) ++ topic ++
  (if qos >? 0 then be_bytes 2 id else []) ++ msg.

(** The bytes of a SUBSCRIBE packet as [subscribe] writes them. *)
Definition subscribe_header (topic : bytes) (id : Z) : bytes :=
  0x82 :: be_bytes 1 (2 + 2 + len topic + 1) ++ be_bytes 2 id.

Definition subscribe_packet (topic : bytes) (qos id : Z) : bytes :=
  subscribe_header topic id ++ be_bytes 2 (len topic) ++ topic ++ [Z.land qos 0xFF].






(** The state between two calls: same identifier counter and configuration,
    and the bytes still unread are a suffix of those unread before. *)
Definition reads_on (w w' : client) : Prop :=
  pid w' = pid w /\ cfg w' = cfg w /\ cb w' = cb w /\
  exists pre : bytes, unread w = pre ++ unread w'.

(** The state after a step that read nothing: same unread bytes, same
    identifier counter, configuration and callback. *)
Definition only_writes (w w' : client) : Prop :=
  unread w' = unread w /\ pid w' = pid w /\ cfg w' = cfg w /\ cb w' = cb w.

(** What [publish] does after its packet is out. *)
Definition publish_rest (fuel : nat) (qos id : Z) : M unit :=
  if qos =? 1 then puback_loop fuel id
  else if qos =? 2 then assert false else ret tt.

(** A server that answers a CONNECT with CONNACK, return code 0, and then
    sends [then_]; [e] is what follows and [writes] how many writes it takes. *)
Definition connack_ok : bytes := [0x20; 0x02; 0; 0].

Definition server (then_ : bytes) (e : rx_end) (writes : option nat) : socket :=
  fresh_socket (connack_ok ++ then_) e writes.

(** The CONNECT packet of [plain_config] with [clean_session = False]. *)
Definition connect_packet_plain : bytes :=
  [0x10; 13; 0; 4; 77; 81; 84; 84; 4; 0; 0; 0; 0; 1; 99].

(** One to [k], the sleeps of [k] failed connection attempts in a row. *)
Definition backoff (k : nat) : list Z := map Z.of_nat (seq 1 k).

(** ** More of the two modules and of their callers *)


Definition set_cfg (w : client) (c : config) : client :=
  mkClient c (sock w) (pid w) (cb w) (delivered w) (net w) (sleeps w) (printed w).

(** [set_last_will] (lines 201-226): the two assertions, then the four
    attributes. *)
Definition set_last_will (topic msg : bytes) (retain : bool) (qos : Z) : M unit :=
  assert ((0 <=? qos) && (qos <=? 2)) ;;
  assert (match topic with [] => false | _ => true end) ;;
  fun w =>
    (Ret tt,
     set_cfg w
       (mkConfig (client_id (cfg w)) (user (cfg w)) (pswd (cfg w))
          (keepalive (cfg w)) (Some topic) (Some msg) qos retain
          (debug (cfg w)) (strict (cfg w)))).

(** [timer_callback] of MQTT_Pub.py and MQTT_Sub.py: the global
    [timer_count] beside the client.  The count is stored before [ping] is
    called. *)
Definition timer_callback (st : Z * client) : outcome unit * (Z * client) :=
  let (timer_count, w) := st in
  let timer_count := timer_count + 1 in
  if timer_count >=? 30 then
    let (o, w') := ping w in (o, (0, w'))
  else (Ret tt, (timer_count, w)).

(** [n] timer ticks, as long as the callback returns. *)
Fixpoint ticks (n : nat) (st : Z * client) : outcome unit * (Z * client) :=
  match n with
  | O => (Ret tt, st)
  | S n' =>
      match timer_callback st with
      | (Ret _, st') => ticks n' st'
      | r => r
      end
  end.

(** The length bytes of [sz], least significant group first, as the encoder
    loop produces them one per round. *)
Fixpoint varint_bytes (fuel : nat) (sz : Z) : bytes :=
  if sz >? 0x7F then
    match fuel with
    | O => []
    | S f => Z.lor (Z.land sz 0x7F) 0x80 :: varint_bytes f (Z.shiftr sz 7)
    end
  else [sz].

(** The number a sequence of length bytes stands for, the first byte at
    shift [sh]. *)
Fixpoint varint_value (bs : bytes) (sh : Z) : Z :=
  match bs with
  | [] => 0
  | b :: rest => Z.lor (Z.shiftl (Z.land b 0x7F) sh) (varint_value rest (sh + 7))
  end.

(** A byte that announces another length byte. *)
Definition continues (b : Z) : Prop := Z.land b 0x80 <> 0.

(** The bytes of a CONNECT packet as [connect] writes them. *)
Definition mqtt_str (s : bytes) : bytes := be_bytes 2 (len s) ++ s.

Definition opt_bytes (x : option bytes) : bytes :=
  match x with Some b => b | None => [] end.

Definition will_flags (c : config) : Z :=
  Z.lor (Z.lor (Z.lor 0x4 (Z.shiftl (Z.land (lw_qos c) 0x1) 3))
               (Z.shiftl (Z.land (lw_qos c) 0x2) 3))
        (Z.shiftl (Z.b2z (lw_retain c)) 5).

Definition connect_flags (c : config) (clean_session : bool) : Z :=
  let f := Z.shiftl (Z.b2z clean_session) 1 in
  let f := match user c with Some _ => Z.lor f 0xC0 | None => f end in
  if truthy (lw_topic c) then Z.lor f (will_flags c) else f.

Definition connect_size (c : config) : Z :=
  10 + 2 + len (client_id c)
  + match user c with
    | Some u => 2 + len u + 2 + len (opt_bytes (pswd c))
    | None => 0
    end
  + (if truthy (lw_topic c)
     then 2 + len (opt_bytes (lw_topic c)) + 2 + len (opt_bytes (lw_msg c))
     else 0).

Definition connect_packet (c : config) (clean_session : bool) : bytes :=
  0x10 :: varint_bytes 3 (connect_size c) ++
  [0; 0x04; 77; 81; 84; 84; 0x04; connect_flags c clean_session;
   Z.shiftr (keepalive c) 8; Z.land (keepalive c) 0x00FF] ++
  mqtt_str (client_id c) ++
  (if truthy (lw_topic c)
   then mqtt_str (opt_bytes (lw_topic c)) ++ mqtt_str (opt_bytes (lw_msg c))
   else []) ++
  match user c with
  | Some u => mqtt_str u ++ mqtt_str (opt_bytes (pswd c))
  | None => []
  end.

(** What [connect] does once the CONNECT packet is out (lines 329-340). *)
Definition read_connack : M Z :=
  resp <- sock_read 4 ;;
  r0 <- item resp 0 ;;
  ok <- (if r0 =? 0x20 then r1 <- item resp 1 ;; ret (r1 =? 0x02)
         else ret false) ;;
  assert ok ;;
  r3 <- item resp 3 ;;
  if negb (r3 =? 0) then raise (MQTTException r3)
  else
    r2 <- item resp 2 ;;
    ret (Z.land r2 1).

(** The PUBACK that [wait_msg] writes for an inbound QoS 1 PUBLISH. *)
Definition puback_packet (id : Z) : bytes := [0x40; 0x02] ++ be_bytes 2 id.

(** What [wait_msg] does after the callback has returned. *)
Definition after_delivery (op id : Z) : M (option Z) :=
  (if Z.land op 6 =? 2 then
     st <- get_strict ;;
     pkt <- lift (pack_into_H st [0x40; 0x02; 0; 0] 2 id) ;;
     sock_write pkt
   else if Z.land op 6 =? 4 then assert false
   else ret tt) ;;
  ret (Some op).

(** [k] PINGREQ packets in a row. *)
Fixpoint pings (k : nat) : bytes :=
  match k with
  | O => []
  | S k' => [0xc0; 0] ++ pings k'
  end.

(** * Properties *)

#[local] Arguments Z.shiftl : simpl never.
#[local] Arguments Z.shiftr : simpl never.
#[local] Arguments Z.land : simpl never.
#[local] Arguments Z.lor : simpl never.
#[local] Arguments Z.add : simpl never.
#[local] Arguments Z.sub : simpl never.
#[local] Arguments Z.mul : simpl never.
#[local] Arguments Z.of_nat : simpl never.
#[local] Arguments Z.to_nat : simpl never.

(** Unfold the monad's plumbing and compute what is determined. *)
Ltac run :=
  unfold bind, assert, lift, ret, raise, item, getitem, get_strict, on_OSError;
  cbn.

(** ** Bit arithmetic of the length bytes *)

Lemma land_0xFF_small (v : Z) : 0 <= v < 256 -> Z.land v 0xFF = v.
Proof.
  intros H. change 0xFF with (Z.ones 8).
  rewrite Z.land_ones by lia. apply Z.mod_small. exact H.
Qed.

Lemma land_0x7F_range (v : Z) : 0 <= Z.land v 0x7F < 128.
Proof.
  change 0x7F with (Z.ones 7). rewrite Z.land_ones by lia.
  apply Z.mod_pos_bound. lia.
Qed.

Lemma land_0x7F_small (v : Z) : 0 <= v < 128 -> Z.land v 0x7F = v.
Proof.
  intros H. change 0x7F with (Z.ones 7).
  rewrite Z.land_ones by lia. apply Z.mod_small. exact H.
Qed.

Lemma land_0x80_small (v : Z) : 0 <= v < 128 -> Z.land v 0x80 = 0.
Proof.
  intros H. apply Z.bits_inj'. intros k Hk.
  rewrite Z.land_spec, Z.bits_0.
  destruct (Z.eq_dec k 7) as [->|Hne].
  - replace (Z.testbit v 7) with false; [reflexivity|].
    symmetry. destruct (Z.eq_dec v 0) as [->|Hv]; [apply Z.bits_0|].
    apply Z.bits_above_log2; [lia|].
    apply Z.log2_lt_pow2; lia.
  - replace (Z.testbit 0x80 k) with false; [apply andb_false_r|].
    symmetry. change 0x80 with (2 ^ 7). apply Z.pow2_bits_false. lia.
Qed.

Lemma cont_byte_add (v : Z) :
  Z.lor (Z.land v 0x7F) 0x80 = Z.land v 0x7F + 128.
Proof.
  assert (H : Z.land (Z.land v 0x7F) 0x80 = 0)
    by apply land_0x80_small, land_0x7F_range.
  change 128 with 0x80.
  rewrite (Z.add_nocarry_lxor _ _ H). symmetry. apply Z.lxor_lor, H.
Qed.

Lemma cont_byte_range (v : Z) : 0 <= Z.lor (Z.land v 0x7F) 0x80 < 256.
Proof. rewrite cont_byte_add. pose proof (land_0x7F_range v). lia. Qed.

Lemma cont_byte_low (v : Z) :
  Z.land (Z.lor (Z.land v 0x7F) 0x80) 0x7F = Z.land v 0x7F.
Proof.
  rewrite Z.land_lor_distr_l, <- Z.land_assoc.
  change (Z.land 0x7F 0x7F) with 0x7F. change (Z.land 0x80 0x7F) with 0.
  apply Z.lor_0_r.
Qed.

Lemma cont_byte_high (v : Z) :
  Z.land (Z.lor (Z.land v 0x7F) 0x80) 0x80 = 0x80.
Proof.
  rewrite Z.land_lor_distr_l, <- Z.land_assoc.
  change (Z.land 0x7F 0x80) with 0. rewrite Z.land_0_r.
  reflexivity.
Qed.

(** Seven low bits and the rest. *)
Lemma split7 (v : Z) :
  Z.lor (Z.land v 0x7F) (Z.shiftl (Z.shiftr v 7) 7) = v.
Proof.
  change 0x7F with (Z.ones 7).
  rewrite <- Z.ldiff_ones_r by lia.
  rewrite Z.lor_comm. apply Z.lor_ldiff_and.
Qed.

Lemma shiftr7_bound (v b : Z) : 0 <= v < 128 * b -> 0 <= Z.shiftr v 7 < b.
Proof.
  intros H. rewrite Z.shiftr_div_pow2 by lia. change (2 ^ 7) with 128.
  split; [apply Z.div_pos; lia|apply Z.div_lt_upper_bound; lia].
Qed.

(** ** Running the monad *)

Lemma bind_Ret {A B : Type} (m : M A) (k : A -> M B) (w w' : client) (a : A) :
  m w = (Ret a, w') -> bind m k w = k a w'.
Proof. unfold bind. intros ->. reflexivity. Qed.

Lemma bind_Raise {A B : Type} (m : M A) (k : A -> M B) (w w' : client) (e : exn) :
  m w = (Raise e, w') -> bind m k w = (Raise e, w').
Proof. unfold bind. intros ->. reflexivity. Qed.


Lemma bind_ret {A B : Type} (a : A) (k : A -> M B) (w : client) :
  bind (ret a) k w = k a w.
Proof. reflexivity. Qed.

Lemma bind_lift_Ret {A B : Type} (a : A) (k : A -> M B) (w : client) :
  bind (lift (Ret a)) k w = k a w.
Proof. reflexivity. Qed.

Lemma bind_get_strict {B : Type} (k : bool -> M B) (w : client) :
  bind get_strict k w = k (strict (cfg w)) w.
Proof. reflexivity. Qed.

Lemma bind_assert_true {B : Type} (k : unit -> M B) (w : client) :
  bind (assert true) k w = k tt w.
Proof. reflexivity. Qed.

Lemma bind_assoc {A B C : Type} (m : M A) (k1 : A -> M B) (k2 : B -> M C)
  (w : client) :
  bind (bind m k1) k2 w = bind m (fun a => bind (k1 a) k2) w.
Proof. unfold bind. destruct (m w) as [[a|e| |] w']; reflexivity. Qed.

Lemma bind_next_pid {B : Type} (k : Z -> M B) (w : client) (x : option socket) :
  bind next_pid k (set_sock w x) =
  k (pid w + 1) (set_sock (set_pid w (pid w + 1)) x).
Proof. reflexivity. Qed.

(** A read of bytes that are all in flight returns them and leaves the rest. *)
Lemma sock_read_exact (w : client) (s : socket) (n : Z) (pre rest : bytes) :
  sock w = Some s -> closed s = false ->
  rx s = pre ++ rest -> len pre = n ->
  sock_read n w = (Ret (Some pre), set_sock w (Some (set_rx s rest))).
Proof.
  intros Hs Hc Hrx Hn. unfold sock_read. rewrite Hs, Hc.
  unfold len in Hn. subst n.
  replace (Z.of_nat (length pre) <? -1) with false by (symmetry; apply Z.ltb_ge; lia).
  replace (0 <=? Z.of_nat (length pre)) with true by (symmetry; apply Z.leb_le; lia).
  rewrite Nat2Z.id, Hrx, length_app. cbn [andb].
  replace (length pre <=? length pre + length rest)%nat with true
    by (symmetry; apply Nat.leb_le; lia).
  rewrite firstn_app, Nat.sub_diag, firstn_all, firstn_O, app_nil_r.
  rewrite skipn_app, Nat.sub_diag, skipn_all. reflexivity.
Qed.

Lemma sock_read_byte (w : client) (s : socket) (b : Z) (rest : bytes) :
  sock w = Some s -> closed s = false -> rx s = b :: rest ->
  sock_read 1 w = (Ret (Some [b]), set_sock w (Some (set_rx s rest))).
Proof.
  intros Hs Hc Hrx. apply (sock_read_exact w s 1 [b] rest); auto.
Qed.

(** One round of the decoder on a byte with the top bit set, and on the last
    byte. *)
Lemma _recv_len_loop_more (f : nat) (n sh : Z) (w : client) (s : socket)
  (b : Z) (rest : bytes) :
  sock w = Some s -> closed s = false -> rx s = b :: rest ->
  Z.land b 0x80 <> 0 ->
  _recv_len_loop (S f) n sh w =
  _recv_len_loop f (Z.lor n (Z.shiftl (Z.land b 0x7F) sh)) (sh + 7)
    (set_sock w (Some (set_rx s rest))).
Proof.
  intros Hs Hc Hrx Hb. cbn [_recv_len_loop].
  rewrite (bind_Ret _ _ _ _ _ (sock_read_byte w s b rest Hs Hc Hrx)).
  cbn. apply Z.eqb_neq in Hb. rewrite Hb. reflexivity.
Qed.

Lemma _recv_len_loop_last (f : nat) (n sh : Z) (w : client) (s : socket)
  (b : Z) (rest : bytes) :
  sock w = Some s -> closed s = false -> rx s = b :: rest ->
  Z.land b 0x80 = 0 ->
  _recv_len_loop (S f) n sh w =
  (Ret (Z.lor n (Z.shiftl (Z.land b 0x7F) sh)),
   set_sock w (Some (set_rx s rest))).
Proof.
  intros Hs Hc Hrx Hb. cbn [_recv_len_loop].
  rewrite (bind_Ret _ _ _ _ _ (sock_read_byte w s b rest Hs Hc Hrx)).
  cbn. apply Z.eqb_eq in Hb. rewrite Hb. reflexivity.
Qed.

Lemma in_range_1 (v : Z) : 0 <= v < 256 -> in_range 1 v = true.
Proof.
  intros H. unfold in_range. apply andb_true_iff.
  split; [apply Z.leb_le|apply Z.ltb_lt]; cbn; lia.
Qed.

Lemma setitem_ok (st : bool) (buf : bytes) (i : nat) (v : Z) :
  (i < length buf)%nat -> 0 <= v < 256 ->
  setitem st buf i v = Ret (firstn i buf ++ v :: skipn (S i) buf).
Proof.
  intros Hi Hv. unfold setitem.
  apply Nat.ltb_lt in Hi. rewrite Hi, (in_range_1 v Hv), andb_false_r.
  cbn [negb]. rewrite land_0xFF_small by exact Hv. reflexivity.
Qed.

Lemma len_loop_more (f : nat) (st : bool) (pkt : bytes) (i : nat) (sz : Z) :
  0x7F < sz -> (i < length pkt)%nat ->
  len_loop (S f) st pkt i sz =
  len_loop f st (firstn i pkt ++ Z.lor (Z.land sz 0x7F) 0x80 :: skipn (S i) pkt)
    (S i) (Z.shiftr sz 7).
Proof.
  intros Hsz Hi. cbn [len_loop].
  replace (sz >? 0x7F) with true by (symmetry; rewrite Z.gtb_ltb; apply Z.ltb_lt; lia).
  rewrite setitem_ok by (auto using cont_byte_range). reflexivity.
Qed.

Lemma len_loop_last (f : nat) (st : bool) (pkt : bytes) (i : nat) (sz : Z) :
  0 <= sz <= 0x7F -> (i < length pkt)%nat ->
  len_loop f st pkt i sz = Ret (firstn i pkt ++ sz :: skipn (S i) pkt, i).
Proof.
  intros Hsz Hi.
  assert (Hgt : (sz >? 0x7F) = false) by (rewrite Z.gtb_ltb; apply Z.ltb_ge; lia).
  destruct f; cbn [len_loop]; rewrite Hgt, setitem_ok by (auto; lia); reflexivity.
Qed.

Lemma len_loop_publish (fuel : nat) (st : bool) (hdr n : Z) :
  0 <= n < 2097152 -> (2 <= fuel)%nat ->
  len_loop fuel st [hdr; 0; 0; 0] 1 n = Ret (publish_header hdr n).
Proof.
  intros Hn Hf. unfold publish_header.
  destruct (Z.leb_spec n 0x7F) as [H1|H1].
  - rewrite len_loop_last by (cbn [length]; lia). reflexivity.
  - destruct fuel as [|[|f]]; try lia.
    rewrite len_loop_more by (cbn [length]; lia). cbn [firstn skipn app].
    destruct (Z.leb_spec n 0x3FFF) as [H2|H2].
    + pose proof (shiftr7_bound n 128 ltac:(lia)).
      rewrite len_loop_last by (cbn [length]; lia). reflexivity.
    + pose proof (shiftr7_bound n 16384 ltac:(lia)).
      assert (128 <= Z.shiftr n 7).
      { rewrite Z.shiftr_div_pow2 by lia. apply Z.div_le_lower_bound; lia. }
      rewrite len_loop_more by (cbn [length]; lia). cbn [firstn skipn app].
      pose proof (shiftr7_bound (Z.shiftr n 7) 128 ltac:(lia)).
      rewrite len_loop_last by (cbn [length]; lia). reflexivity.
Qed.

(** ** Remaining-length round trip *)

(** C1.  For every [n] with [0 <= n < 2097152], the encoder loop of [publish]
    on its four-byte packet buffer returns, and [_recv_len] reading the length
    bytes it produced (whatever follows them on the stream) returns [n] and
    leaves what follows unread. *)
Theorem remaining_length_roundtrip (n : Z) (fuel : nat) (st : bool) (hdr : Z)
  (w : client) (s : socket) (rest : bytes) :
  0 <= n < 2097152 -> (3 <= fuel)%nat -> closed s = false ->
  exists (pkt : bytes) (i : nat),
    len_loop fuel st [hdr; 0; 0; 0] 1 n = Ret (pkt, i) /\
    _recv_len fuel (set_sock w (Some (set_rx s (length_field pkt i ++ rest)))) =
    (Ret n, set_sock w (Some (set_rx s rest))).
Proof.
  intros Hn Hf Hc.
  exists (fst (publish_header hdr n)), (snd (publish_header hdr n)).
  split.
  - rewrite len_loop_publish by lia. destruct (publish_header hdr n); reflexivity.
  - unfold publish_header, _recv_len.
    destruct fuel as [|[|[|f]]]; try lia.
    destruct (Z.leb_spec n 0x7F) as [H1|H1]; [|destruct (Z.leb_spec n 0x3FFF) as [H2|H2]];
      cbn [fst snd length_field Nat.add firstn skipn app].
    + erewrite _recv_len_loop_last; try reflexivity; try assumption.
      * rewrite Z.shiftl_0_r, land_0x7F_small by lia. reflexivity.
      * apply land_0x80_small. lia.
    + pose proof (shiftr7_bound n 128 ltac:(lia)).
      erewrite _recv_len_loop_more; try reflexivity; try assumption.
      2: { rewrite cont_byte_high. discriminate. }
      erewrite _recv_len_loop_last; try reflexivity; try assumption.
      2: { apply land_0x80_small. lia. }
      rewrite cont_byte_low, Z.shiftl_0_r.
      rewrite (land_0x7F_small (Z.shiftr n 7)) by lia.
      change (0 + 7) with 7. rewrite Z.lor_0_l, split7. reflexivity.
    + pose proof (shiftr7_bound n 16384 ltac:(lia)).
      pose proof (shiftr7_bound (Z.shiftr n 7) 128 ltac:(lia)).
      erewrite _recv_len_loop_more; try reflexivity; try assumption.
      2: { rewrite cont_byte_high. discriminate. }
      erewrite _recv_len_loop_more; try reflexivity; try assumption.
      2: { rewrite cont_byte_high. discriminate. }
      erewrite _recv_len_loop_last; try reflexivity; try assumption.
      2: { apply land_0x80_small. lia. }
      rewrite !cont_byte_low, Z.shiftl_0_r.
      rewrite (land_0x7F_small (Z.shiftr (Z.shiftr n 7) 7)) by lia.
      change (0 + 7 + 7) with 14. change (0 + 7) with 7.
      rewrite Z.lor_0_l, <- Z.lor_assoc.
      replace (Z.shiftl (Z.shiftr (Z.shiftr n 7) 7) 14)
        with (Z.shiftl (Z.shiftl (Z.shiftr (Z.shiftr n 7) 7) 7) 7)
        by (rewrite Z.shiftl_shiftl by lia; reflexivity).
      rewrite <- Z.shiftl_lor, split7, split7. reflexivity.
Qed.

Lemma remaining_length_roundtrip_witness :
  exists (pkt : bytes) (i : nat),
    len_loop 3 false [0x30; 0; 0; 0] 1 300 = Ret (pkt, i) /\
    _recv_len 3
      (set_sock (connected plain_config (fresh_socket [] Silent None) [])
         (Some (set_rx (fresh_socket [] Silent None) (length_field pkt i ++ [7])))) =
    (Ret 300,
     set_sock (connected plain_config (fresh_socket [] Silent None) [])
       (Some (set_rx (fresh_socket [] Silent None) [7]))).
Proof.
  apply (remaining_length_roundtrip 300 3 false 0x30 _ _ [7]);
    [lia | lia | reflexivity].
Defined.

(** ** Socket operations on an open socket *)

Lemma sock_write_ok (w : client) (s : socket) (d : bytes) :
  closed s = false -> wbudget s = None ->
  sock_write d (set_sock w (Some s)) = (Ret tt, set_sock w (Some (sent s d None))).
Proof. intros Hc Hb. unfold sock_write. cbn. rewrite Hc, Hb. reflexivity. Qed.

Lemma sock_write_spend (w : client) (s : socket) (d : bytes) (k : nat) :
  closed s = false -> wbudget s = Some (S k) ->
  sock_write d (set_sock w (Some s)) =
  (Ret tt, set_sock w (Some (sent s d (Some k)))).
Proof. intros Hc Hb. unfold sock_write. cbn. rewrite Hc, Hb. reflexivity. Qed.

Lemma sock_write_fails (w : client) (s : socket) (d : bytes) :
  closed s = false -> wbudget s = Some O ->
  sock_write d (set_sock w (Some s)) =
  (Raise (OSError ECONNRESET), set_sock w (Some s)).
Proof. intros Hc Hb. unfold sock_write. cbn. rewrite Hc, Hb. reflexivity. Qed.

Lemma sock_read_1 (w : client) (s : socket) (b : Z) (rest : bytes) :
  closed s = false -> rx s = b :: rest ->
  sock_read 1 (set_sock w (Some s)) =
  (Ret (Some [b]), set_sock w (Some (set_rx s rest))).
Proof.
  intros Hc Hrx. rewrite (sock_read_byte _ s b rest); auto.
Qed.

Lemma sock_read_n (w : client) (s : socket) (pre rest : bytes) :
  closed s = false -> rx s = pre ++ rest ->
  sock_read (len pre) (set_sock w (Some s)) =
  (Ret (Some pre), set_sock w (Some (set_rx s rest))).
Proof.
  intros Hc Hrx. rewrite (sock_read_exact _ s (len pre) pre rest); auto.
Qed.

Lemma read_u16_ok (w : client) (s : socket) (a b : Z) (rest : bytes) :
  closed s = false -> rx s = a :: b :: rest ->
  read_u16 (set_sock w (Some s)) =
  (Ret (Z.lor (Z.shiftl a 8) b), set_sock w (Some (set_rx s rest))).
Proof.
  intros Hc Hrx. unfold read_u16.
  rewrite (bind_Ret _ _ _ _ _ (sock_read_n w s [a; b] rest Hc Hrx)).
  reflexivity.
Qed.

(** ** wait_msg on a packet that is neither PUBLISH nor PINGRESP *)

Lemma wait_msg_other (f : nat) (w : client) (s : socket) (op : Z) (rest : bytes) :
  closed s = false -> rx s = op :: rest ->
  op <> 0xD0 -> Z.land op 0xF0 <> 0x30 ->
  wait_msg f (set_sock w (Some s)) =
  (Ret (Some op), set_sock w (Some (set_rx s rest))).
Proof.
  intros Hc Hrx Hd Hp. unfold wait_msg.
  rewrite (bind_Ret _ _ _ _ _ (sock_read_1 w s op rest Hc Hrx)).
  cbn [bytes_eqb]. apply Z.eqb_neq in Hd, Hp. rewrite Hd, Hp. reflexivity.
Qed.

(** One round of the PUBACK loop on a PUBACK packet: the three bytes after
    the opcode are read here, and the loop ends iff the identifier matches. *)
Lemma puback_loop_puback (f : nat) (p : Z) (w : client) (s : socket)
  (hi lo : Z) (rest : bytes) :
  closed s = false -> rx s = 0x40 :: 0x02 :: hi :: lo :: rest ->
  puback_loop (S f) p (set_sock w (Some s)) =
  if p =? Z.lor (Z.shiftl hi 8) lo
  then (Ret tt, set_sock w (Some (set_rx s rest)))
  else puback_loop f p (set_sock w (Some (set_rx s rest))).
Proof.
  intros Hc Hrx. cbn [puback_loop].
  rewrite (bind_Ret _ _ _ _ _
             (wait_msg_other f w s 0x40 _ Hc Hrx ltac:(discriminate) ltac:(discriminate))).
  cbv match.
  rewrite (bind_Ret _ _ _ _ _
             (sock_read_1 _ (set_rx s (0x02 :: hi :: lo :: rest)) 0x02 _ Hc eq_refl)).
  cbn [bytes_eqb Z.eqb Pos.eqb andb assert].
  rewrite (bind_Ret _ _ _ _ tt eq_refl).
  rewrite (bind_Ret _ _ _ _ _
             (read_u16_ok _ (set_rx (set_rx s (0x02 :: hi :: lo :: rest)) (hi :: lo :: rest))
                hi lo rest Hc eq_refl)).
  destruct (p =? Z.lor (Z.shiftl hi 8) lo); reflexivity.
Qed.

(** One round of the SUBACK loop on a SUBACK packet: the four bytes after the
    opcode are read here. *)
Lemma suback_loop_suback (f : nat) (pkt : bytes) (w : client) (s : socket)
  (h0 h1 p2 p3 r0 g : Z) (rest : bytes) :
  closed s = false -> pkt = [h0; h1; p2; p3] ->
  rx s = 0x90 :: r0 :: p2 :: p3 :: g :: rest -> g <> 0x80 ->
  suback_loop (S f) pkt (set_sock w (Some s)) =
  (Ret tt, set_sock w (Some (set_rx s rest))).
Proof.
  intros Hc -> Hrx Hg. cbn [suback_loop].
  rewrite (bind_Ret _ _ _ _ _
             (wait_msg_other f w s 0x90 _ Hc Hrx ltac:(discriminate) ltac:(discriminate))).
  cbv match.
  rewrite (bind_Ret _ _ _ _ _
             (sock_read_n _ (set_rx s (r0 :: p2 :: p3 :: g :: rest))
                [r0; p2; p3; g] rest Hc eq_refl)).
  run. rewrite !Z.eqb_refl. cbn.
  apply Z.eqb_neq in Hg. rewrite Hg. reflexivity.
Qed.

(** ** Packets that wait_msg only names *)

(** C9.  For an inbound packet whose first byte is neither a PUBLISH header
    (high nibble 0x30) nor PINGRESP (0xD0), [wait_msg] returns that byte and
    has read nothing else: the remaining-length byte and the body stay on the
    stream, nothing is written and nothing is delivered.  The three bytes
    after a PUBACK opcode are read by the loop of [publish] and the four bytes
    after a SUBACK opcode by the loop of [subscribe]; a PUBACK met by a plain
    [wait_msg] leaves its length byte and identifier unread. *)
Theorem wait_msg_leaves_body_unread (f : nat) (w : client) (s : socket)
  (op : Z) (rest : bytes) :
  closed s = false -> op <> 0xD0 -> Z.land op 0xF0 <> 0x30 ->
  wait_msg f (set_sock w (Some (set_rx s (op :: rest)))) =
    (Ret (Some op), set_sock w (Some (set_rx s rest)))
  /\ (forall (hi lo : Z),
        puback_loop (S f) (Z.lor (Z.shiftl hi 8) lo)
          (set_sock w (Some (set_rx s (0x40 :: 0x02 :: hi :: lo :: rest)))) =
        (Ret tt, set_sock w (Some (set_rx s rest))))
  /\ (forall (h0 h1 p2 p3 r0 g : Z), g <> 0x80 ->
        suback_loop (S f) [h0; h1; p2; p3]
          (set_sock w (Some (set_rx s (0x90 :: r0 :: p2 :: p3 :: g :: rest)))) =
        (Ret tt, set_sock w (Some (set_rx s rest))))
  /\ (forall (hi lo : Z),
        wait_msg f (set_sock w (Some (set_rx s (0x40 :: 0x02 :: hi :: lo :: rest)))) =
        (Ret (Some 0x40), set_sock w (Some (set_rx s (0x02 :: hi :: lo :: rest))))).
Proof.
  intros Hc Hd Hp. repeat split.
  - rewrite (wait_msg_other f w _ op rest); auto.
  - intros hi lo. rewrite (puback_loop_puback f _ w _ hi lo rest); auto.
    rewrite Z.eqb_refl. reflexivity.
  - intros h0 h1 p2 p3 r0 g Hg.
    rewrite (suback_loop_suback f _ w _ h0 h1 p2 p3 r0 g rest); auto.
  - intros hi lo. rewrite (wait_msg_other f w _ 0x40 (0x02 :: hi :: lo :: rest)); auto;
      discriminate.
Qed.

Lemma wait_msg_leaves_body_unread_witness :
  wait_msg 0 (set_sock (init plain_config [])
                (Some (set_rx (fresh_socket [] Silent None) [0x40; 0x02; 0; 7]))) =
  (Ret (Some 0x40),
   set_sock (init plain_config [])
     (Some (set_rx (fresh_socket [] Silent None) [0x02; 0; 7]))).
Proof.
  apply (wait_msg_leaves_body_unread 0 (init plain_config [])
           (fresh_socket [] Silent None) 0x40 [0x02; 0; 7]);
    [reflexivity | discriminate | discriminate].
Defined.

(** ** disconnect *)

(** C5, as the code has it.  [disconnect] writes the two bytes of DISCONNECT
    and closes the socket when the write returns; when the write raises, the
    exception leaves [disconnect] at once and the socket is left as it was,
    not closed. *)
Theorem disconnect_closes_after_write (w : client) (s : socket) :
  closed s = false ->
  (wbudget s = None ->
     disconnect (set_sock w (Some s)) =
     (Ret tt, set_sock w (Some (set_closed (sent s [0xe0; 0] None)))))
  /\ (forall k : nat, wbudget s = Some (S k) ->
     disconnect (set_sock w (Some s)) =
     (Ret tt, set_sock w (Some (set_closed (sent s [0xe0; 0] (Some k))))))
  /\ (wbudget s = Some O ->
     disconnect (set_sock w (Some s)) =
     (Raise (OSError ECONNRESET), set_sock w (Some s)))
  /\ (forall (e : exn) (w' : client),
     sock_write [0xe0; 0] (set_sock w (Some s)) = (Raise e, w') ->
     disconnect (set_sock w (Some s)) = (Raise e, w') /\ sock w' = Some s).
Proof.
  intros Hc. unfold disconnect. repeat split.
  - intros Hb. rewrite (bind_Ret _ _ _ _ _ (sock_write_ok w s _ Hc Hb)). reflexivity.
  - intros k Hb. rewrite (bind_Ret _ _ _ _ _ (sock_write_spend w s _ k Hc Hb)). reflexivity.
  - intros Hb. rewrite (bind_Raise _ _ _ _ _ (sock_write_fails w s _ Hc Hb)). reflexivity.
  - rewrite (bind_Raise _ _ _ _ _ H). reflexivity.
  - revert H. unfold sock_write. cbn. rewrite Hc.
    destruct (wbudget s) as [[|k]|]; intros H; inversion H; reflexivity.
Qed.

Lemma disconnect_closes_after_write_witness :
  disconnect (set_sock (init plain_config []) (Some (fresh_socket [] Silent (Some O)))) =
  (Raise (OSError ECONNRESET),
   set_sock (init plain_config []) (Some (fresh_socket [] Silent (Some O)))).
Proof.
  apply (disconnect_closes_after_write (init plain_config [])
           (fresh_socket [] Silent (Some O)) eq_refl).
  reflexivity.
Defined.

(** C5, as stated, fails: on a connected socket whose write raises,
    [disconnect] ends in [OSError] and the socket is still open. *)
Lemma disconnect_write_failure_leaves_open :
  exists (w' : client) (s' : socket),
    disconnect (connected plain_config (fresh_socket [] Silent (Some O)) []) =
    (Raise (OSError ECONNRESET), w')
    /\ sock w' = Some s' /\ closed s' = false.
Proof. eexists. eexists. repeat split. Qed.

(** ** Writing packets *)

Lemma sent_sent (s : socket) (a b : bytes) (l1 l2 : option nat) :
  sent (sent s a l1) b l2 = sent s (a ++ b) l2.
Proof. unfold sent. cbn. rewrite app_assoc. reflexivity. Qed.

Lemma pack_uint_ok (st : bool) (size : nat) (v : Z) :
  fits st size v -> pack_uint st size v = Ret (be_bytes size v).
Proof.
  unfold fits, pack_uint. intros H. destruct st; [|reflexivity].
  rewrite H by reflexivity. reflexivity.
Qed.

Lemma fits_loose (size : nat) (v : Z) : fits false size v.
Proof. unfold fits. discriminate. Qed.

Lemma fits_range (st : bool) (size : nat) (v : Z) :
  0 <= v < 2 ^ (8 * Z.of_nat size) -> fits st size v.
Proof.
  intros H _. unfold in_range. apply andb_true_iff.
  split; [apply Z.leb_le|apply Z.ltb_lt]; lia.
Qed.

Lemma _send_str_ok (w : client) (s : socket) (b : bytes) :
  closed s = false -> wbudget s = None -> fits (strict (cfg w)) 2 (len b) ->
  _send_str b (set_sock w (Some s)) =
  (Ret tt, set_sock w (Some (sent s (be_bytes 2 (len b) ++ b) None))).
Proof.
  intros Hc Hb Hf. unfold _send_str.
  rewrite bind_get_strict. cbn [cfg set_sock].
  rewrite (pack_uint_ok _ _ _ Hf), bind_lift_Ret.
  rewrite (bind_Ret _ _ _ _ _ (sock_write_ok w s _ Hc Hb)).
  rewrite sock_write_ok by (cbn; first [assumption | reflexivity]).
  rewrite sent_sent. reflexivity.
Qed.

Lemma be_bytes_2 (v : Z) :
  be_bytes 2 v = [Z.land (Z.shiftr v 8) 0xFF; Z.land v 0xFF].
Proof. cbn [be_bytes]. rewrite Z.shiftr_0_r. reflexivity. Qed.

Lemma pack_into_H_ok (st : bool) (buf : bytes) (off : nat) (v : Z) :
  fits st 2 v -> (off + 2 <= length buf)%nat ->
  pack_into_H st buf off v =
  Ret (firstn off buf ++ be_bytes 2 v ++ skipn (off + 2) buf).
Proof.
  intros Hf Hl. unfold pack_into_H. rewrite (pack_uint_ok _ _ _ Hf).
  cbn [obind]. unfold blit. cbn [length be_bytes].
  apply Nat.leb_le in Hl. rewrite Hl. reflexivity.
Qed.

Lemma store_or_ok (buf : bytes) (i : nat) (old v : Z) (w : client) :
  nth_error buf i = Some old -> 0 <= Z.lor old v < 256 ->
  store_or buf i v w = (Ret (firstn i buf ++ Z.lor old v :: skipn (S i) buf), w).
Proof.
  intros Hn Hv. unfold store_or, getitem. rewrite Hn, bind_lift_Ret.
  unfold store. rewrite bind_get_strict.
  rewrite setitem_ok; [reflexivity| |exact Hv].
  apply nth_error_Some. rewrite Hn. discriminate.
Qed.

(** Step over a write on a socket that is open and accepts every write. *)
Ltac side := cbn; first [assumption | reflexivity].

Ltac wstep :=
  match goal with
  | |- context [bind (sock_write ?d) ?k (set_sock ?w (Some ?s))] =>
      rewrite (bind_Ret (sock_write d) k (set_sock w (Some s)) _ tt
                 (sock_write_ok w s d ltac:(side) ltac:(side)))
  | |- context [sock_write ?d (set_sock ?w (Some ?s))] =>
      rewrite (sock_write_ok w s d ltac:(side) ltac:(side))
  end; rewrite ?sent_sent.

Lemma publish_header_length (hdr n : Z) :
  length (fst (publish_header hdr n)) = 4%nat.
Proof.
  unfold publish_header.
  destruct (n <=? 0x7F); [reflexivity|]. destruct (n <=? 0x3FFF); reflexivity.
Qed.

Lemma len_nonneg {A : Type} (l : list A) : 0 <= len l.
Proof. unfold len. lia. Qed.

(** [publish] up to the point where it has written its packet: what remains
    is the wait for the PUBACK ([qos = 1]), the failing assertion ([qos = 2])
    or nothing. *)
Lemma publish_sends (fuel : nat) (w : client) (s : socket) (topic msg : bytes)
  (retain : bool) (qos : Z) :
  closed s = false -> wbudget s = None -> 0 <= qos <= 2 ->
  publish_size topic msg qos < 2097152 -> (2 <= fuel)%nat ->
  fits (strict (cfg w)) 2 (len topic) ->
  (0 < qos -> fits (strict (cfg w)) 2 (pid w + 1)) ->
  publish fuel topic msg retain qos (set_sock w (Some s)) =
  (if qos =? 1 then puback_loop fuel (pid w + 1)
   else if qos =? 2 then assert false else ret tt)
    (set_sock (if qos >? 0 then set_pid w (pid w + 1) else w)
       (Some (sent s (publish_packet topic msg retain qos (pid w + 1)) None))).
Proof.
  intros Hc Hb Hq Hsz Hf Ht Hp.
  pose proof (len_nonneg topic) as Ht0. pose proof (len_nonneg msg) as Hm0.
  assert (Hq3 : qos = 0 \/ qos = 1 \/ qos = 2) by lia.
  unfold publish, publish_packet. fold (publish_size topic msg qos).
  rewrite (bind_Ret _ _ _ _ _
             (store_or_ok [0x30; 0; 0; 0] 0 0x30
                (Z.lor (Z.shiftl qos 1) (Z.b2z retain)) _ eq_refl
                ltac:(destruct Hq3 as [-> | [-> | ->]]; destruct retain;
                      vm_compute; split; first [discriminate | reflexivity]))).
  cbn [firstn skipn app cfg set_sock].
  replace (publish_size topic msg qos <? 2097152) with true
    by (symmetry; apply Z.ltb_lt; exact Hsz).
  rewrite bind_assert_true, bind_get_strict. cbn [cfg set_sock].
  rewrite len_loop_publish;
    [|clear - Hsz Ht0 Hm0; unfold publish_size in *; destruct (qos >? 0); lia
     |exact Hf].
  rewrite bind_lift_Ret.
  pose proof (publish_header_length
                (Z.lor 0x30 (Z.lor (Z.shiftl qos 1) (Z.b2z retain)))
                (publish_size topic msg qos)) as Hlen.
  destruct (publish_header _ (publish_size topic msg qos)) as [pkt i].
  cbn [fst] in Hlen.
  wstep.
  rewrite (bind_Ret _ _ _ _ _ (_send_str_ok w (sent s _ None) topic Hc eq_refl Ht)).
  rewrite sent_sent.
  destruct Hq3 as [-> | Hq3].
  - cbn [Z.gtb Z.compare Z.eqb]. rewrite bind_ret.
    wstep. rewrite <- !app_assoc. reflexivity.
  - assert (Hpos : (qos >? 0) = true) by (destruct Hq3 as [-> | ->]; reflexivity).
    rewrite Hpos.
    rewrite bind_assoc, bind_next_pid.
    rewrite pack_into_H_ok by (try apply Hp; lia).
    rewrite bind_assoc, bind_lift_Ret, be_bytes_2. cbn [firstn app].
    rewrite bind_assoc. wstep. rewrite bind_ret. wstep.
    rewrite <- !app_assoc. reflexivity.
Qed.

Lemma pack_into_BH_ok (st : bool) (h a b c v1 v2 : Z) :
  fits st 1 v1 -> fits st 2 v2 ->
  pack_into_BH st [h; a; b; c] 1 v1 v2 = Ret (h :: be_bytes 1 v1 ++ be_bytes 2 v2).
Proof.
  intros H1 H2. unfold pack_into_BH.
  rewrite (pack_uint_ok _ _ _ H1), (pack_uint_ok _ _ _ H2). reflexivity.
Qed.

Lemma to_bytes1_ok (st : bool) (v : Z) :
  fits st 1 v -> to_bytes1 st v = Ret [Z.land v 0xFF].
Proof.
  unfold fits, to_bytes1. intros H. destruct st; [|reflexivity].
  rewrite H by reflexivity. reflexivity.
Qed.

(** [subscribe] up to the point where it has written its packet: what remains
    is the wait for the SUBACK. *)
Lemma subscribe_sends (fuel : nat) (w : client) (s : socket) (topic : bytes)
  (qos : Z) :
  closed s = false -> wbudget s = None -> cb w = true ->
  fits (strict (cfg w)) 1 (2 + 2 + len topic + 1) ->
  fits (strict (cfg w)) 2 (pid w + 1) ->
  fits (strict (cfg w)) 2 (len topic) ->
  fits (strict (cfg w)) 1 qos ->
  subscribe fuel topic qos (set_sock w (Some s)) =
  suback_loop fuel (subscribe_header topic (pid w + 1))
    (set_sock (set_pid w (pid w + 1))
       (Some (sent s (subscribe_packet topic qos (pid w + 1)) None))).
Proof.
  intros Hc Hb Hcb H1 H2 H3 H4. unfold subscribe, subscribe_packet, subscribe_header.
  unfold bind at 1. cbn [cb set_sock]. rewrite Hcb, bind_assert_true.
  rewrite bind_next_pid, bind_get_strict. cbn [cfg set_sock set_pid].
  rewrite (pack_into_BH_ok _ _ _ _ _ _ _ H1 H2), bind_lift_Ret.
  wstep.
  rewrite (bind_Ret _ _ _ _ _
             (_send_str_ok (set_pid w (pid w + 1)) (sent s _ None) topic Hc eq_refl H3)).
  rewrite sent_sent, (to_bytes1_ok _ _ H4), bind_lift_Ret.
  wstep. rewrite <- !app_assoc. reflexivity.
Qed.

(** When the length value does not fit a byte and the platform checks it,
    [subscribe] raises before it writes anything. *)
Lemma subscribe_strict_overflow (fuel : nat) (w : client) (s : socket)
  (topic : bytes) (qos : Z) :
  cb w = true -> strict (cfg w) = true -> 250 < len topic ->
  subscribe fuel topic qos (set_sock w (Some s)) =
  (Raise StructError, set_sock (set_pid w (pid w + 1)) (Some s)).
Proof.
  intros Hcb Hst Hl. unfold subscribe.
  unfold bind at 1. cbn [cb set_sock]. rewrite Hcb, bind_assert_true.
  rewrite bind_next_pid, bind_get_strict. cbn [cfg set_sock set_pid].
  rewrite Hst. unfold pack_into_BH, pack_uint.
  replace (in_range 1 (2 + 2 + len topic + 1)) with false; [reflexivity|].
  symmetry. unfold in_range. apply andb_false_iff. right. apply Z.ltb_ge.
  change (2 ^ (8 * Z.of_nat 1)) with 256. lia.
Qed.

Lemma land_0x80_high (v : Z) : 128 <= v < 256 -> Z.land v 0x80 = 0x80.
Proof.
  intros H.
  assert (Hl : Z.land (v - 128) 0x80 = 0) by (apply land_0x80_small; lia).
  replace v with (v - 128 + 0x80) by lia.
  rewrite (Z.add_nocarry_lxor _ _ Hl), (Z.lxor_lor _ _ Hl).
  rewrite Z.land_lor_distr_l, Hl. reflexivity.
Qed.

Lemma be_bytes_1 (v : Z) : be_bytes 1 v = [Z.land v 0xFF].
Proof. cbn [be_bytes]. rewrite Z.shiftr_0_r. reflexivity. Qed.

(** ** QoS 2 *)

(** C2, as the code has it.  [publish] with [qos = 2] on a working connection
    writes the whole PUBLISH packet (header with the QoS bits 2, topic,
    identifier, payload), takes an identifier, and only then fails, with the
    [AssertionError] of [assert 0].  [subscribe] has no test on [qos]: with
    [qos = 2] it writes the SUBSCRIBE packet, requested QoS byte 2, waits for
    the SUBACK like any other subscribe and returns when it arrives. *)
Theorem qos2_is_sent_first (fuel : nat) (w : client) (s : socket)
  (topic msg : bytes) (retain : bool) :
  closed s = false -> wbudget s = None -> (2 <= fuel)%nat ->
  publish_size topic msg 2 < 2097152 ->
  fits (strict (cfg w)) 2 (len topic) ->
  fits (strict (cfg w)) 2 (pid w + 1) ->
  publish fuel topic msg retain 2 (set_sock w (Some s)) =
    (Raise AssertionError,
     set_sock (set_pid w (pid w + 1))
       (Some (sent s (publish_packet topic msg retain 2 (pid w + 1)) None)))
  /\ publish_packet topic msg retain 2 (pid w + 1) <> []
  /\ (cb w = true -> fits (strict (cfg w)) 1 (2 + 2 + len topic + 1) ->
      subscribe fuel topic 2 (set_sock w (Some s)) =
        suback_loop fuel (subscribe_header topic (pid w + 1))
          (set_sock (set_pid w (pid w + 1))
             (Some (sent s (subscribe_packet topic 2 (pid w + 1)) None)))
      /\ last (subscribe_packet topic 2 (pid w + 1)) 0 = 2
      /\ forall (r0 g : Z) (rest : bytes),
           rx s = 0x90 :: r0 :: be_bytes 2 (pid w + 1) ++ g :: rest ->
           g <> 0x80 ->
           subscribe fuel topic 2 (set_sock w (Some s)) =
           (Ret tt,
            set_sock (set_pid w (pid w + 1))
              (Some (set_rx (sent s (subscribe_packet topic 2 (pid w + 1)) None)
                       rest)))).
Proof.
  intros Hc Hb Hf Hsz Ht Hp. split; [|split].
  - rewrite publish_sends by (auto; lia). reflexivity.
  - unfold publish_packet.
    destruct (publish_header _ _) as [pkt i] eqn:E.
    unfold publish_header in E.
    destruct (_ <=? 0x7F); [|destruct (_ <=? 0x3FFF)]; inversion E; discriminate.
  - intros Hcb H1.
    assert (Hs : subscribe fuel topic 2 (set_sock w (Some s)) =
                 suback_loop fuel (subscribe_header topic (pid w + 1))
                   (set_sock (set_pid w (pid w + 1))
                      (Some (sent s (subscribe_packet topic 2 (pid w + 1)) None)))).
    { apply subscribe_sends; auto. apply fits_range. cbn. lia. }
    split; [exact Hs|split].
    + unfold subscribe_packet. rewrite !app_assoc. apply last_last.
    + intros r0 g rest Hrx Hg. rewrite Hs.
      destruct fuel as [|f]; [lia|].
      unfold subscribe_header. rewrite be_bytes_1, be_bytes_2 in *.
      cbn [app] in *.
      erewrite suback_loop_suback; try reflexivity; try eassumption.
Qed.

Lemma qos2_is_sent_first_witness :
  publish 2 [116] [104; 105] false 2
    (set_sock (connected plain_config (fresh_socket [] Silent None) [])
       (Some (fresh_socket [] Silent None))) =
  (Raise AssertionError,
   set_sock (set_pid (connected plain_config (fresh_socket [] Silent None) []) 1)
     (Some (sent (fresh_socket [] Silent None)
              (publish_packet [116] [104; 105] false 2 1) None))).
Proof.
  apply (qos2_is_sent_first 2 (connected plain_config (fresh_socket [] Silent None) [])
           (fresh_socket [] Silent None) [116] [104; 105] false);
    [reflexivity | reflexivity | lia | reflexivity | discriminate | discriminate].
Defined.

(** C2, as stated, fails.  A QoS-2 publish of [b"hi"] on topic [b"t"] ends in
    [AssertionError] after nine bytes have gone out, and a QoS-2 subscribe on
    the same topic, answered by a SUBACK, returns normally. *)
Lemma qos2_counterexample :
  (exists w' : client,
     publish 2 [116] [104; 105] false 2
       (connected plain_config (fresh_socket [] Silent None) []) =
     (Raise AssertionError, w')
     /\ written w' = [0x34; 7; 0; 1; 116; 0; 1; 104; 105])
  /\ (exists w' : client,
     subscribe 2 [116] 2
       (connected plain_config (fresh_socket [0x90; 3; 0; 1; 2] Silent None) []) =
     (Ret tt, w')
     /\ written w' = [0x82; 6; 0; 1; 0; 1; 116; 2]).
Proof.
  split.
  - exists (snd (publish 2 [116] [104; 105] false 2
                   (connected plain_config (fresh_socket [] Silent None) []))).
    split; vm_compute; reflexivity.
  - exists (snd (subscribe 2 [116] 2
                   (connected plain_config
                      (fresh_socket [0x90; 3; 0; 1; 2] Silent None) []))).
    split; vm_compute; reflexivity.
Qed.

(** ** The length byte of SUBSCRIBE *)

(** C10, as the code has it.  [subscribe] writes the remaining length as the
    single byte that [struct.pack_into("!BH", ...)] makes of
    [2 + 2 + len(topic) + 1]; no continuation bytes are ever produced.  For a
    topic of at most 250 bytes that byte is [5 + len(topic)]; its top bit is
    set exactly when the topic is longer than 122 bytes, and then the decoder
    [_recv_len] takes it for a continuation byte and goes on reading.  For a
    topic longer than 250 bytes the value does not fit a byte: a
    range-checking [struct] raises before anything is written; MicroPython's
    [ustruct], which the source imports, writes the low eight bits and
    [subscribe] carries on. *)
Theorem subscribe_length_is_one_byte (fuel : nat) (w : client) (s : socket)
  (topic : bytes) (qos : Z) :
  closed s = false -> wbudget s = None -> cb w = true ->
  fits (strict (cfg w)) 2 (pid w + 1) ->
  fits (strict (cfg w)) 2 (len topic) ->
  0 <= qos < 256 ->
  (len topic <= 250 ->
     subscribe fuel topic qos (set_sock w (Some s)) =
       suback_loop fuel ([0x82; 5 + len topic] ++ be_bytes 2 (pid w + 1))
         (set_sock (set_pid w (pid w + 1))
            (Some (sent s
                     ([0x82; 5 + len topic] ++ be_bytes 2 (pid w + 1) ++
                      be_bytes 2 (len topic) ++ topic ++ [qos]) None)))
     /\ (len topic <= 122 -> Z.land (5 + len topic) 0x80 = 0)
     /\ (122 < len topic ->
         Z.land (5 + len topic) 0x80 = 0x80
         /\ forall (f : nat) (w0 : client) (s0 : socket) (rest : bytes),
              closed s0 = false ->
              _recv_len (S f)
                (set_sock w0 (Some (set_rx s0 (5 + len topic :: rest)))) =
              _recv_len_loop f (Z.land (5 + len topic) 0x7F) 7
                (set_sock w0 (Some (set_rx s0 rest)))))
  /\ (250 < len topic ->
      (strict (cfg w) = true ->
         subscribe fuel topic qos (set_sock w (Some s)) =
         (Raise StructError, set_sock (set_pid w (pid w + 1)) (Some s)))
      /\ (strict (cfg w) = false ->
         subscribe fuel topic qos (set_sock w (Some s)) =
         suback_loop fuel
           ([0x82; (5 + len topic) mod 256] ++ be_bytes 2 (pid w + 1))
           (set_sock (set_pid w (pid w + 1))
              (Some (sent s
                       ([0x82; (5 + len topic) mod 256] ++
                        be_bytes 2 (pid w + 1) ++
                        be_bytes 2 (len topic) ++ topic ++ [qos]) None))))).
Proof.
  intros Hc Hb Hcb Hp Ht Hq.
  pose proof (len_nonneg topic) as Hl0.
  assert (Hqos : fits (strict (cfg w)) 1 qos) by (apply fits_range; cbn; lia).
  split.
  - intros Hl. split; [|split].
    + rewrite subscribe_sends; auto; [|apply fits_range; cbn; lia].
      unfold subscribe_header, subscribe_packet, subscribe_header.
      rewrite be_bytes_1, !land_0xFF_small by lia.
      replace (2 + 2 + len topic + 1) with (5 + len topic) by lia.
      reflexivity.
    + intros H. apply land_0x80_small. lia.
    + intros H. split; [apply land_0x80_high; lia|].
      intros f w0 s0 rest Hc0. unfold _recv_len.
      assert (Hb7 : Z.land (5 + len topic) 0x80 <> 0)
        by (rewrite land_0x80_high by lia; discriminate).
      rewrite (_recv_len_loop_more f 0 0
                 (set_sock w0 (Some (set_rx s0 (5 + len topic :: rest))))
                 (set_rx s0 (5 + len topic :: rest))
                 (5 + len topic) rest eq_refl Hc0 eq_refl Hb7).
      rewrite Z.shiftl_0_r, Z.lor_0_l. reflexivity.
  - intros Hl. split; intros Hst.
    + apply subscribe_strict_overflow; auto.
    + rewrite subscribe_sends; auto; [|rewrite Hst; apply fits_loose].
      unfold subscribe_header, subscribe_packet, subscribe_header.
      rewrite be_bytes_1, (land_0xFF_small qos) by lia.
      replace (2 + 2 + len topic + 1) with (5 + len topic) by lia.
      change 0xFF with (Z.ones 8). rewrite Z.land_ones by lia.
      reflexivity.
Qed.

Lemma subscribe_length_is_one_byte_witness :
  subscribe 1 [116] 0
    (set_sock (connected plain_config (fresh_socket [] Silent None) [])
       (Some (fresh_socket [] Silent None))) =
  suback_loop 1 ([0x82; 5 + len [116]] ++ be_bytes 2 (0 + 1))
    (set_sock (set_pid (connected plain_config (fresh_socket [] Silent None) []) (0 + 1))
       (Some (sent (fresh_socket [] Silent None)
                ([0x82; 5 + len [116]] ++ be_bytes 2 (0 + 1) ++
                 be_bytes 2 (len [116]) ++ [116] ++ [0]) None))).
Proof.
  refine (proj1 (proj1 (subscribe_length_is_one_byte 1
           (connected plain_config (fresh_socket [] Silent None) [])
           (fresh_socket [] Silent None) [116] 0
           eq_refl eq_refl eq_refl _ _ _) _)).
  - discriminate.
  - discriminate.
  - lia.
  - vm_compute. discriminate.
Defined.

(** C10, as stated, fails in its last part on the platform of the source.
    With a topic of 251 bytes the value is 256; MicroPython's [ustruct] writes
    the byte 0, nothing raises, and [subscribe] returns when the SUBACK
    arrives. *)
Lemma subscribe_long_topic_counterexample :
  exists w' : client,
    subscribe 1 (repeat 97 251) 0
      (connected plain_config (fresh_socket [0x90; 3; 0; 1; 0] Silent None) []) =
    (Ret tt, w')
    /\ firstn 4 (written w') = [0x82; 0; 0; 1]
    /\ len (written w') = 4 + 2 + 251 + 1.
Proof.
  exists (snd (subscribe 1 (repeat 97 251) 0
                 (connected plain_config
                    (fresh_socket [0x90; 3; 0; 1; 0] Silent None) []))).
  repeat split; vm_compute; reflexivity.
Qed.

(** ** What a method keeps, whatever its outcome *)

Lemma bind_cases {A B : Type} (m : M A) (k : A -> M B) (w w' : client)
  (o : outcome B) :
  bind m k w = (o, w') ->
  (exists (a : A) (w1 : client), m w = (Ret a, w1) /\ k a w1 = (o, w'))
  \/ (exists o1 : outcome A, m w = (o1, w') /\ forall a, o <> Ret a).
Proof.
  unfold bind. destruct (m w) as [[a|e| |] w1] eqn:E; intros H.
  - left. eauto.
  - right. inversion H; subst. eexists. split; [reflexivity|discriminate].
  - right. inversion H; subst. eexists. split; [reflexivity|discriminate].
  - right. inversion H; subst. eexists. split; [reflexivity|discriminate].
Qed.

Lemma bind_Ret_inv {A B : Type} (m : M A) (k : A -> M B) (w w' : client) (b : B) :
  bind m k w = (Ret b, w') ->
  exists (a : A) (w1 : client), m w = (Ret a, w1) /\ k a w1 = (Ret b, w').
Proof.
  intros H. destruct (bind_cases _ _ _ _ _ H) as [?|(o1 & _ & Hn)]; [assumption|].
  exfalso. apply (Hn b). reflexivity.
Qed.

Section Keeps.
Variable R : client -> client -> Prop.
Hypothesis R_refl : forall w, R w w.
Hypothesis R_trans : forall a b c, R a b -> R b c -> R a c.

Lemma keeps_ret {A : Type} (a : A) : keeps R (ret a).
Proof. intros w o w' H. inversion H. apply R_refl. Qed.

Lemma keeps_raise {A : Type} (e : exn) : keeps R (@raise A e).
Proof. intros w o w' H. inversion H. apply R_refl. Qed.

Lemma keeps_lift {A : Type} (x : outcome A) : keeps R (lift x).
Proof. intros w o w' H. inversion H. apply R_refl. Qed.

Lemma keeps_assert (b : bool) : keeps R (assert b).
Proof. destruct b; [apply keeps_ret|apply keeps_raise]. Qed.

Lemma keeps_get_strict : keeps R get_strict.
Proof. intros w o w' H. inversion H. apply R_refl. Qed.

Lemma keeps_bind {A B : Type} (m : M A) (k : A -> M B) :
  keeps R m -> (forall a, keeps R (k a)) -> keeps R (bind m k).
Proof.
  intros Hm Hk w o w' H.
  destruct (bind_cases _ _ _ _ _ H) as [(a & w1 & H1 & H2)|(o1 & H1 & _)].
  - eapply R_trans; [eapply Hm; eassumption|eapply Hk; eassumption].
  - eapply Hm; eassumption.
Qed.

Lemma keeps_item (r : option bytes) (i : nat) : keeps R (item r i).
Proof. destruct r; [apply keeps_lift|apply keeps_raise]. Qed.

Lemma keeps_store (buf : bytes) (i : nat) (v : Z) : keeps R (store buf i v).
Proof.
  unfold store. apply keeps_bind; [apply keeps_get_strict|intros st].
  apply keeps_lift.
Qed.

Lemma keeps_store_or (buf : bytes) (i : nat) (v : Z) :
  keeps R (store_or buf i v).
Proof.
  unfold store_or. apply keeps_bind; [apply keeps_lift|intros old].
  apply keeps_store.
Qed.

Hypothesis K_read : forall n, keeps R (sock_read n).
Hypothesis K_write : forall d, keeps R (sock_write d).
Hypothesis K_cb : forall t m, keeps R (call_cb t m).

Ltac keeps_step :=
  first [ apply keeps_bind | apply keeps_get_strict | apply keeps_lift
        | apply keeps_ret | apply keeps_raise | apply keeps_assert
        | apply keeps_item | apply K_read | apply K_write | apply K_cb
        | match goal with |- forall _, _ => intro end ].

Lemma keeps__send_str (b : bytes) : keeps R (_send_str b).
Proof.
  unfold _send_str.
  repeat keeps_step.
Qed.

Lemma keeps__recv_len_loop (fuel : nat) :
  forall n sh, keeps R (_recv_len_loop fuel n sh).
Proof.
  induction fuel as [|f IH]; intros n sh; cbn [_recv_len_loop].
  - apply keeps_lift.
  - apply keeps_bind; [apply K_read|intros r].
    apply keeps_bind; [apply keeps_item|intros b].
    destruct (Z.land b 0x80 =? 0); [apply keeps_ret|apply IH].
Qed.

Lemma keeps_read_u16 : keeps R read_u16.
Proof.
  unfold read_u16.
  repeat keeps_step.
Qed.

Lemma keeps_wait_msg (fuel : nat) : keeps R (wait_msg fuel).
Proof.
  unfold wait_msg. apply keeps_bind; [apply K_read|intros res].
  destruct res as [[|op tl]|]; [apply keeps_raise| |apply keeps_ret].
  destruct (bytes_eqb (op :: tl) [0xd0]).
  { repeat keeps_step. }
  destruct (negb (Z.land op 0xF0 =? 0x30)); [apply keeps_ret|].
  apply keeps_bind; [apply keeps__recv_len_loop|intros sz].
  apply keeps_bind; [apply keeps_read_u16|intros tl'].
  apply keeps_bind; [apply K_read|intros topic].
  apply keeps_bind.
  { destruct (negb (Z.land op 6 =? 0));
      repeat keeps_step. }
  intros [p sz'].
  apply keeps_bind; [apply K_read|intros msg].
  apply keeps_bind; [apply K_cb|intros _].
  apply keeps_bind; [|intros _; apply keeps_ret].
  destruct (Z.land op 6 =? 2).
  { repeat keeps_step. }
  destruct (Z.land op 6 =? 4); [apply keeps_assert|apply keeps_ret].
Qed.


End Keeps.

(** ** Reading on: identifier, configuration and the stream *)

Lemma reads_on_refl (w : client) : reads_on w w.
Proof. repeat split. exists []. reflexivity. Qed.

Lemma reads_on_trans (a b c : client) :
  reads_on a b -> reads_on b c -> reads_on a c.
Proof.
  intros (Hp1 & Hc1 & Hb1 & pre1 & Hu1) (Hp2 & Hc2 & Hb2 & pre2 & Hu2).
  repeat split; try congruence.
  exists (pre1 ++ pre2). rewrite Hu1, Hu2, app_assoc. reflexivity.
Qed.

(** A read that returns bytes has taken exactly those bytes off the stream,
    and no more than were asked for. *)
Lemma sock_read_Some (n : Z) (w w' : client) (b : bytes) :
  sock_read n w = (Ret (Some b), w') ->
  unread w = b ++ unread w' /\ pid w' = pid w /\ cfg w' = cfg w /\ cb w' = cb w
  /\ written w' = written w
  /\ (0 <= n -> (length b <= Z.to_nat n)%nat).
Proof.
  unfold sock_read, unread, written. destruct (sock w) as [s|] eqn:Hs; [|discriminate].
  destruct (closed s); [discriminate|].
  destruct (n <? -1); [discriminate|].
  destruct ((0 <=? n) && (Z.to_nat n <=? length (rx s))%nat) eqn:E.
  - intros H. inversion H; subst. cbn.
    rewrite firstn_skipn. repeat split.
    intros _. rewrite length_firstn. lia.
  - unfold short_read.
    assert (Hshort : 0 <= n -> (length (rx s) <= Z.to_nat n)%nat).
    { intros Hn. apply andb_false_iff in E. destruct E as [E|E].
      - apply Z.leb_gt in E. lia.
      - apply Nat.leb_gt in E. lia. }
    destruct (at_end s).
    + intros H. inversion H; subst. cbn. rewrite app_nil_r. repeat split. exact Hshort.
    + destruct (blocking s); [discriminate|].
      destruct (rx s) as [|x l] eqn:Hrx; [discriminate|].
      intros H. inversion H; subst. cbn. rewrite app_nil_r. repeat split.
      exact Hshort.
    + discriminate.
Qed.

Lemma reads_on_read (n : Z) : keeps reads_on (sock_read n).
Proof.
  intros w o w'. unfold sock_read, reads_on, unread.
  destruct (sock w) as [s|] eqn:Hs.
  2: { intros H; inversion H; subst. rewrite Hs. repeat split. exists []. reflexivity. }
  destruct (closed s).
  { intros H; inversion H; subst. rewrite Hs. repeat split. exists []. reflexivity. }
  destruct (n <? -1).
  { intros H; inversion H; subst. rewrite Hs. repeat split. exists []. reflexivity. }
  destruct ((0 <=? n) && (Z.to_nat n <=? length (rx s))%nat).
  - intros H; inversion H; subst. cbn. repeat split.
    exists (firstn (Z.to_nat n) (rx s)). rewrite firstn_skipn. reflexivity.
  - unfold short_read. destruct (at_end s).
    + intros H; inversion H; subst. cbn. repeat split. exists (rx s).
      rewrite app_nil_r. reflexivity.
    + destruct (blocking s).
      * intros H; inversion H; subst. cbn. repeat split. exists []. reflexivity.
      * destruct (rx s) as [|x l] eqn:Hrx; intros H; inversion H; subst; cbn;
          repeat split.
        -- exists []. rewrite Hrx. reflexivity.
        -- exists (x :: l). rewrite app_nil_r. reflexivity.
    + intros H; inversion H; subst. cbn. repeat split. exists (rx s).
      rewrite app_nil_r. reflexivity.
Qed.

Lemma reads_on_write (d : bytes) : keeps reads_on (sock_write d).
Proof.
  intros w o w'. unfold sock_write, reads_on, unread.
  destruct (sock w) as [s|] eqn:Hs.
  2: { intros H; inversion H; subst. rewrite Hs. repeat split. exists []. reflexivity. }
  destruct (closed s).
  { intros H; inversion H; subst. rewrite Hs. repeat split. exists []. reflexivity. }
  destruct (wbudget s) as [[|k]|]; intros H; inversion H; subst; cbn;
    rewrite ?Hs; repeat split; exists []; reflexivity.
Qed.

Lemma reads_on_same (w w' : client) :
  pid w' = pid w -> cfg w' = cfg w -> cb w' = cb w -> unread w' = unread w ->
  reads_on w w'.
Proof.
  intros H1 H2 H3 H4. split; [|split; [|split]]; auto.
  exists []. rewrite H4. reflexivity.
Qed.

Lemma reads_on_cb (t m : option bytes) : keeps reads_on (call_cb t m).
Proof.
  intros w o w'. unfold call_cb.
  destruct (cb w) eqn:E; intros H; inversion H; subst;
    apply reads_on_same; auto.
Qed.

Lemma reads_on_wait_msg (fuel : nat) : keeps reads_on (wait_msg fuel).
Proof.
  exact (keeps_wait_msg reads_on reads_on_refl reads_on_trans
           reads_on_read reads_on_write reads_on_cb fuel).
Qed.




(** Take a returning [bind] apart. *)
Ltac binv H :=
  let a := fresh "a" in
  let w1 := fresh "w" in
  let H1 := fresh "H" in
  apply bind_Ret_inv in H; destruct H as (a & w1 & H1 & H).

(** When [wait_msg] returns an opcode that is not a PUBLISH header, it has
    taken exactly that one byte off the stream. *)
Lemma wait_msg_opcode (f : nat) (w w' : client) (op : Z) :
  wait_msg f w = (Ret (Some op), w') -> Z.land op 0xF0 <> 0x30 ->
  unread w = op :: unread w' /\ pid w' = pid w.
Proof.
  unfold wait_msg. intros H Hop. binv H.
  destruct a as [[|op' tl]|]; try discriminate.
  destruct (sock_read_Some _ _ _ _ H0) as (Hu & Hp & _ & _ & _ & Hl).
  specialize (Hl ltac:(lia)). destruct tl; [|cbn in Hl; lia].
  cbn [bytes_eqb] in H. rewrite andb_true_r in H.
  destruct (op' =? 0xd0).
  - do 3 binv H. discriminate.
  - destruct (Z.land op' 0xF0 =? 0x30) eqn:E; cbn [negb] in H.
    + exfalso. apply Hop.
      repeat (apply bind_Ret_inv in H; destruct H as (? & ? & _ & H);
              try match type of H with
                  | context [let (_, _) := ?x in _] => destruct x
                  end).
      inversion H; subst. apply Z.eqb_eq. exact E.
    + inversion H; subst. split; [exact Hu|exact Hp].
Qed.

Lemma read_u16_Ret (w w' : client) (v : Z) :
  read_u16 w = (Ret v, w') ->
  exists a b : Z,
    unread w = a :: b :: unread w' /\ v = Z.lor (Z.shiftl a 8) b /\ pid w' = pid w.
Proof.
  unfold read_u16. intros H. binv H.
  destruct a as [r|]; [|discriminate].
  destruct (sock_read_Some _ _ _ _ H0) as (Hu & Hp & _ & _ & _ & Hl).
  specialize (Hl ltac:(lia)).
  do 2 binv H. inversion H; subst.
  destruct r as [|x [|y [|z r]]]; try discriminate; [|cbn in Hl; lia].
  inversion H1; inversion H2; subst. exists a, a0. auto.
Qed.

(** The PUBACK loop returns only after it has read, as its last four bytes, a
    PUBACK whose identifier is the awaited one. *)
Lemma puback_loop_Ret (fuel : nat) (p : Z) :
  forall w w' : client,
    puback_loop fuel p w = (Ret tt, w') ->
    exists (pre : bytes) (hi lo : Z),
      unread w = pre ++ [0x40; 0x02; hi; lo] ++ unread w'
      /\ Z.lor (Z.shiftl hi 8) lo = p /\ pid w' = pid w.
Proof.
  induction fuel as [|f IH]; intros w w' H; [discriminate|].
  cbn [puback_loop] in H. binv H.
  assert (Hother :
            puback_loop f p w0 = (Ret tt, w') ->
            exists (pre : bytes) (hi lo : Z),
              unread w = pre ++ [0x40; 0x02; hi; lo] ++ unread w'
              /\ Z.lor (Z.shiftl hi 8) lo = p /\ pid w' = pid w).
  { intros H'. destruct (IH _ _ H') as (pre & hi & lo & Hu & Hv & Hp).
    destruct (reads_on_wait_msg _ _ _ _ H0) as (Hp0 & _ & _ & pre0 & Hu0).
    exists (pre0 ++ pre), hi, lo. rewrite Hu0, Hu, <- app_assoc.
    repeat split; congruence. }
  destruct a as [op|]; [|auto].
  destruct (Z.eq_dec op 0x40) as [->|Hne].
  - destruct (wait_msg_opcode _ _ _ _ H0 ltac:(discriminate)) as (Hu0 & Hp0).
    binv H. destruct a as [b|]; [|discriminate].
    destruct (sock_read_Some _ _ _ _ H1) as (Hu1 & Hp1 & _).
    binv H. destruct (bytes_eqb b [0x02]) eqn:Eb; [|discriminate].
    inversion H2; subst.
    destruct b as [|b0 [|b1 b]]; cbn [bytes_eqb] in Eb; try discriminate;
      [|rewrite andb_false_r in Eb; discriminate].
    rewrite andb_true_r in Eb. apply Z.eqb_eq in Eb. subst b0.
    binv H. destruct (read_u16_Ret _ _ _ H3) as (hi & lo & Hu2 & Hv & Hp2).
    destruct (p =? a) eqn:Ep.
    + inversion H; subst. apply Z.eqb_eq in Ep.
      exists [], hi, lo. cbn [app]. rewrite Hu0, Hu1, Hu2.
      repeat split; congruence.
    + destruct (IH _ _ H) as (pre & hi' & lo' & Hu & Hv' & Hp').
      exists (0x40 :: 0x02 :: hi :: lo :: pre), hi', lo'.
      rewrite Hu0, Hu1, Hu2, Hu. cbn [app]. repeat split; congruence.
  - apply Hother.
    replace (puback_loop f p w0)
      with ((match op with 0x40 => fun w => (NoFuel, w) | _ => puback_loop f p end) w0).
    + destruct op as [|q|q]; try exact H.
      do 7 (destruct q as [q|q|]; try exact H). congruence.
    + destruct op as [|q|q]; try reflexivity.
      do 7 (destruct q as [q|q|]; try reflexivity). congruence.
Qed.

(** ** Steps that only write *)

Lemma only_writes_refl (w : client) : only_writes w w.
Proof. repeat split. Qed.

Lemma only_writes_trans (a b c : client) :
  only_writes a b -> only_writes b c -> only_writes a c.
Proof.
  intros (H1 & H2 & H3 & H4) (H5 & H6 & H7 & H8). repeat split; congruence.
Qed.

Lemma only_writes_write (d : bytes) : keeps only_writes (sock_write d).
Proof.
  intros w o w'. unfold sock_write.
  destruct (sock w) as [s|] eqn:Hs.
  2: { intros H; inversion H; subst. apply only_writes_refl. }
  destruct (closed s).
  { intros H; inversion H; subst. apply only_writes_refl. }
  destruct (wbudget s) as [[|k]|]; intros H; inversion H; subst;
    try apply only_writes_refl;
    unfold only_writes, unread; cbn; rewrite Hs; repeat split.
Qed.

Lemma only_writes__send_str (b : bytes) : keeps only_writes (_send_str b).
Proof.
  exact (keeps__send_str only_writes only_writes_refl only_writes_trans
           only_writes_write b).
Qed.

Lemma only_writes_store_or (buf : bytes) (i : nat) (v : Z) :
  keeps only_writes (store_or buf i v).
Proof.
  exact (keeps_store_or only_writes only_writes_refl only_writes_trans buf i v).
Qed.

Ltac ow_chain :=
  first [ assumption
        | eapply only_writes_trans; [eassumption | ow_chain] ].

(** The shape of every run of [publish]: it ends while its packet is being
    written, before or after the identifier was taken, or it gets to what
    follows the packet. *)
Lemma publish_shape (fuel : nat) (topic msg : bytes) (retain : bool) (qos : Z)
  (w w' : client) (o : outcome unit) :
  publish fuel topic msg retain qos w = (o, w') ->
  (only_writes w w' /\ (forall u, o <> Ret u))
  \/ (qos <= 0 /\ only_writes w w')
  \/ (0 < qos /\ exists w1 w2 : client,
        only_writes w w1 /\ only_writes (set_pid w1 (pid w1 + 1)) w2
        /\ (((forall u, o <> Ret u) /\ w' = w2)
            \/ publish_rest fuel qos (pid w1 + 1) w2 = (o, w'))).
Proof.
  unfold publish. intros H.
  apply bind_cases in H. destruct H as [(pkt & w1 & H1 & H)|(o1 & H1 & Hn)];
    apply only_writes_store_or in H1; [|left; auto].
  apply bind_cases in H. destruct H as [(u1 & w2 & H2 & H)|(o1 & H2 & Hn)];
    apply (keeps_assert only_writes only_writes_refl) in H2;
    [|left; split; [ow_chain|auto]].
  assert (H12 : only_writes w w2) by (ow_chain).
  clear H1 H2. rewrite bind_get_strict in H.
  apply bind_cases in H. destruct H as [([pkt' i] & w3 & H3 & H)|(o1 & H3 & Hn)];
    apply (keeps_lift only_writes only_writes_refl) in H3;
    [|left; split; [ow_chain|auto]].
  apply bind_cases in H. destruct H as [(u4 & w4 & H4 & H)|(o1 & H4 & Hn)];
    apply only_writes_write in H4;
    [|left; split; [ow_chain|auto]].
  apply bind_cases in H. destruct H as [(u5 & w5 & H5 & H)|(o1 & H5 & Hn)];
    apply only_writes__send_str in H5;
    [|left; split; [ow_chain|auto]].
  assert (H15 : only_writes w w5)
    by (ow_chain).
  clear H12 H3 H4 H5.
  destruct (qos >? 0) eqn:Eq.
  - apply Z.gtb_lt in Eq. right. right. split; [lia|]. exists w5.
    rewrite bind_assoc in H. unfold bind at 1, next_pid at 1 in H.
    rewrite bind_assoc in H.
    apply bind_cases in H. destruct H as [(pkt2 & w6 & H6 & H)|(o1 & H6 & Hn)];
      apply (keeps_lift only_writes only_writes_refl) in H6;
      [|exists w'; split; [assumption|split; [assumption|left; auto]]].
    rewrite bind_assoc in H.
    apply bind_cases in H. destruct H as [(u7 & w7 & H7 & H)|(o1 & H7 & Hn)];
      apply only_writes_write in H7;
      [|exists w'; split; [assumption|split;
          [ow_chain|left; auto]]].
    rewrite bind_ret in H.
    apply bind_cases in H. destruct H as [(u8 & w8 & H8 & H)|(o1 & H8 & Hn)];
      apply only_writes_write in H8.
    + exists w8. split; [assumption|split].
      * ow_chain.
      * right. exact H.
    + exists w'. split; [assumption|split].
      * ow_chain.
      * left. auto.
  - rewrite Z.gtb_ltb in Eq. apply Z.ltb_ge in Eq. rewrite bind_ret in H.
    apply bind_cases in H. destruct H as [(u8 & w8 & H8 & H)|(o1 & H8 & Hn)];
      apply only_writes_write in H8;
      [|left; split; [ow_chain|auto]].
    right. left. split; [exact Eq|].
    replace (qos =? 1) with false in H by (symmetry; apply Z.eqb_neq; lia).
    replace (qos =? 2) with false in H by (symmetry; apply Z.eqb_neq; lia).
    inversion H; subst. ow_chain.
Qed.

(** ** QoS 1: waiting for the PUBACK *)

(** C4.  A [publish] with [qos = 1] returns only after it has read, as the
    last bytes it took from the stream, a PUBACK packet [0x40 0x02 hi lo]
    whose big-endian identifier [hi << 8 | lo] is the identifier given to this
    publish ([self.pid] after the increment).  On a working connection on
    which a PUBACK arrives first, the call returns exactly when that
    identifier matches; when it differs, nothing is cleared and the call goes
    on reading what follows. *)
Theorem qos1_publish_waits_for_matching_puback (f : nat) (w : client)
  (topic msg : bytes) (retain : bool) :
  (forall w' : client,
     publish f topic msg retain 1 w = (Ret tt, w') ->
     exists (pre : bytes) (hi lo : Z),
       unread w = pre ++ [0x40; 0x02; hi; lo] ++ unread w'
       /\ Z.lor (Z.shiftl hi 8) lo = pid w + 1
       /\ pid w' = pid w + 1)
  /\ (forall (s : socket) (hi lo : Z) (rest : bytes),
        closed s = false -> wbudget s = None -> (1 <= f)%nat ->
        publish_size topic msg 1 < 2097152 ->
        fits (strict (cfg w)) 2 (len topic) ->
        fits (strict (cfg w)) 2 (pid w + 1) ->
        rx s = 0x40 :: 0x02 :: hi :: lo :: rest ->
        let after :=
          set_sock (set_pid w (pid w + 1))
            (Some (set_rx (sent s (publish_packet topic msg retain 1 (pid w + 1)) None)
                     rest)) in
        publish (S f) topic msg retain 1 (set_sock w (Some s)) =
        if pid w + 1 =? Z.lor (Z.shiftl hi 8) lo
        then (Ret tt, after)
        else puback_loop f (pid w + 1) after).
Proof.
  split.
  - intros w' H.
    destruct (publish_shape _ _ _ _ _ _ _ _ H)
      as [(_ & Hn)|[(Hq & _)|(_ & w1 & w2 & H1 & H2 & [(Hn & _)|Hr])]].
    + exfalso. apply (Hn tt). reflexivity.
    + lia.
    + exfalso. apply (Hn tt). reflexivity.
    + unfold publish_rest in Hr. cbn [Z.eqb Pos.eqb] in Hr.
      destruct (puback_loop_Ret _ _ _ _ Hr) as (pre & hi & lo & Hu & Hv & Hp).
      destruct H1 as (Hu1 & Hp1 & _). destruct H2 as (Hu2 & Hp2 & _).
      cbn [pid set_pid] in Hp2. unfold unread in Hu2 at 2. cbn [sock set_pid] in Hu2.
      fold (unread w1) in Hu2.
      exists pre, hi, lo. repeat split; congruence.
  - intros s hi lo rest Hc Hb Hf Hsz Ht Hp Hrx after. subst after.
    rewrite publish_sends by (auto; lia).
    cbn [Z.eqb Pos.eqb Z.gtb Z.compare].
    rewrite (puback_loop_puback f _ _ _ hi lo rest); [reflexivity|exact Hc|exact Hrx].
Qed.

Lemma qos1_publish_waits_for_matching_puback_witness :
  publish 2 [116] [104; 105] false 1
    (set_sock (connected plain_config (fresh_socket [] Silent None) [])
       (Some (fresh_socket [0x40; 0x02; 0; 1; 9] Silent None))) =
  (Ret tt,
   set_sock (set_pid (connected plain_config (fresh_socket [] Silent None) []) 1)
     (Some (set_rx (sent (fresh_socket [0x40; 0x02; 0; 1; 9] Silent None)
                      (publish_packet [116] [104; 105] false 1 1) None)
              [9]))).
Proof.
  refine (proj2 (qos1_publish_waits_for_matching_puback 1
                   (connected plain_config (fresh_socket [] Silent None) [])
                   [116] [104; 105] false)
            (fresh_socket [0x40; 0x02; 0; 1; 9] Silent None) 0 1 [9]
            eq_refl eq_refl _ _ _ _ eq_refl).
  - lia.
  - reflexivity.
  - discriminate.
  - discriminate.
Defined.

(** ** The packet identifier *)










(** ** The reconnect wrapper *)

(** [connect] of the plain client on a server that accepts it. *)
Lemma connect_plain (f : nat) (so : option socket) (p : Z) (c : bool)
  (d : list (option bytes * option bytes)) (then_ : bytes) (e : rx_end)
  (rest : list (option socket)) (sl : list Z) (pr : list (bool * exn)) :
  connect f false
    (mkClient plain_config so p c d (Some (server then_ e None) :: rest) sl pr) =
  (Ret 0,
   mkClient plain_config
     (Some (mkSocket then_ e connect_packet_plain None true false))
     p c d rest sl pr).
Proof. destruct f; vm_compute; reflexivity. Qed.

(** The same on a server that takes the four writes of the CONNECT packet and
    no more. *)
Lemma connect_plain_spent (f : nat) (so : option socket) (p : Z) (c : bool)
  (d : list (option bytes * option bytes)) (then_ : bytes) (e : rx_end)
  (rest : list (option socket)) (sl : list Z) (pr : list (bool * exn)) :
  connect f false
    (mkClient plain_config so p c d (Some (server then_ e (Some 4%nat)) :: rest)
       sl pr) =
  (Ret 0,
   mkClient plain_config
     (Some (mkSocket then_ e connect_packet_plain (Some O) true false))
     p c d rest sl pr).
Proof. destruct f; vm_compute; reflexivity. Qed.

(** A connection attempt that meets no server raises [OSError] and leaves a
    new, unconnected socket in [self.sock]. *)
Lemma connect_refused (f : nat) (w : client) (rest : list (option socket)) :
  net w = None :: rest ->
  connect f false w =
  (Raise (OSError EHOSTUNREACH), set_net (set_sock w (Some unconnected)) rest).
Proof.
  intros H. unfold connect.
  apply bind_Raise. unfold open_socket. rewrite H. reflexivity.
Qed.


(** What the wrapper does with the outcome of the wrapped call. *)
Lemma on_OSError_caught {A : Type} (m : M A) (h : Z -> M A) (w w1 : client)
  (n : Z) :
  m w = (Raise (OSError n), w1) -> on_OSError m h w = h n w1.
Proof. unfold on_OSError. intros ->. reflexivity. Qed.

Lemma on_OSError_passes {A : Type} (m : M A) (h : Z -> M A) (w w1 : client)
  (o : outcome A) :
  m w = (o, w1) -> (forall n, o <> Raise (OSError n)) -> on_OSError m h w = (o, w1).
Proof.
  unfold on_OSError. intros -> Hn.
  destruct o as [a|[n| | | | | | | | |]| |]; try reflexivity.
  exfalso. apply (Hn n). reflexivity.
Qed.


Lemma robust_publish_S (f : nat) (topic msg : bytes) (retain : bool) (qos : Z) :
  robust_publish (S f) topic msg retain qos =
  on_OSError (publish f topic msg retain qos) (fun errno =>
    log false (OSError errno) ;; reconnect f ;;
    robust_publish f topic msg retain qos).
Proof. reflexivity. Qed.

Lemma robust_wait_msg_S (f : nat) :
  robust_wait_msg (S f) =
  on_OSError (wait_msg f) (fun errno =>
    log false (OSError errno) ;; reconnect f ;; robust_wait_msg f).
Proof. reflexivity. Qed.

Lemma reconnect_loop_S (f : nat) (i : Z) :
  reconnect_loop (S f) i =
  on_OSError (connect f false) (fun errno =>
    log true (OSError errno) ;; sleep (i + 1) ;; reconnect_loop f (i + 1)).
Proof. reflexivity. Qed.

(** [reconnect] of the plain client when the first attempt is accepted. *)
Lemma reconnect_plain (f : nat) (i : Z) (so : option socket) (p : Z) (c : bool)
  (d : list (option bytes * option bytes)) (then_ : bytes) (e : rx_end)
  (b : option nat) (rest : list (option socket)) (sl : list Z)
  (pr : list (bool * exn)) :
  b = None \/ b = Some 4%nat ->
  reconnect_loop (S f) i
    (mkClient plain_config so p c d (Some (server then_ e b) :: rest) sl pr) =
  (Ret 0,
   mkClient plain_config
     (Some (mkSocket then_ e connect_packet_plain
              (match b with None => None | Some _ => Some O end) true false))
     p c d rest sl pr).
Proof.
  intros [-> | ->]; rewrite reconnect_loop_S;
    (erewrite on_OSError_passes;
     [reflexivity|first [apply connect_plain | apply connect_plain_spent]
     |discriminate]).
Qed.







(** ** Backoff *)

(** A connection attempt that fails is logged, the counter goes up by one and
    the wrapper sleeps that many seconds before the next attempt. *)
Lemma reconnect_loop_failed_attempt (f : nat) (i : Z) (c : config)
  (so : option socket) (p : Z) (cbk : bool)
  (d : list (option bytes * option bytes)) (rest : list (option socket))
  (sl : list Z) (pr : list (bool * exn)) :
  reconnect_loop (S f) i (mkClient c so p cbk d (None :: rest) sl pr) =
  reconnect_loop f (i + 1)
    (mkClient c (Some unconnected) p cbk d rest (sl ++ [i + 1])
       (if debug c then pr ++ [(true, OSError EHOSTUNREACH)] else pr)).
Proof.
  rewrite reconnect_loop_S.
  erewrite on_OSError_caught; [|apply connect_refused; reflexivity].
  unfold log, sleep, bind. cbn [cfg set_net set_sock].
  destruct (debug c); reflexivity.
Qed.

Lemma backoff_shift (i : Z) (k : nat) :
  (i + 1) :: map (fun j => i + 1 + Z.of_nat j) (seq 1 k) =
  map (fun j => i + Z.of_nat j) (seq 1 (S k)).
Proof.
  cbn [seq map]. replace (i + Z.of_nat 1) with (i + 1) by lia. f_equal.
  rewrite <- (seq_shift k 1), map_map.
  apply map_ext. intros j. lia.
Qed.

Lemma reconnect_loop_backoff (k : nat) :
  forall (x : nat) (i : Z) (so : option socket) (p : Z) (c : bool)
    (d : list (option bytes * option bytes)) (then_ : bytes) (e : rx_end)
    (rest : list (option socket)) (sl : list Z) (pr : list (bool * exn)),
    reconnect_loop (1 + (x + k)) i
      (mkClient plain_config so p c d
         (repeat None k ++ Some (server then_ e None) :: rest) sl pr) =
    (Ret 0,
     mkClient plain_config
       (Some (mkSocket then_ e connect_packet_plain None true false))
       p c d rest (sl ++ map (fun j => i + Z.of_nat j) (seq 1 k)) pr).
Proof.
  induction k as [|k IH]; intros x i so p c d then_ e rest sl pr.
  - cbn [repeat app Nat.add seq map]. rewrite app_nil_r.
    apply reconnect_plain. left. reflexivity.
  - rewrite Nat.add_succ_r. cbn [repeat app Nat.add].
    rewrite reconnect_loop_failed_attempt. cbn [debug plain_config].
    rewrite (IH x), <- backoff_shift, <- app_assoc. reflexivity.
Qed.

(** C7, as the code has it.  The failure counter [i] is a local variable of
    [reconnect]: it is 0 at the start of every call of [reconnect], each
    connection attempt that raises [OSError] adds one to it and is followed by
    [time.sleep(i)] before the next attempt, and it is gone when [reconnect]
    returns.  So within one call of [reconnect] that needs [k] failed attempts
    the sleeps are 1, 2, ..., [k] seconds (none before the first attempt),
    whatever was slept before; nothing carries the count from one [reconnect]
    to the next, whether or not a publish or a wait completed in between. *)
Theorem reconnect_backoff_is_per_call :
  (forall fuel : nat, reconnect fuel = reconnect_loop fuel 0)
  /\ (forall (f : nat) (i : Z) (c : config) (so : option socket) (p : Z)
             (cbk : bool) (d : list (option bytes * option bytes))
             (rest : list (option socket)) (sl : list Z)
             (pr : list (bool * exn)),
        reconnect_loop (S f) i (mkClient c so p cbk d (None :: rest) sl pr) =
        reconnect_loop f (i + 1)
          (mkClient c (Some unconnected) p cbk d rest (sl ++ [i + 1])
             (if debug c then pr ++ [(true, OSError EHOSTUNREACH)] else pr)))
  /\ (forall (k x : nat) (so : option socket) (p : Z) (c : bool)
             (d : list (option bytes * option bytes)) (then_ : bytes)
             (e : rx_end) (rest : list (option socket)) (sl : list Z)
             (pr : list (bool * exn)),
        reconnect (1 + (x + k))
          (mkClient plain_config so p c d
             (repeat None k ++ Some (server then_ e None) :: rest) sl pr) =
        (Ret 0,
         mkClient plain_config
           (Some (mkSocket then_ e connect_packet_plain None true false))
           p c d rest (sl ++ backoff k) pr)).
Proof.
  split; [reflexivity|split].
  - intros. apply reconnect_loop_failed_attempt.
  - intros k x so p c d then_ e rest sl pr. unfold reconnect, backoff.
    rewrite reconnect_loop_backoff. reflexivity.
Qed.

(** C7, as stated, fails.  First run: the publish fails, the first connection
    attempt fails (sleep 1), the second is accepted, the publish fails again
    on the new connection, the next attempt fails and the sleep is again 1,
    not 2, although no publish has completed.  Second run, two calls: the
    first ends in the server's refusal of the CONNECT after a sleep of 1; in
    the second call the first failed attempt is again followed by a sleep
    of 1, with no exchange completed in between. *)
Lemma backoff_counter_restarts :
  (exists w' : client,
     robust_publish 8 [116] [109] false 0
       (connected plain_config (fresh_socket [] Silent (Some O))
          [None; Some (server [] Silent (Some 4%nat));
           None; Some (server [] Silent None)]) = (Ret tt, w')
     /\ sleeps w' = [1; 1])
  /\ (exists w1 w2 : client,
     robust_publish 8 [116] [109] false 0
       (connected plain_config (fresh_socket [] Silent (Some O))
          [None; Some (fresh_socket [0x20; 0x02; 0; 5] Silent (Some 4%nat));
           None; Some (server [] Silent None)]) = (Raise (MQTTException 5), w1)
     /\ sleeps w1 = [1]
     /\ robust_publish 8 [116] [109] false 0 w1 = (Ret tt, w2)
     /\ sleeps w2 = [1; 1]).
Proof.
  split.
  - eexists. split; vm_compute; reflexivity.
  - eexists. eexists. split; [vm_compute; reflexivity|].
    split; [reflexivity|]. split; vm_compute; reflexivity.
Qed.

(** ** check_msg *)









(** * Further properties of the two modules *)

(** ** The length decoder on any number of bytes *)

Lemma recv_step_more (f : nat) (n sh : Z) (w : client) (s : socket) (b : Z)
  (rest : bytes) :
  closed s = false -> continues b ->
  _recv_len_loop (S f) n sh (set_sock w (Some (set_rx s (b :: rest)))) =
  _recv_len_loop f (Z.lor n (Z.shiftl (Z.land b 0x7F) sh)) (sh + 7)
    (set_sock w (Some (set_rx s rest))).
Proof.
  intros Hc Hb.
  exact (_recv_len_loop_more f n sh (set_sock w (Some (set_rx s (b :: rest))))
           (set_rx s (b :: rest)) b rest eq_refl Hc eq_refl Hb).
Qed.

Lemma recv_step_last (f : nat) (n sh : Z) (w : client) (s : socket) (b : Z)
  (rest : bytes) :
  closed s = false -> Z.land b 0x80 = 0 ->
  _recv_len_loop (S f) n sh (set_sock w (Some (set_rx s (b :: rest)))) =
  (Ret (Z.lor n (Z.shiftl (Z.land b 0x7F) sh)),
   set_sock w (Some (set_rx s rest))).
Proof.
  intros Hc Hb.
  exact (_recv_len_loop_last f n sh (set_sock w (Some (set_rx s (b :: rest))))
           (set_rx s (b :: rest)) b rest eq_refl Hc eq_refl Hb).
Qed.

Lemma recv_len_loop_decodes (cont : bytes) :
  forall (f : nat) (n sh : Z) (w : client) (s : socket) (last : Z) (rest : bytes),
    closed s = false -> Forall continues cont -> Z.land last 0x80 = 0 ->
    (length cont < f)%nat ->
    _recv_len_loop f n sh (set_sock w (Some (set_rx s (cont ++ last :: rest)))) =
    (Ret (Z.lor n (varint_value (cont ++ [last]) sh)),
     set_sock w (Some (set_rx s rest))).
Proof.
  induction cont as [|b cont IH]; intros f n sh w s last rest Hc Hall Hl Hf;
    (destruct f as [|f]; [cbn in Hf; lia|]); cbn [app varint_value].
  - rewrite recv_step_last by assumption. rewrite Z.lor_0_r. reflexivity.
  - inversion Hall; subst.
    rewrite recv_step_more by assumption.
    rewrite IH by (auto; cbn in Hf; lia).
    rewrite Z.lor_assoc. reflexivity.
Qed.

(** [_recv_len] has no limit on the number of length bytes: whatever the
    number of bytes with the top bit set, it reads on to the first byte with
    the top bit clear and returns the value of all the seven-bit groups. *)
Theorem recv_len_decodes_any_length (cont : bytes) (last : Z) (rest : bytes)
  (f : nat) (w : client) (s : socket) :
  closed s = false -> Forall continues cont -> Z.land last 0x80 = 0 ->
  (length cont < f)%nat ->
  _recv_len f (set_sock w (Some (set_rx s (cont ++ last :: rest)))) =
  (Ret (varint_value (cont ++ [last]) 0), set_sock w (Some (set_rx s rest))).
Proof.
  intros Hc Hall Hl Hf. unfold _recv_len.
  rewrite recv_len_loop_decodes by assumption.
  rewrite Z.lor_0_l. reflexivity.
Qed.

Lemma recv_len_decodes_any_length_witness :
  _recv_len 6
    (set_sock (init plain_config [])
       (Some (set_rx (fresh_socket [] Silent None)
                ([0x80; 0x80; 0x80; 0x80; 0x80] ++ [0x01; 9])))) =
  (Ret (varint_value ([0x80; 0x80; 0x80; 0x80; 0x80] ++ [0x01]) 0),
   set_sock (init plain_config []) (Some (set_rx (fresh_socket [] Silent None) [9]))).
Proof.
  apply (recv_len_decodes_any_length [0x80; 0x80; 0x80; 0x80; 0x80] 0x01 [9] 6
           (init plain_config []) (fresh_socket [] Silent None)).
  - reflexivity.
  - repeat constructor; discriminate.
  - reflexivity.
  - cbn. lia.
Defined.

(** ** A packet cut short by the peer *)

Lemma recv_len_loop_cut_short (cont : bytes) :
  forall (f : nat) (n sh : Z) (w : client) (s : socket),
    closed s = false -> at_end s = Eof -> Forall continues cont ->
    (length cont < f)%nat ->
    _recv_len_loop f n sh (set_sock w (Some (set_rx s cont))) =
    (Raise IndexError, set_sock w (Some (set_rx s []))).
Proof.
  induction cont as [|b cont IH]; intros f n sh w s Hc He Hall Hf;
    (destruct f as [|f]; [cbn in Hf; lia|]).
  - destruct s as [r a t b bl cl]. cbn in Hc, He. subst. reflexivity.
  - inversion Hall; subst.
    rewrite recv_step_more by assumption.
    apply IH; auto. cbn in Hf. lia.
Qed.

(** When the peer closes the connection inside the remaining-length field of
    an inbound PUBLISH, [wait_msg] ends in [IndexError], not [OSError]; the
    reconnect wrapper does not catch it, so the wrapped [wait_msg] raises it
    too, without reconnecting. *)
Theorem cut_short_publish_is_not_retried (f : nat) (w : client) (s : socket)
  (op : Z) (cont : bytes) :
  closed s = false -> at_end s = Eof -> Z.land op 0xF0 = 0x30 ->
  Forall continues cont -> (length cont < f)%nat ->
  wait_msg f (set_sock w (Some (set_rx s (op :: cont)))) =
    (Raise IndexError, set_sock w (Some (set_rx s [])))
  /\ robust_wait_msg (S f) (set_sock w (Some (set_rx s (op :: cont)))) =
     (Raise IndexError, set_sock w (Some (set_rx s []))).
Proof.
  intros Hc He Hop Hall Hf.
  assert (Hw : wait_msg f (set_sock w (Some (set_rx s (op :: cont)))) =
               (Raise IndexError, set_sock w (Some (set_rx s [])))).
  { unfold wait_msg.
    rewrite (bind_Ret _ _ _ _ _
               (sock_read_1 w (set_rx s (op :: cont)) op cont Hc eq_refl)).
    cbn [bytes_eqb].
    replace (op =? 0xd0) with false.
    2: { symmetry. apply Z.eqb_neq. intros ->. discriminate. }
    cbn [andb]. rewrite Hop. cbn [Z.eqb Pos.eqb negb].
    apply bind_Raise. unfold _recv_len.
    apply (recv_len_loop_cut_short cont f 0 0 w (set_rx s cont)); assumption. }
  split; [exact Hw|].
  rewrite robust_wait_msg_S.
  apply on_OSError_passes; [exact Hw|discriminate].
Qed.

Lemma cut_short_publish_is_not_retried_witness :
  robust_wait_msg 3
    (set_sock (init plain_config [Some (server [] Silent None)])
       (Some (set_rx (fresh_socket [] Eof None) [0x30; 0x85]))) =
  (Raise IndexError,
   set_sock (init plain_config [Some (server [] Silent None)])
     (Some (set_rx (fresh_socket [] Eof None) []))).
Proof.
  apply (cut_short_publish_is_not_retried 2
           (init plain_config [Some (server [] Silent None)])
           (fresh_socket [] Eof None) 0x30 [0x85]).
  - reflexivity.
  - reflexivity.
  - reflexivity.
  - repeat constructor; discriminate.
  - cbn. lia.
Defined.

(** ** Length bytes of any size *)

Lemma shiftr7_pow (v : Z) (k : nat) :
  0 <= v < 2 ^ (7 * Z.of_nat (S (S k))) ->
  0 <= Z.shiftr v 7 < 2 ^ (7 * Z.of_nat (S k)).
Proof.
  intros H. apply shiftr7_bound.
  replace (128 * 2 ^ (7 * Z.of_nat (S k))) with (2 ^ (7 * Z.of_nat (S (S k))));
    [exact H|].
  replace (7 * Z.of_nat (S (S k))) with (7 + 7 * Z.of_nat (S k)) by lia.
  rewrite Z.pow_add_r by lia. reflexivity.
Qed.

Lemma varint_bytes_small (fuel : nat) (sz : Z) :
  sz <= 0x7F -> varint_bytes fuel sz = [sz].
Proof.
  intros H.
  assert (Hgt : (sz >? 0x7F) = false) by (rewrite Z.gtb_ltb; apply Z.ltb_ge; lia).
  destruct fuel; cbn [varint_bytes]; rewrite Hgt; reflexivity.
Qed.

Lemma varint_bytes_more (fuel : nat) (sz : Z) :
  0x7F < sz ->
  varint_bytes (S fuel) sz =
  Z.lor (Z.land sz 0x7F) 0x80 :: varint_bytes fuel (Z.shiftr sz 7).
Proof.
  intros H. cbn [varint_bytes].
  replace (sz >? 0x7F) with true by (symmetry; rewrite Z.gtb_ltb; apply Z.ltb_lt; lia).
  reflexivity.
Qed.

Lemma join7 (acc n sh : Z) :
  Z.lor (Z.lor acc (Z.shiftl (Z.land n 0x7F) sh))
        (Z.shiftl (Z.shiftr n 7) (sh + 7)) =
  Z.lor acc (Z.shiftl n sh).
Proof.
  rewrite <- Z.lor_assoc. f_equal.
  rewrite (Z.add_comm sh 7), <- Z.shiftl_shiftl by lia.
  rewrite <- Z.shiftl_lor, split7. reflexivity.
Qed.

(** The decoder loop on the bytes the encoder makes of [n]. *)
Lemma recv_len_loop_varint (k : nat) :
  forall (n acc sh : Z) (f : nat) (w : client) (s : socket) (rest : bytes),
    closed s = false -> 0 <= n < 2 ^ (7 * Z.of_nat (S k)) -> (k < f)%nat ->
    _recv_len_loop f acc sh
      (set_sock w (Some (set_rx s (varint_bytes k n ++ rest)))) =
    (Ret (Z.lor acc (Z.shiftl n sh)), set_sock w (Some (set_rx s rest))).
Proof.
  assert (Hsmall : forall (k : nat) (n acc sh : Z) (f : nat) (w : client)
                     (s : socket) (rest : bytes),
             closed s = false -> 0 <= n <= 0x7F -> (0 < f)%nat ->
             _recv_len_loop f acc sh
               (set_sock w (Some (set_rx s (varint_bytes k n ++ rest)))) =
             (Ret (Z.lor acc (Z.shiftl n sh)), set_sock w (Some (set_rx s rest)))).
  { intros k0 n acc sh f w s rest Hc Hn Hf.
    rewrite varint_bytes_small by lia. destruct f as [|f]; [lia|].
    cbn [app]. rewrite recv_step_last; [|exact Hc|apply land_0x80_small; lia].
    rewrite land_0x7F_small by lia. reflexivity. }
  induction k as [|k IH]; intros n acc sh f w s rest Hc Hn Hf.
  - change (2 ^ (7 * Z.of_nat 1)) with 128 in Hn.
    apply Hsmall; [assumption|lia|lia].
  - destruct (Z.le_gt_cases n 0x7F) as [Hle|Hgt].
    + apply Hsmall; [assumption|lia|lia].
    + rewrite varint_bytes_more by lia. destruct f as [|f]; [lia|].
      cbn [app]. rewrite recv_step_more;
        [|exact Hc|unfold continues; rewrite cont_byte_high; discriminate].
      rewrite cont_byte_low.
      rewrite IH; [|exact Hc|apply shiftr7_pow; exact Hn|lia].
      rewrite join7. reflexivity.
Qed.

(** The remaining-length round trip for every size: [_recv_len] turns the
    bytes that the encoder loop makes of [n] back into [n], for every
    [n >= 0] and not only below 2097152, as long as the encoder is given the
    rounds it needs. *)
Theorem recv_len_inverts_varint_bytes (k : nat) (n : Z) (f : nat) (w : client)
  (s : socket) (rest : bytes) :
  closed s = false -> 0 <= n < 2 ^ (7 * Z.of_nat (S k)) -> (k < f)%nat ->
  _recv_len f (set_sock w (Some (set_rx s (varint_bytes k n ++ rest)))) =
  (Ret n, set_sock w (Some (set_rx s rest))).
Proof.
  intros Hc Hn Hf. unfold _recv_len.
  rewrite recv_len_loop_varint by assumption.
  rewrite Z.shiftl_0_r, Z.lor_0_l. reflexivity.
Qed.

Lemma recv_len_inverts_varint_bytes_witness :
  _recv_len 4
    (set_sock (init plain_config [])
       (Some (set_rx (fresh_socket [] Silent None)
                (varint_bytes 3 268435455 ++ [9])))) =
  (Ret 268435455,
   set_sock (init plain_config []) (Some (set_rx (fresh_socket [] Silent None) [9]))).
Proof.
  apply (recv_len_inverts_varint_bytes 3 268435455 4 (init plain_config [])
           (fresh_socket [] Silent None) [9]).
  - reflexivity.
  - vm_compute. split; [discriminate|reflexivity].
  - lia.
Defined.

Lemma varint_bytes_length (k : nat) :
  forall n : Z, (length (varint_bytes k n) <= S k)%nat.
Proof.
  induction k as [|k IH]; intros n; cbn [varint_bytes];
    destruct (n >? 0x7F); cbn [length]; try lia.
  specialize (IH (Z.shiftr n 7)). lia.
Qed.

Lemma varint_bytes_range (k : nat) :
  forall n : Z, 0 <= n < 2 ^ (7 * Z.of_nat (S k)) ->
    Forall (fun b => 0 <= b < 256) (varint_bytes k n).
Proof.
  induction k as [|k IH]; intros n Hn.
  - change (2 ^ (7 * Z.of_nat 1)) with 128 in Hn.
    rewrite varint_bytes_small by lia. constructor; [lia|constructor].
  - destruct (Z.le_gt_cases n 0x7F) as [Hle|Hgt].
    + rewrite varint_bytes_small by lia. constructor; [lia|constructor].
    + rewrite varint_bytes_more by lia. constructor.
      * apply cont_byte_range.
      * apply IH, shiftr7_pow, Hn.
Qed.

(** The encoder loop writes [varint_bytes] into its buffer from index [i] on
    and returns the index of the last length byte, when they fit. *)
Lemma len_loop_varint (k : nat) :
  forall (sz : Z) (fuel : nat) (st : bool) (buf : bytes) (i : nat),
    0 <= sz < 2 ^ (7 * Z.of_nat (S k)) -> (k <= fuel)%nat ->
    (i + length (varint_bytes k sz) <= length buf)%nat ->
    len_loop fuel st buf i sz =
    Ret (firstn i buf ++ varint_bytes k sz ++
         skipn (i + length (varint_bytes k sz)) buf,
         (i + length (varint_bytes k sz) - 1)%nat).
Proof.
  assert (Hsmall : forall (k : nat) (sz : Z) (fuel : nat) (st : bool)
                     (buf : bytes) (i : nat),
             0 <= sz <= 0x7F ->
             (i + length (varint_bytes k sz) <= length buf)%nat ->
             len_loop fuel st buf i sz =
             Ret (firstn i buf ++ varint_bytes k sz ++
                  skipn (i + length (varint_bytes k sz)) buf,
                  (i + length (varint_bytes k sz) - 1)%nat)).
  { intros k0 sz fuel st buf i Hsz Hfit.
    rewrite varint_bytes_small in * by lia. cbn [length] in *.
    rewrite len_loop_last by lia.
    replace (i + 1)%nat with (S i) by lia.
    replace (S i - 1)%nat with i by lia. reflexivity. }
  induction k as [|k IH]; intros sz fuel st buf i Hsz Hf Hfit.
  - change (2 ^ (7 * Z.of_nat 1)) with 128 in Hsz.
    apply Hsmall; [lia|assumption].
  - destruct (Z.le_gt_cases sz 0x7F) as [Hle|Hgt].
    + apply Hsmall; [lia|assumption].
    + rewrite varint_bytes_more in * by lia. cbn [length] in Hfit.
      destruct fuel as [|fuel]; [lia|].
      rewrite len_loop_more by lia.
      pose proof (varint_bytes_length k (Z.shiftr sz 7)) as Hlen.
      set (b0 := Z.lor (Z.land sz 0x7F) 0x80) in *.
      set (tl := varint_bytes k (Z.shiftr sz 7)) in *.
      assert (Hl' : length (firstn i buf ++ b0 :: skipn (S i) buf) = length buf).
      { rewrite length_app, length_firstn. cbn [length]. rewrite length_skipn. lia. }
      rewrite (IH (Z.shiftr sz 7) fuel st _ (S i));
        [|apply shiftr7_pow; exact Hsz|lia|rewrite Hl'; fold tl; lia].
      fold tl. cbn [length].
      f_equal. f_equal.
      * assert (Hfi : length (firstn i buf) = i) by (rewrite length_firstn; lia).
        replace (S i) with (length (firstn i buf) + 1)%nat at 1 by lia.
        rewrite firstn_app_2. cbn [firstn]. rewrite <- app_assoc. cbn [app].
        f_equal. f_equal. f_equal.
        replace (S i + length tl)%nat
          with (length (firstn i buf) + (S (length tl)))%nat by lia.
        rewrite skipn_app, Hfi.
        replace (i + S (length tl) - i)%nat with (S (length tl)) by lia.
        rewrite (skipn_all2 (firstn i buf)) by lia. cbn [app].
        rewrite skipn_cons, skipn_skipn. f_equal. lia.
      * lia.
Qed.

(** ** Inbound PUBLISH packets *)

Lemma split8 (v : Z) :
  Z.lor (Z.shiftl (Z.shiftr v 8) 8) (Z.land v 0xFF) = v.
Proof.
  change 0xFF with (Z.ones 8).
  rewrite <- Z.ldiff_ones_r by lia. apply Z.lor_ldiff_and.
Qed.

(** Two big-endian bytes read back as the number they were made of. *)
Lemma u16_roundtrip (v : Z) :
  0 <= v < 65536 ->
  Z.lor (Z.shiftl (Z.land (Z.shiftr v 8) 0xFF) 8) (Z.land v 0xFF) = v.
Proof.
  intros H.
  assert (Hs : 0 <= Z.shiftr v 8 < 256).
  { rewrite Z.shiftr_div_pow2 by lia. change (2 ^ 8) with 256.
    split; [apply Z.div_pos; lia|apply Z.div_lt_upper_bound; lia]. }
  rewrite (land_0xFF_small (Z.shiftr v 8)) by exact Hs.
  apply split8.
Qed.

Lemma read_u16_be (w : client) (s : socket) (v : Z) (rest : bytes) :
  closed s = false -> 0 <= v < 65536 ->
  read_u16 (set_sock w (Some (set_rx s (be_bytes 2 v ++ rest)))) =
  (Ret v, set_sock w (Some (set_rx s rest))).
Proof.
  intros Hc Hv. rewrite be_bytes_2. cbn [app].
  rewrite (read_u16_ok w (set_rx s _) _ _ rest Hc eq_refl).
  rewrite u16_roundtrip by exact Hv. reflexivity.
Qed.

Lemma set_rx_set_rx (s : socket) (a b : bytes) :
  set_rx (set_rx s a) b = set_rx s b.
Proof. reflexivity. Qed.

Lemma bind_call_cb {B : Type} (t m : option bytes) (k : unit -> M B)
  (w : client) (x : option socket) :
  cb w = true ->
  bind (call_cb t m) k (set_sock w x) =
  k tt (set_sock (set_delivered w (delivered w ++ [(t, m)])) x).
Proof. intros H. unfold bind, call_cb. cbn [cb set_sock]. rewrite H. reflexivity. Qed.

(** [wait_msg] on a whole inbound PUBLISH: the packet is taken off the
    stream, topic and payload go to the callback, and what is left to do
    depends on the QoS bits. *)
Lemma wait_msg_inbound_publish (f k : nat) (w : client) (s : socket)
  (op id : Z) (topic msg rest : bytes) :
  closed s = false -> cb w = true -> Z.land op 0xF0 = 0x30 ->
  len topic < 65536 -> 0 <= id < 65536 ->
  2 + len topic + (if Z.land op 6 =? 0 then 0 else 2) + len msg
    < 2 ^ (7 * Z.of_nat (S k)) ->
  (k < f)%nat ->
  wait_msg f
    (set_sock w (Some (set_rx s
       (op :: varint_bytes k
                (2 + len topic + (if Z.land op 6 =? 0 then 0 else 2) + len msg) ++
        be_bytes 2 (len topic) ++ topic ++
        (if Z.land op 6 =? 0 then [] else be_bytes 2 id) ++ msg ++ rest)))) =
  after_delivery op id
    (set_sock (set_delivered w (delivered w ++ [(Some topic, Some msg)]))
       (Some (set_rx s rest))).
Proof.
  intros Hc Hcb Hop Ht Hid Hsz Hf.
  pose proof (len_nonneg topic) as Ht0. pose proof (len_nonneg msg) as Hm0.
  unfold wait_msg.
  rewrite (bind_Ret _ _ _ _ _ (sock_read_1 w (set_rx s _) op _ Hc eq_refl)).
  rewrite set_rx_set_rx. cbn [bytes_eqb].
  replace (op =? 0xd0) with false.
  2: { symmetry. apply Z.eqb_neq. intros ->. discriminate. }
  cbn [andb]. rewrite Hop. cbn [Z.eqb Pos.eqb negb].
  unfold _recv_len.
  assert (Hsz0 : 0 <= 2 + len topic + (if Z.land op 6 =? 0 then 0 else 2) + len msg
                 < 2 ^ (7 * Z.of_nat (S k)))
    by (destruct (Z.land op 6 =? 0); lia).
  rewrite (bind_Ret _ _ _ _ _
             (recv_len_loop_varint k _ 0 0 f w s _ Hc Hsz0 Hf)).
  rewrite Z.shiftl_0_r, Z.lor_0_l.
  rewrite (bind_Ret _ _ _ _ _
             (read_u16_be w s (len topic) _ Hc ltac:(lia))).
  rewrite (bind_Ret _ _ _ _ _ (sock_read_n w (set_rx s _) topic _ Hc eq_refl)).
  rewrite set_rx_set_rx.
  destruct (Z.land op 6 =? 0) eqn:Eq; cbn [negb app].
  - rewrite bind_ret.
    replace (2 + len topic + 0 + len msg - (len topic + 2)) with (len msg) by lia.
    rewrite (bind_Ret _ _ _ _ _ (sock_read_n w (set_rx s _) msg rest Hc eq_refl)).
    rewrite set_rx_set_rx, bind_call_cb by exact Hcb.
    unfold after_delivery. apply Z.eqb_eq in Eq. rewrite Eq. reflexivity.
  - rewrite bind_assoc.
    rewrite (bind_Ret _ _ _ _ _ (read_u16_be w s id _ Hc Hid)).
    rewrite bind_ret.
    replace (2 + len topic + 2 + len msg - (len topic + 2) - 2) with (len msg) by lia.
    rewrite (bind_Ret _ _ _ _ _ (sock_read_n w (set_rx s _) msg rest Hc eq_refl)).
    rewrite set_rx_set_rx, bind_call_cb by exact Hcb. reflexivity.
Qed.

Lemma inbound_publish_qos0 (f k : nat) (w : client) (s : socket)
  (op : Z) (topic msg rest : bytes) :
  closed s = false -> cb w = true -> Z.land op 0xF0 = 0x30 ->
  len topic < 65536 -> (k < f)%nat -> Z.land op 6 = 0 ->
  2 + len topic + len msg < 2 ^ (7 * Z.of_nat (S k)) ->
  wait_msg f
    (set_sock w (Some (set_rx s
       (op :: varint_bytes k (2 + len topic + len msg) ++
        be_bytes 2 (len topic) ++ topic ++ msg ++ rest)))) =
  (Ret (Some op),
   set_sock (set_delivered w (delivered w ++ [(Some topic, Some msg)]))
     (Some (set_rx s rest))).
Proof.
  intros Hc Hcb Hop Ht Hf Hq Hsz.
  pose proof (wait_msg_inbound_publish f k w s op 0 topic msg rest
                Hc Hcb Hop Ht ltac:(lia)) as H.
  rewrite Hq in H. cbn [Z.eqb app] in H.
  replace (2 + len topic + 0 + len msg) with (2 + len topic + len msg) in H by lia.
  rewrite (H Hsz Hf). unfold after_delivery. rewrite Hq. reflexivity.
Qed.

Lemma inbound_publish_qos1 (f k : nat) (w : client) (s : socket)
  (op id : Z) (topic msg rest : bytes) :
  closed s = false -> cb w = true -> Z.land op 0xF0 = 0x30 ->
  len topic < 65536 -> 0 <= id < 65536 -> (k < f)%nat ->
  Z.land op 6 = 2 -> wbudget s = None ->
  2 + len topic + 2 + len msg < 2 ^ (7 * Z.of_nat (S k)) ->
  wait_msg f
    (set_sock w (Some (set_rx s
       (op :: varint_bytes k (2 + len topic + 2 + len msg) ++
        be_bytes 2 (len topic) ++ topic ++ be_bytes 2 id ++ msg ++ rest)))) =
  (Ret (Some op),
   set_sock (set_delivered w (delivered w ++ [(Some topic, Some msg)]))
     (Some (sent (set_rx s rest) (puback_packet id) None))).
Proof.
  intros Hc Hcb Hop Ht Hid Hf Hq Hb Hsz.
  pose proof (wait_msg_inbound_publish f k w s op id topic msg rest
                Hc Hcb Hop Ht Hid) as H.
  rewrite Hq in H. cbn [Z.eqb Pos.eqb] in H.
  rewrite (H Hsz Hf). unfold after_delivery. rewrite Hq. cbn [Z.eqb Pos.eqb].
  rewrite bind_assoc, bind_get_strict.
  rewrite pack_into_H_ok by (try (apply fits_range; cbn; lia); cbn; lia).
  rewrite bind_assoc, bind_lift_Ret. cbn [firstn skipn app Nat.add].
  wstep. reflexivity.
Qed.

(** An inbound PUBLISH with QoS 0 or 1 is taken off the stream whole, its
    topic and payload are handed to the callback unchanged, and [wait_msg]
    returns the header byte.  With QoS 0 nothing is written; with QoS 1 the
    four bytes of a PUBACK carrying the packet's identifier are written. *)
Theorem wait_msg_delivers_inbound_publish (f k : nat) (w : client) (s : socket)
  (op id : Z) (topic msg rest : bytes) :
  closed s = false -> cb w = true -> Z.land op 0xF0 = 0x30 ->
  len topic < 65536 -> 0 <= id < 65536 -> (k < f)%nat ->
  (Z.land op 6 = 0 ->
   2 + len topic + len msg < 2 ^ (7 * Z.of_nat (S k)) ->
   wait_msg f
     (set_sock w (Some (set_rx s
        (op :: varint_bytes k (2 + len topic + len msg) ++
         be_bytes 2 (len topic) ++ topic ++ msg ++ rest)))) =
   (Ret (Some op),
    set_sock (set_delivered w (delivered w ++ [(Some topic, Some msg)]))
      (Some (set_rx s rest))))
  /\ (Z.land op 6 = 2 -> wbudget s = None ->
      2 + len topic + 2 + len msg < 2 ^ (7 * Z.of_nat (S k)) ->
      wait_msg f
        (set_sock w (Some (set_rx s
           (op :: varint_bytes k (2 + len topic + 2 + len msg) ++
            be_bytes 2 (len topic) ++ topic ++ be_bytes 2 id ++ msg ++ rest)))) =
      (Ret (Some op),
       set_sock (set_delivered w (delivered w ++ [(Some topic, Some msg)]))
         (Some (sent (set_rx s rest) (puback_packet id) None)))).
Proof.
  intros Hc Hcb Hop Ht Hid Hf. split.
  - intros Hq Hsz. apply inbound_publish_qos0; assumption.
  - intros Hq Hb Hsz. apply inbound_publish_qos1; assumption.
Qed.

Lemma wait_msg_delivers_inbound_publish_witness :
  wait_msg 1
    (set_sock (connected plain_config (fresh_socket [] Silent None) [])
       (Some (set_rx (fresh_socket [] Silent None)
                (0x30 :: varint_bytes 0 (2 + len [116] + len [104; 105]) ++
                 be_bytes 2 (len [116]) ++ [116] ++ [104; 105] ++ [7])))) =
  (Ret (Some 0x30),
   set_sock (set_delivered (connected plain_config (fresh_socket [] Silent None) [])
               ([] ++ [(Some [116], Some [104; 105])]))
     (Some (set_rx (fresh_socket [] Silent None) [7]))).
Proof.
  refine (proj1 (wait_msg_delivers_inbound_publish 1 0
                   (connected plain_config (fresh_socket [] Silent None) [])
                   (fresh_socket [] Silent None) 0x30 0 [116] [104; 105] [7]
                   eq_refl eq_refl eq_refl _ _ _) eq_refl _).
  - vm_compute. reflexivity.
  - lia.
  - lia.
  - vm_compute. reflexivity.
Defined.

(** An inbound PUBLISH with QoS 2 is handed to the callback like any other;
    only then does [wait_msg] fail, with the [AssertionError] of [assert 0],
    and nothing is written.  With both QoS bits set the message is delivered
    and [wait_msg] returns, with no acknowledgement. *)
Theorem inbound_qos2_fails_after_delivery (f k : nat) (w : client) (s : socket)
  (op id : Z) (topic msg rest : bytes) :
  closed s = false -> cb w = true -> Z.land op 0xF0 = 0x30 ->
  len topic < 65536 -> 0 <= id < 65536 -> (k < f)%nat ->
  2 + len topic + 2 + len msg < 2 ^ (7 * Z.of_nat (S k)) ->
  (Z.land op 6 = 4 ->
   wait_msg f
     (set_sock w (Some (set_rx s
        (op :: varint_bytes k (2 + len topic + 2 + len msg) ++
         be_bytes 2 (len topic) ++ topic ++ be_bytes 2 id ++ msg ++ rest)))) =
   (Raise AssertionError,
    set_sock (set_delivered w (delivered w ++ [(Some topic, Some msg)]))
      (Some (set_rx s rest))))
  /\ (Z.land op 6 = 6 ->
      wait_msg f
        (set_sock w (Some (set_rx s
           (op :: varint_bytes k (2 + len topic + 2 + len msg) ++
            be_bytes 2 (len topic) ++ topic ++ be_bytes 2 id ++ msg ++ rest)))) =
      (Ret (Some op),
       set_sock (set_delivered w (delivered w ++ [(Some topic, Some msg)]))
         (Some (set_rx s rest)))).
Proof.
  intros Hc Hcb Hop Ht Hid Hf Hsz.
  split; intros Hq;
    pose proof (wait_msg_inbound_publish f k w s op id topic msg rest
                  Hc Hcb Hop Ht Hid) as H;
    rewrite Hq in H; cbn [Z.eqb Pos.eqb] in H;
    rewrite (H Hsz Hf); unfold after_delivery; rewrite Hq; reflexivity.
Qed.

Lemma inbound_qos2_fails_after_delivery_witness :
  wait_msg 1
    (set_sock (connected plain_config (fresh_socket [] Silent None) [])
       (Some (set_rx (fresh_socket [] Silent None)
                (0x34 :: varint_bytes 0 (2 + len [116] + 2 + len [104; 105]) ++
                 be_bytes 2 (len [116]) ++ [116] ++ be_bytes 2 9 ++
                 [104; 105] ++ [7])))) =
  (Raise AssertionError,
   set_sock (set_delivered (connected plain_config (fresh_socket [] Silent None) [])
               ([] ++ [(Some [116], Some [104; 105])]))
     (Some (set_rx (fresh_socket [] Silent None) [7]))).
Proof.
  refine (proj1 (inbound_qos2_fails_after_delivery 1 0
                   (connected plain_config (fresh_socket [] Silent None) [])
                   (fresh_socket [] Silent None) 0x34 9 [116] [104; 105] [7]
                   eq_refl eq_refl eq_refl _ _ _ _) eq_refl).
  - vm_compute. reflexivity.
  - lia.
  - lia.
  - vm_compute. reflexivity.
Defined.

(** ** From publish to the callback *)






(** ** Packets that arrive while an acknowledgement is awaited *)

Lemma suback_loop_other (f : nat) (pkt : bytes) (w w1 : client) (op : Z) :
  wait_msg f w = (Ret (Some op), w1) -> op <> 0x90 ->
  suback_loop (S f) pkt w = suback_loop f pkt w1.
Proof.
  intros H Hne. cbn [suback_loop]. rewrite (bind_Ret _ _ _ _ _ H).
  destruct op as [|q|q]; try reflexivity.
  do 8 (destruct q as [q|q|]; try reflexivity). congruence.
Qed.

Lemma puback_loop_other (f : nat) (p : Z) (w w1 : client) (op : Z) :
  wait_msg f w = (Ret (Some op), w1) -> op <> 0x40 ->
  puback_loop (S f) p w = puback_loop f p w1.
Proof.
  intros H Hne. cbn [puback_loop]. rewrite (bind_Ret _ _ _ _ _ H).
  destruct op as [|q|q]; try reflexivity.
  do 7 (destruct q as [q|q|]; try reflexivity). congruence.
Qed.

Lemma publish_opcode_is_no_ack (op : Z) :
  Z.land op 0xF0 = 0x30 -> op <> 0x90 /\ op <> 0x40.
Proof. intros H. split; intros ->; discriminate. Qed.

(** A QoS 0 PUBLISH that arrives while [subscribe] waits for its SUBACK, or
    while a QoS 1 [publish] waits for its PUBACK, is not lost: it is handed to
    the callback, and the call then goes on to its acknowledgement and
    returns. *)
Theorem inbound_publish_while_waiting (f k : nat) (w : client) (s : socket)
  (op : Z) (topic msg rest : bytes) (mine payload : bytes) (retain : bool)
  (qos : Z) :
  closed s = false -> wbudget s = None -> cb w = true ->
  strict (cfg w) = false ->
  Z.land op 0xF0 = 0x30 -> Z.land op 6 = 0 -> len topic < 65536 ->
  2 + len topic + len msg < 2 ^ (7 * Z.of_nat (S k)) -> (k < f)%nat ->
  (2 <= f)%nat -> 0 <= pid w + 1 < 65536 ->
  publish_size mine payload 1 < 2097152 ->
  let inbound :=
    op :: varint_bytes k (2 + len topic + len msg) ++
    be_bytes 2 (len topic) ++ topic ++ msg in
  subscribe (S (S f)) mine qos
    (set_sock w (Some (set_rx s
       (inbound ++ 0x90 :: 3 :: be_bytes 2 (pid w + 1) ++ 0 :: rest)))) =
  (Ret tt,
   set_sock (set_delivered (set_pid w (pid w + 1))
               (delivered w ++ [(Some topic, Some msg)]))
     (Some (set_rx (sent s (subscribe_packet mine qos (pid w + 1)) None) rest)))
  /\ publish (S (S f)) mine payload retain 1
       (set_sock w (Some (set_rx s
          (inbound ++ 0x40 :: 0x02 :: be_bytes 2 (pid w + 1) ++ rest)))) =
     (Ret tt,
      set_sock (set_delivered (set_pid w (pid w + 1))
                  (delivered w ++ [(Some topic, Some msg)]))
        (Some (set_rx (sent s (publish_packet mine payload retain 1 (pid w + 1)) None)
                 rest))).
Proof.
  intros Hc Hb Hcb Hst Hop Hq Ht Hsz Hkf Hf Hp Hmine inbound. subst inbound.
  destruct (publish_opcode_is_no_ack op Hop) as (Hn90 & Hn40).
  split.
  - rewrite subscribe_sends; auto; try (rewrite Hst; apply fits_loose).
    cbn [app]. rewrite <- !app_assoc.
    erewrite suback_loop_other;
      [|apply (inbound_publish_qos0 (S f) k (set_pid w (pid w + 1))
                 (sent (set_rx s _) _ None) op topic msg _);
        auto; lia
      |exact Hn90].
    unfold subscribe_header. rewrite be_bytes_1, be_bytes_2. cbn [app].
    erewrite suback_loop_suback; try reflexivity; try assumption. discriminate.
  - rewrite publish_sends; auto; try lia;
      try (intros; rewrite Hst; apply fits_loose).
    cbn [Z.eqb Pos.eqb Z.gtb Z.compare app]. rewrite <- !app_assoc.
    erewrite puback_loop_other;
      [|apply (inbound_publish_qos0 (S f) k (set_pid w (pid w + 1))
                 (sent (set_rx s _) _ None) op topic msg _);
        auto; lia
      |exact Hn40].
    rewrite (be_bytes_2 (pid w + 1)). cbn [app].
    erewrite puback_loop_puback; [|cbn; exact Hc|reflexivity].
    rewrite u16_roundtrip by lia.
    rewrite Z.eqb_refl. reflexivity.
Qed.

Lemma inbound_publish_while_waiting_witness :
  subscribe 4 [109] 0
    (set_sock (connected plain_config (fresh_socket [] Silent None) [])
       (Some (set_rx (fresh_socket [] Silent None)
                ((0x30 :: varint_bytes 0 (2 + len [116] + len [104]) ++
                  be_bytes 2 (len [116]) ++ [116] ++ [104]) ++
                 0x90 :: 3 :: be_bytes 2 (0 + 1) ++ 0 :: [])))) =
  (Ret tt,
   set_sock (set_delivered
               (set_pid (connected plain_config (fresh_socket [] Silent None) [])
                  (0 + 1))
               ([] ++ [(Some [116], Some [104])]))
     (Some (set_rx (sent (fresh_socket [] Silent None)
                      (subscribe_packet [109] 0 (0 + 1)) None) []))).
Proof.
  refine (proj1 (inbound_publish_while_waiting 2 0
                   (connected plain_config (fresh_socket [] Silent None) [])
                   (fresh_socket [] Silent None) 0x30 [116] [104] [] [109] [112]
                   false 0 eq_refl eq_refl eq_refl eq_refl eq_refl eq_refl
                   _ _ _ _ _ _)).
  - vm_compute. reflexivity.
  - vm_compute. reflexivity.
  - lia.
  - lia.
  - cbn. lia.
  - vm_compute. reflexivity.
Defined.

(** ** When wait_msg returns None *)

Lemma sock_read_None (n : Z) (w w' : client) :
  sock_read n w = (Ret None, w') ->
  unread w = [] /\ unread w' = [] /\ written w' = written w
  /\ delivered w' = delivered w
  /\ exists s : socket, sock w = Some s /\ blocking s = false.
Proof.
  unfold sock_read, unread, written. destruct (sock w) as [s|] eqn:Hs; [|discriminate].
  destruct (closed s); [discriminate|].
  destruct (n <? -1); [discriminate|].
  destruct ((0 <=? n) && (Z.to_nat n <=? length (rx s))%nat); [discriminate|].
  unfold short_read. destruct (at_end s); try discriminate.
  destruct (blocking s) eqn:Hb; [discriminate|].
  destruct (rx s) as [|x l] eqn:Hrx; [|discriminate].
  intros H. inversion H; subst. cbn. rewrite Hrx. repeat split.
  exists s. split; [reflexivity|exact Hb].
Qed.

Lemma sock_read_delivered (n : Z) (w w' : client) (o : outcome (option bytes)) :
  sock_read n w = (o, w') -> delivered w' = delivered w.
Proof.
  unfold sock_read. destruct (sock w) as [s|]; [|intros H; inversion H; reflexivity].
  destruct (closed s); [intros H; inversion H; reflexivity|].
  destruct (n <? -1); [intros H; inversion H; reflexivity|].
  destruct ((0 <=? n) && (Z.to_nat n <=? length (rx s))%nat).
  - intros H; inversion H; reflexivity.
  - destruct (short_read s) as [o' s']. intros H; inversion H; reflexivity.
Qed.

(** [wait_msg] returns None in two cases only, which the caller cannot tell
    apart: a non-blocking socket had nothing to read, or a PINGRESP with
    length byte 0 was read and dropped.  In both nothing is written and
    nothing goes to the callback.  A PINGRESP whose length byte is not 0
    fails the assertion. *)
Theorem wait_msg_none_is_idle_or_pingresp (f : nat) (w : client) (s : socket)
  (rest : bytes) :
  closed s = false ->
  (forall w' : client,
     wait_msg f w = (Ret None, w') ->
     written w' = written w /\ delivered w' = delivered w
     /\ ((unread w = [] /\ unread w' = []
          /\ exists s0 : socket, sock w = Some s0 /\ blocking s0 = false)
         \/ unread w = 0xD0 :: 0 :: unread w'))
  /\ wait_msg f (set_sock w (Some (set_rx s (0xD0 :: 0 :: rest)))) =
     (Ret None, set_sock w (Some (set_rx s rest)))
  /\ (forall n : Z, n <> 0 ->
      wait_msg f (set_sock w (Some (set_rx s (0xD0 :: n :: rest)))) =
      (Raise AssertionError, set_sock w (Some (set_rx s rest))))
  /\ (blocking s = false -> rx s = [] -> at_end s = Silent ->
      wait_msg f (set_sock w (Some s)) = (Ret None, set_sock w (Some s))).
Proof.
  intros Hc. split; [|split; [|split]].
  - intros w' H. unfold wait_msg in H. binv H.
    destruct a as [[|op tl]|].
    + discriminate.
    + destruct (sock_read_Some _ _ _ _ H0) as (Hu & _ & _ & _ & Hw & Hl).
      pose proof (sock_read_delivered _ _ _ _ H0) as Hd.
      specialize (Hl ltac:(lia)). destruct tl; [|cbn in Hl; lia].
      cbn [bytes_eqb] in H. rewrite andb_true_r in H.
      destruct (op =? 0xd0) eqn:Eop.
      * apply Z.eqb_eq in Eop. subst op.
        binv H. binv H. binv H. inversion H; subst.
        destruct a as [[|sz tl]|]; try discriminate.
        destruct (sock_read_Some _ _ _ _ H1) as (Hu1 & _ & _ & _ & Hw1 & Hl1).
        pose proof (sock_read_delivered _ _ _ _ H1) as Hd1.
        specialize (Hl1 ltac:(lia)). destruct tl; [|cbn in Hl1; lia].
        inversion H2; subst.
        destruct (a0 =? 0) eqn:Ez; [|discriminate]. apply Z.eqb_eq in Ez. subst a0.
        inversion H3; subst.
        split; [congruence|split; [congruence|]]. right.
        rewrite Hu, Hu1. reflexivity.
      * destruct (negb (Z.land op 0xF0 =? 0x30)); [discriminate|].
        exfalso.
        repeat (apply bind_Ret_inv in H; destruct H as (? & ? & _ & H);
                try match type of H with
                    | context [let (_, _) := ?x in _] => destruct x
                    end).
        discriminate.
    + inversion H; subst.
      destruct (sock_read_None _ _ _ H0) as (Hu & Hu' & Hw & Hd & Hs).
      split; [exact Hw|split; [exact Hd|]]. left. auto.
  - unfold wait_msg.
    rewrite (bind_Ret _ _ _ _ _ (sock_read_1 w (set_rx s _) 0xD0 _ Hc eq_refl)).
    rewrite set_rx_set_rx. cbn [bytes_eqb Z.eqb Pos.eqb andb].
    rewrite (bind_Ret _ _ _ _ _ (sock_read_1 w (set_rx s _) 0 _ Hc eq_refl)).
    reflexivity.
  - intros n Hn. unfold wait_msg.
    rewrite (bind_Ret _ _ _ _ _ (sock_read_1 w (set_rx s _) 0xD0 _ Hc eq_refl)).
    rewrite set_rx_set_rx. cbn [bytes_eqb Z.eqb Pos.eqb andb].
    rewrite (bind_Ret _ _ _ _ _ (sock_read_1 w (set_rx s _) n _ Hc eq_refl)).
    rewrite set_rx_set_rx. unfold item, getitem. cbn [nth_error].
    rewrite bind_lift_Ret. apply Z.eqb_neq in Hn. rewrite Hn. reflexivity.
  - intros Hbl Hrx He. destruct s as [r a t b bl cl].
    cbn in Hc, Hbl, Hrx, He. subst. reflexivity.
Qed.

Lemma wait_msg_none_is_idle_or_pingresp_witness :
  wait_msg 0
    (set_sock (init plain_config [])
       (Some (set_rx (fresh_socket [] Silent None) [0xD0; 0; 7]))) =
  (Ret None,
   set_sock (init plain_config []) (Some (set_rx (fresh_socket [] Silent None) [7]))).
Proof.
  apply (wait_msg_none_is_idle_or_pingresp 0 (init plain_config [])
           (fresh_socket [] Silent None) [7] eq_refl).
Defined.

(** ** What subscribe makes of the SUBACK *)

(** One round of the SUBACK loop on any SUBACK packet: four bytes are read
    whatever they hold, the first of them is never looked at. *)
Lemma suback_loop_round (f : nat) (w : client) (s : socket)
  (h0 h1 p2 p3 r0 a b g : Z) (rest : bytes) :
  closed s = false -> rx s = 0x90 :: r0 :: a :: b :: g :: rest ->
  suback_loop (S f) [h0; h1; p2; p3] (set_sock w (Some s)) =
  (if (a =? p2) && (b =? p3)
   then if g =? 0x80 then Raise (MQTTException g) else Ret tt
   else Raise AssertionError,
   set_sock w (Some (set_rx s rest))).
Proof.
  intros Hc Hrx. cbn [suback_loop].
  rewrite (bind_Ret _ _ _ _ _
             (wait_msg_other f w s 0x90 _ Hc Hrx ltac:(discriminate) ltac:(discriminate))).
  cbv match.
  rewrite (bind_Ret _ _ _ _ _
             (sock_read_n _ (set_rx s (r0 :: a :: b :: g :: rest))
                [r0; a; b; g] rest Hc eq_refl)).
  rewrite set_rx_set_rx. run.
  destruct (a =? p2); [destruct (b =? p3)|]; cbn; try reflexivity.
  destruct (g =? 0x80); reflexivity.
Qed.

(** [subscribe] without a callback fails its first assertion and leaves the
    client as it was: no identifier is taken and nothing is written.  With a
    callback, the SUBACK decides: return code 0x80 raises [MQTTException
    0x80], any other return code is success, and a SUBACK for another
    identifier fails an assertion (where the loop of [publish] would keep
    waiting).  In all three cases the five bytes of the SUBACK are consumed,
    and the length byte [r0] is not checked. *)
Theorem subscribe_suback_outcomes (f : nat) (w : client) (s : socket)
  (topic : bytes) (qos r0 a b g : Z) (rest : bytes) :
  closed s = false -> wbudget s = None -> strict (cfg w) = false ->
  rx s = 0x90 :: r0 :: a :: b :: g :: rest ->
  (cb w = false ->
   subscribe f topic qos w = (Raise AssertionError, w))
  /\ (cb w = true ->
      subscribe (S f) topic qos (set_sock w (Some s)) =
      (if bytes_eqb [a; b] (be_bytes 2 (pid w + 1))
       then if g =? 0x80 then Raise (MQTTException 0x80) else Ret tt
       else Raise AssertionError,
       set_sock (set_pid w (pid w + 1))
         (Some (set_rx (sent s (subscribe_packet topic qos (pid w + 1)) None)
                  rest)))).
Proof.
  intros Hc Hb Hst Hrx. split.
  - intros Hcb. unfold subscribe. unfold bind at 1. rewrite Hcb. reflexivity.
  - intros Hcb.
    rewrite subscribe_sends; auto; try (rewrite Hst; apply fits_loose).
    unfold subscribe_header. rewrite be_bytes_1, be_bytes_2. cbn [app].
    rewrite (suback_loop_round f _ (sent s _ None) _ _ _ _ r0 a b g rest Hc Hrx).
    cbn [bytes_eqb]. rewrite andb_true_r.
    destruct ((a =? _) && (b =? _)); [|reflexivity].
    destruct (g =? 0x80) eqn:Eg; [|reflexivity].
    apply Z.eqb_eq in Eg. subst g. reflexivity.
Qed.

Lemma subscribe_suback_outcomes_witness :
  subscribe 1 [116] 0
    (set_sock (connected plain_config (fresh_socket [] Silent None) [])
       (Some (fresh_socket [0x90; 3; 0; 1; 0x80] Silent None))) =
  (Raise (MQTTException 0x80),
   set_sock (set_pid (connected plain_config (fresh_socket [] Silent None) []) 1)
     (Some (set_rx (sent (fresh_socket [0x90; 3; 0; 1; 0x80] Silent None)
                      (subscribe_packet [116] 0 1) None) []))).
Proof.
  exact (proj2 (subscribe_suback_outcomes 0
                  (connected plain_config (fresh_socket [] Silent None) [])
                  (fresh_socket [0x90; 3; 0; 1; 0x80] Silent None)
                  [116] 0 3 0 1 0x80 [] eq_refl eq_refl eq_refl eq_refl) eq_refl).
Defined.

(** ** publish: the size limit and QoS 0 *)

(** A PUBLISH whose remaining length would reach 2097152 (three length bytes
    are all the four-byte buffer holds) fails the assertion before anything
    is written and before an identifier is taken: the client is left as it
    was, with or without a socket. *)
Theorem publish_oversize_fails_before_writing (fuel : nat) (w : client)
  (topic msg : bytes) (retain : bool) (qos : Z) :
  0 <= qos <= 2 -> 2097152 <= publish_size topic msg qos ->
  publish fuel topic msg retain qos w = (Raise AssertionError, w).
Proof.
  intros Hq Hsz.
  assert (Hq3 : qos = 0 \/ qos = 1 \/ qos = 2) by lia.
  unfold publish. fold (publish_size topic msg qos).
  rewrite (bind_Ret _ _ _ _ _
             (store_or_ok [0x30; 0; 0; 0] 0 0x30
                (Z.lor (Z.shiftl qos 1) (Z.b2z retain)) _ eq_refl
                ltac:(destruct Hq3 as [-> | [-> | ->]]; destruct retain;
                      vm_compute; split; first [discriminate | reflexivity]))).
  replace (publish_size topic msg qos <? 2097152) with false
    by (symmetry; apply Z.ltb_ge; exact Hsz).
  reflexivity.
Qed.

Lemma publish_oversize_fails_before_writing_witness :
  publish 0 [] (repeat 0 (Z.to_nat 2097150)) false 0 (init plain_config []) =
  (Raise AssertionError, init plain_config []).
Proof.
  apply (publish_oversize_fails_before_writing 0 (init plain_config []) []
           (repeat 0 (Z.to_nat 2097150)) false 0).
  - lia.
  - unfold publish_size, len. rewrite repeat_length. cbn [Z.gtb Z.compare length].
    rewrite Z2Nat.id by lia. rewrite Z.add_0_r. vm_compute. discriminate.
Defined.

(** A QoS 0 publish writes its packet and returns: it reads nothing, takes no
    identifier and does not look at the state of the incoming side, so it
    succeeds the same on a connection whose peer has gone silent, has closed
    or has reset, as long as the write is accepted. *)
Theorem publish_qos0_reads_nothing (fuel : nat) (w : client) (s : socket)
  (topic msg : bytes) (retain : bool) :
  closed s = false -> wbudget s = None ->
  publish_size topic msg 0 < 2097152 -> (2 <= fuel)%nat ->
  fits (strict (cfg w)) 2 (len topic) ->
  exists w' : client,
    publish fuel topic msg retain 0 (set_sock w (Some s)) = (Ret tt, w')
    /\ written w' = tx s ++ publish_packet topic msg retain 0 0
    /\ unread w' = rx s
    /\ pid w' = pid w /\ delivered w' = delivered w
    /\ exists s' : socket,
         sock w' = Some s' /\ at_end s' = at_end s /\ blocking s' = blocking s
         /\ closed s' = false.
Proof.
  intros Hc Hb Hsz Hf Ht.
  rewrite publish_sends; auto; try lia.
  cbn [Z.eqb Z.gtb Z.compare]. eexists. split; [reflexivity|].
  unfold written, unread. cbn.
  repeat split. eexists. repeat split. exact Hc.
Qed.

Lemma publish_qos0_reads_nothing_witness :
  exists w' : client,
    publish 2 [116] [104; 105] false 0
      (set_sock (init plain_config []) (Some (fresh_socket [] Eof None))) =
    (Ret tt, w')
    /\ written w' = [] ++ publish_packet [116] [104; 105] false 0 0
    /\ unread w' = []
    /\ pid w' = 0 /\ delivered w' = []
    /\ exists s' : socket,
         sock w' = Some s' /\ at_end s' = Eof /\ blocking s' = true
         /\ closed s' = false.
Proof.
  apply (publish_qos0_reads_nothing 2 (init plain_config [])
           (fresh_socket [] Eof None) [116] [104; 105] false
           eq_refl eq_refl).
  - vm_compute. reflexivity.
  - lia.
  - apply fits_loose.
Defined.

(** ** The CONNECT packet *)

Lemma varint_bytes_count (j : nat) :
  forall (k : nat) (n : Z),
    n < 2 ^ (7 * Z.of_nat (S j)) -> (j <= k)%nat ->
    (1 <= length (varint_bytes k n) <= S j)%nat.
Proof.
  induction j as [|j IH]; intros k n Hn Hk.
  - change (2 ^ (7 * Z.of_nat 1)) with 128 in Hn.
    rewrite varint_bytes_small by lia. cbn [length]. lia.
  - destruct (Z.le_gt_cases n 0x7F) as [Hle|Hgt].
    + rewrite varint_bytes_small by lia. cbn [length]. lia.
    + destruct k as [|k]; [lia|].
      rewrite varint_bytes_more by lia. cbn [length].
      assert (Hs : Z.shiftr n 7 < 2 ^ (7 * Z.of_nat (S j))).
      { apply (shiftr7_pow n j). lia. }
      specialize (IH k (Z.shiftr n 7) Hs ltac:(lia)). lia.
Qed.

Lemma open_socket_ok (w : client) (s : socket) (rest : list (option socket)) :
  net w = Some s :: rest ->
  open_socket w = (Ret tt, set_sock (set_net w rest) (Some s)).
Proof. unfold open_socket. intros ->. reflexivity. Qed.

Lemma store_ok (buf : bytes) (i : nat) (v : Z) (w : client) :
  (i < length buf)%nat -> 0 <= v < 256 ->
  store buf i v w = (Ret (firstn i buf ++ v :: skipn (S i) buf), w).
Proof.
  intros Hi Hv. unfold store. rewrite bind_get_strict, setitem_ok by assumption.
  reflexivity.
Qed.

Lemma clean_flag_range (cs : bool) :
  Z.shiftl (Z.b2z cs) 1 = 0 \/ Z.shiftl (Z.b2z cs) 1 = 2.
Proof. destruct cs; [right|left]; reflexivity. Qed.

Lemma connect_sends (fuel : nat) (w : client) (s : socket)
  (rest : list (option socket)) (cs : bool) :
  net w = Some s :: rest -> closed s = false -> wbudget s = None ->
  strict (cfg w) = false ->
  0 <= keepalive (cfg w) < 65536 -> 0 <= lw_qos (cfg w) <= 2 ->
  (user (cfg w) <> None -> pswd (cfg w) <> None) ->
  (truthy (lw_topic (cfg w)) = true -> lw_msg (cfg w) <> None) ->
  connect_size (cfg w) < 2 ^ 28 -> (3 <= fuel)%nat ->
  connect fuel cs w =
  read_connack
    (set_sock (set_net w rest)
       (Some (sent s (connect_packet (cfg w) cs) None))).
Proof.
  intros Hnet Hc Hb Hst Hka Hq Hup Hwm Hsz Hf.
  unfold connect.
  rewrite (bind_Ret _ _ _ _ _ (open_socket_ok w s rest Hnet)).
  unfold bind at 1. cbn [cfg set_sock set_net].
  set (c := cfg w) in *.
  set (W := set_sock (set_net w rest) (Some s)).
  assert (HF0 := clean_flag_range cs).
  rewrite (bind_Ret _ _ _ _ _
             (store_ok [4; 77; 81; 84; 84; 4; 2; 0; 0] 6 (Z.shiftl (Z.b2z cs) 1) W
                ltac:(cbn; lia) ltac:(lia))).
  cbn [firstn skipn app].
  set (F0 := Z.shiftl (Z.b2z cs) 1) in *.
  set (F1 := match user c with Some _ => Z.lor F0 0xC0 | None => F0 end).
  assert (HF1 : F1 = F0 \/ F1 = Z.lor F0 0xC0)
    by (unfold F1; destruct (user c); auto).
  assert (HF1r : 0 <= F1 < 256)
    by (destruct HF1 as [-> | ->]; destruct HF0 as [-> | ->]; vm_compute;
        split; first [discriminate | reflexivity]).
  set (sz1 := 10 + 2 + len (client_id c)
              + match user c with
                | Some u => 2 + len u + 2 + len (opt_bytes (pswd c))
                | None => 0
                end).
  assert (Huser :
    (match user c with
     | Some u =>
         lp <- len_opt (pswd c);;
         msg0 <- store_or [4; 77; 81; 84; 84; 4; F0; 0; 0] 6 192;;
         ret (10 + 2 + len (client_id c) + (2 + len u + 2 + lp), msg0)
     | None => ret (10 + 2 + len (client_id c), [4; 77; 81; 84; 84; 4; F0; 0; 0])
     end) W = (Ret (sz1, [4; 77; 81; 84; 84; 4; F1; 0; 0]), W)).
  { unfold sz1, F1. destruct (user c) as [u|].
    - destruct (pswd c) as [p|]; [|exfalso; apply Hup; [discriminate|reflexivity]].
      cbn [len_opt opt_bytes]. rewrite bind_ret.
      rewrite (bind_Ret _ _ _ _ _
                 (store_or_ok [4; 77; 81; 84; 84; 4; F0; 0; 0] 6 F0 192 W eq_refl
                    ltac:(destruct HF0 as [-> | ->]; vm_compute;
                          split; first [discriminate | reflexivity]))).
      reflexivity.
    - rewrite Z.add_0_r. reflexivity. }
  rewrite (bind_Ret _ _ _ _ _ Huser). clear Huser. cbv iota beta.
  set (K1 := Z.shiftr (keepalive c) 8). set (K0 := Z.land (keepalive c) 255).
  assert (HK1 : 0 <= K1 < 256).
  { unfold K1. rewrite Z.shiftr_div_pow2 by lia. change (2 ^ 8) with 256.
    split; [apply Z.div_pos; lia|apply Z.div_lt_upper_bound; lia]. }
  assert (HK0 : 0 <= K0 < 256).
  { unfold K0. change 255 with (Z.ones 8). rewrite Z.land_ones by lia.
    change (2 ^ 8) with 256. apply Z.mod_pos_bound. lia. }
  assert (Hkeep :
    (if keepalive c =? 0
     then ret [4; 77; 81; 84; 84; 4; F1; 0; 0]
     else
       assert (keepalive c <? 65536);;
       msg <- store_or [4; 77; 81; 84; 84; 4; F1; 0; 0] 7 K1;;
       store_or msg 8 K0) W = (Ret [4; 77; 81; 84; 84; 4; F1; K1; K0], W)).
  { destruct (keepalive c =? 0) eqn:Ek.
    - apply Z.eqb_eq in Ek. unfold K1, K0. rewrite Ek. reflexivity.
    - replace (keepalive c <? 65536) with true by (symmetry; apply Z.ltb_lt; lia).
      rewrite bind_assert_true.
      rewrite (bind_Ret _ _ _ _ _
                 (store_or_ok [4; 77; 81; 84; 84; 4; F1; 0; 0] 7 0 K1 W eq_refl
                    ltac:(rewrite Z.lor_0_l; exact HK1))).
      rewrite Z.lor_0_l. cbn [firstn skipn app].
      rewrite (store_or_ok [4; 77; 81; 84; 84; 4; F1; K1; 0] 8 0 K0 W eq_refl
                 ltac:(rewrite Z.lor_0_l; exact HK0)).
      rewrite Z.lor_0_l. reflexivity. }
  rewrite (bind_Ret _ _ _ _ _ Hkeep). clear Hkeep.
  assert (Hwill :
    (if truthy (lw_topic c)
     then
       lt <- len_opt (lw_topic c);;
       lm <- len_opt (lw_msg c);;
       msg0 <-
         store_or [4; 77; 81; 84; 84; 4; F1; K1; K0] 6
           (Z.lor (Z.lor 4 (Z.shiftl (Z.land (lw_qos c) 1) 3))
              (Z.shiftl (Z.land (lw_qos c) 2) 3));;
       msg1 <- store_or msg0 6 (Z.shiftl (Z.b2z (lw_retain c)) 5);;
       ret (sz1 + (2 + lt + 2 + lm), msg1)
     else ret (sz1, [4; 77; 81; 84; 84; 4; F1; K1; K0])) W =
    (Ret (connect_size c, [4; 77; 81; 84; 84; 4; connect_flags c cs; K1; K0]), W)).
  { unfold connect_size, connect_flags. fold F0. fold F1. fold sz1.
    destruct (truthy (lw_topic c)) eqn:Et.
    - destruct (lw_topic c) as [t|]; [|discriminate].
      destruct (lw_msg c) as [m|]; [|exfalso; apply Hwm; reflexivity].
      cbn [len_opt opt_bytes]. rewrite !bind_ret.
      assert (Hq3 : lw_qos c = 0 \/ lw_qos c = 1 \/ lw_qos c = 2) by lia.
      unfold will_flags.
      set (wq := Z.lor (Z.lor 4 (Z.shiftl (Z.land (lw_qos c) 1) 3))
                   (Z.shiftl (Z.land (lw_qos c) 2) 3)).
      set (wr := Z.shiftl (Z.b2z (lw_retain c)) 5).
      assert (Hwq : wq = 4 \/ wq = 12 \/ wq = 20)
        by (unfold wq; destruct Hq3 as [-> | [-> | ->]]; auto).
      assert (Hwr : wr = 0 \/ wr = 32)
        by (unfold wr; destruct (lw_retain c); auto).
      assert (Hr1 : 0 <= Z.lor F1 wq < 256)
        by (destruct HF1 as [-> | ->]; destruct HF0 as [-> | ->];
            destruct Hwq as [-> | [-> | ->]]; vm_compute;
            split; first [discriminate | reflexivity]).
      assert (Hr2 : 0 <= Z.lor (Z.lor F1 wq) wr < 256)
        by (destruct HF1 as [-> | ->]; destruct HF0 as [-> | ->];
            destruct Hwq as [-> | [-> | ->]]; destruct Hwr as [-> | ->];
            vm_compute; split; first [discriminate | reflexivity]).
      rewrite (bind_Ret _ _ _ _ _
                 (store_or_ok [4; 77; 81; 84; 84; 4; F1; K1; K0] 6 F1 wq W
                    eq_refl Hr1)).
      cbn [firstn skipn app].
      rewrite (bind_Ret _ _ _ _ _
                 (store_or_ok [4; 77; 81; 84; 84; 4; Z.lor F1 wq; K1; K0] 6
                    (Z.lor F1 wq) wr W eq_refl Hr2)).
      cbn [firstn skipn app]. rewrite <- Z.lor_assoc. reflexivity.
    - rewrite Z.add_0_r. reflexivity. }
  rewrite (bind_Ret _ _ _ _ _ Hwill). clear Hwill. cbv iota beta.
  assert (Hsz0 : 0 <= connect_size c).
  { unfold connect_size.
    pose proof (len_nonneg (client_id c)).
    pose proof (len_nonneg (opt_bytes (pswd c))).
    pose proof (len_nonneg (opt_bytes (lw_topic c))).
    pose proof (len_nonneg (opt_bytes (lw_msg c))).
    destruct (user c) as [u|]; [pose proof (len_nonneg u)|];
      destruct (truthy (lw_topic c)); lia. }
  pose proof (varint_bytes_count 3 3 (connect_size c) Hsz ltac:(lia)) as HL.
  rewrite (len_loop_varint 3 (connect_size c) fuel (strict c) [16; 0; 0; 0; 0; 0] 1
             ltac:(split; [exact Hsz0|exact Hsz]) Hf
             ltac:(cbn [length]; lia)).
  rewrite bind_lift_Ret. cbv iota beta.
  set (vb := varint_bytes 3 (connect_size c)) in *.
  assert (Hpre : firstn (1 + length vb - 1 + 2)
                   (firstn 1 [16; 0; 0; 0; 0; 0] ++ vb ++
                    skipn (1 + length vb) [16; 0; 0; 0; 0; 0]) =
                 16 :: vb ++ [0]).
  { destruct vb as [|b1 [|b2 [|b3 [|b4 [|b5 t]]]]]; cbn [length] in HL; try lia;
      reflexivity. }
  rewrite Hpre. clear Hpre. subst W.
  assert (Hfit : forall b : bytes, fits (strict (cfg (set_net w rest))) 2 (len b))
    by (intros b; change (cfg (set_net w rest)) with c; rewrite Hst;
        apply fits_loose).
  wstep. wstep.
  rewrite (bind_Ret _ _ _ _ _
             (_send_str_ok (set_net w rest) (sent s _ None) (client_id c)
                Hc eq_refl (Hfit _))).
  rewrite sent_sent.
  set (will := if truthy (lw_topic c)
               then mqtt_str (opt_bytes (lw_topic c)) ++
                    mqtt_str (opt_bytes (lw_msg c))
               else []).
  assert (Hwill : forall tx0 : bytes,
    (if truthy (lw_topic c)
     then send_opt (lw_topic c);; send_opt (lw_msg c)
     else ret tt) (set_sock (set_net w rest) (Some (sent s tx0 None))) =
    (Ret tt, set_sock (set_net w rest) (Some (sent s (tx0 ++ will) None)))).
  { intros tx0. unfold will. destruct (truthy (lw_topic c)) eqn:Et.
    - destruct (lw_topic c) as [t|]; [|discriminate].
      destruct (lw_msg c) as [m|]; [|exfalso; apply Hwm; reflexivity].
      cbn [send_opt opt_bytes]. unfold mqtt_str.
      rewrite (bind_Ret _ _ _ _ _
                 (_send_str_ok (set_net w rest) (sent s _ None) t
                    Hc eq_refl (Hfit _))).
      rewrite sent_sent.
      rewrite (_send_str_ok (set_net w rest) (sent s _ None) m
                 Hc eq_refl (Hfit _)).
      rewrite sent_sent, <- !app_assoc. reflexivity.
    - rewrite app_nil_r. reflexivity. }
  rewrite (bind_Ret _ _ _ _ _ (Hwill _)). clear Hwill.
  set (cred := match user c with
               | Some u => mqtt_str u ++ mqtt_str (opt_bytes (pswd c))
               | None => []
               end).
  assert (Hcred : forall tx0 : bytes,
    match user c with
    | Some u => _send_str u;; send_opt (pswd c)
    | None => ret tt
    end (set_sock (set_net w rest) (Some (sent s tx0 None))) =
    (Ret tt, set_sock (set_net w rest) (Some (sent s (tx0 ++ cred) None)))).
  { intros tx0. unfold cred. destruct (user c) as [u|].
    - destruct (pswd c) as [p|]; [|exfalso; apply Hup; [discriminate|reflexivity]].
      cbn [send_opt opt_bytes]. unfold mqtt_str.
      rewrite (bind_Ret _ _ _ _ _
                 (_send_str_ok (set_net w rest) (sent s _ None) u
                    Hc eq_refl (Hfit _))).
      rewrite sent_sent.
      rewrite (_send_str_ok (set_net w rest) (sent s _ None) p
                 Hc eq_refl (Hfit _)).
      rewrite sent_sent, <- !app_assoc. reflexivity.
    - rewrite app_nil_r. reflexivity. }
  rewrite (bind_Ret _ _ _ _ _ (Hcred _)). clear Hcred.
  unfold read_connack, connect_packet. fold vb. fold K1. fold K0.
  fold will. fold cred. unfold mqtt_str.
  repeat (rewrite <- ?app_assoc; cbn [app]).
  reflexivity.
Qed.

Lemma read_connack_round (w : client) (s : socket) (r0 r1 r2 r3 : Z)
  (then_ : bytes) :
  closed s = false -> rx s = r0 :: r1 :: r2 :: r3 :: then_ ->
  read_connack (set_sock w (Some s)) =
  (if (r0 =? 0x20) && (r1 =? 0x02)
   then if r3 =? 0 then Ret (Z.land r2 1) else Raise (MQTTException r3)
   else Raise AssertionError,
   set_sock w (Some (set_rx s then_))).
Proof.
  intros Hc Hrx. unfold read_connack.
  rewrite (bind_Ret _ _ _ _ _
             (sock_read_n w s [r0; r1; r2; r3] then_ Hc Hrx)).
  run. destruct (r0 =? 32); [destruct (r1 =? 2)|]; cbn; try reflexivity.
  destruct (r3 =? 0); reflexivity.
Qed.






(** What [connect] makes of the four bytes it reads after the CONNECT packet:
    anything but 0x20 0x02 in front fails an assertion, a return code other
    than 0 raises [MQTTException] with that code, and otherwise the low bit
    of the third byte is returned.  In the failing cases the new socket stays
    open in [self.sock]: nothing closes it.  [reconnect] catches [OSError]
    only, so it ends with the same outcome, without a sleep and without
    another attempt. *)
Theorem connect_connack_outcomes (fuel : nat) (w : client) (s : socket)
  (rest : list (option socket)) (cs : bool) (r0 r1 r2 r3 : Z) (then_ : bytes) :
  net w = Some s :: rest -> closed s = false -> wbudget s = None ->
  strict (cfg w) = false ->
  0 <= keepalive (cfg w) < 65536 -> 0 <= lw_qos (cfg w) <= 2 ->
  (user (cfg w) <> None -> pswd (cfg w) <> None) ->
  (truthy (lw_topic (cfg w)) = true -> lw_msg (cfg w) <> None) ->
  connect_size (cfg w) < 2 ^ 28 -> (3 <= fuel)%nat ->
  rx s = r0 :: r1 :: r2 :: r3 :: then_ ->
  let outcome_ :=
    if (r0 =? 0x20) && (r1 =? 0x02)
    then if r3 =? 0 then Ret (Z.land r2 1) else Raise (MQTTException r3)
    else Raise AssertionError in
  let after (clean : bool) :=
    set_sock (set_net w rest)
      (Some (set_rx (sent s (connect_packet (cfg w) clean) None) then_)) in
  connect fuel cs w = (outcome_, after cs)
  /\ reconnect (S fuel) w = (outcome_, after false)
  /\ sleeps (after false) = sleeps w
  /\ exists s' : socket, sock (after cs) = Some s' /\ closed s' = false.
Proof.
  intros Hnet Hc Hb Hst Hka Hq Hup Hwm Hsz Hf Hrx outcome_ after.
  assert (Hconn : forall clean : bool, connect fuel clean w = (outcome_, after clean)).
  { intros clean. rewrite (connect_sends fuel w s rest clean); auto.
    rewrite (read_connack_round _ (sent s _ None) r0 r1 r2 r3 then_ Hc Hrx).
    reflexivity. }
  split; [apply Hconn|]. split; [|split].
  - unfold reconnect. rewrite reconnect_loop_S.
    apply on_OSError_passes; [apply Hconn|].
    intros n. unfold outcome_.
    destruct ((r0 =? 32) && (r1 =? 2)); [destruct (r3 =? 0)|]; discriminate.
  - reflexivity.
  - eexists. split; [reflexivity|]. exact Hc.
Qed.

Lemma connect_connack_outcomes_witness :
  connect 3 true (init plain_config [Some (fresh_socket [0x20; 0x02; 0; 5] Silent None)]) =
  (Raise (MQTTException 5),
   set_sock (set_net (init plain_config
                        [Some (fresh_socket [0x20; 0x02; 0; 5] Silent None)]) [])
     (Some (set_rx (sent (fresh_socket [0x20; 0x02; 0; 5] Silent None)
                      (connect_packet plain_config true) None) []))).
Proof.
  refine (proj1 (connect_connack_outcomes 3
                   (init plain_config
                      [Some (fresh_socket [0x20; 0x02; 0; 5] Silent None)])
                   (fresh_socket [0x20; 0x02; 0; 5] Silent None) [] true
                   0x20 0x02 0 5 []
                   eq_refl eq_refl eq_refl eq_refl _ _ _ _ _ _ eq_refl)).
  - cbn. lia.
  - cbn. lia.
  - intros H. exfalso. apply H. reflexivity.
  - discriminate.
  - vm_compute. reflexivity.
  - lia.
Defined.

(** A keepalive of 65536 or more fails the assertion of [connect] after the
    socket has been created and connected and before anything is written:
    the new socket is left open in [self.sock] and the server has received
    nothing. *)
Theorem connect_keepalive_out_of_range (fuel : nat) (w : client) (s : socket)
  (rest : list (option socket)) (cs : bool) :
  net w = Some s :: rest ->
  (user (cfg w) <> None -> pswd (cfg w) <> None) ->
  65536 <= keepalive (cfg w) ->
  connect fuel cs w = (Raise AssertionError, set_sock (set_net w rest) (Some s)).
Proof.
  intros Hnet Hup Hka. unfold connect.
  rewrite (bind_Ret _ _ _ _ _ (open_socket_ok w s rest Hnet)).
  unfold bind at 1. cbn [cfg set_sock set_net].
  set (c := cfg w) in *.
  set (W := set_sock (set_net w rest) (Some s)).
  assert (HF0 := clean_flag_range cs).
  rewrite (bind_Ret _ _ _ _ _
             (store_ok [4; 77; 81; 84; 84; 4; 2; 0; 0] 6 (Z.shiftl (Z.b2z cs) 1) W
                ltac:(cbn; lia) ltac:(lia))).
  cbn [firstn skipn app].
  set (F0 := Z.shiftl (Z.b2z cs) 1) in *.
  assert (Huser : exists x : Z * bytes,
    (match user c with
     | Some u =>
         lp <- len_opt (pswd c);;
         msg0 <- store_or [4; 77; 81; 84; 84; 4; F0; 0; 0] 6 192;;
         ret (10 + 2 + len (client_id c) + (2 + len u + 2 + lp), msg0)
     | None => ret (10 + 2 + len (client_id c), [4; 77; 81; 84; 84; 4; F0; 0; 0])
     end) W = (Ret x, W)).
  { destruct (user c) as [u|].
    - destruct (pswd c) as [p|]; [|exfalso; apply Hup; [discriminate|reflexivity]].
      cbn [len_opt]. rewrite bind_ret.
      rewrite (bind_Ret _ _ _ _ _
                 (store_or_ok [4; 77; 81; 84; 84; 4; F0; 0; 0] 6 F0 192 W eq_refl
                    ltac:(destruct HF0 as [-> | ->]; vm_compute;
                          split; first [discriminate | reflexivity]))).
      eexists. reflexivity.
    - eexists. reflexivity. }
  destruct Huser as ([sz msg] & Huser).
  rewrite (bind_Ret _ _ _ _ _ Huser). cbv iota beta.
  replace (keepalive c =? 0) with false by (symmetry; apply Z.eqb_neq; lia).
  replace (keepalive c <? 65536) with false by (symmetry; apply Z.ltb_ge; lia).
  reflexivity.
Qed.

Lemma connect_keepalive_out_of_range_witness :
  connect 0 true
    (init (mkConfig [99] None None 65536 None None 0 false false false)
       [Some (fresh_socket [] Silent None)]) =
  (Raise AssertionError,
   set_sock
     (set_net (init (mkConfig [99] None None 65536 None None 0 false false false)
                 [Some (fresh_socket [] Silent None)]) [])
     (Some (fresh_socket [] Silent None))).
Proof.
  apply (connect_keepalive_out_of_range 0
           (init (mkConfig [99] None None 65536 None None 0 false false false)
              [Some (fresh_socket [] Silent None)])
           (fresh_socket [] Silent None) [] true eq_refl).
  - intros H. exfalso. apply H. reflexivity.
  - cbn. lia.
Defined.

(** ** The last will *)

(** [set_last_will] refuses a QoS outside 0..2 and an empty topic with an
    [AssertionError] that leaves the client as it was; an empty message is
    accepted.  After a call that returns, [connect] announces the will: the
    will bits of the connect flags are [4 + 8 * qos + 32 * retain], and the
    will topic and message travel between the client identifier and the
    credentials, as [connect_packet] lays them out. *)
Theorem set_last_will_then_connect (fuel : nat) (w : client) (s : socket)
  (rest : list (option socket)) (cs : bool) (topic msg : bytes) (retain : bool)
  (qos sp : Z) (then_ : bytes) :
  let c' :=
    mkConfig (client_id (cfg w)) (user (cfg w)) (pswd (cfg w)) (keepalive (cfg w))
      (Some topic) (Some msg) qos retain (debug (cfg w)) (strict (cfg w)) in
  net w = Some s :: rest -> closed s = false -> wbudget s = None ->
  strict (cfg w) = false -> 0 <= keepalive (cfg w) < 65536 ->
  (user (cfg w) <> None -> pswd (cfg w) <> None) ->
  connect_size c' < 2 ^ 28 -> (3 <= fuel)%nat ->
  rx s = 0x20 :: 0x02 :: sp :: 0 :: then_ ->
  (qos < 0 \/ 2 < qos \/ topic = [] ->
   set_last_will topic msg retain qos w = (Raise AssertionError, w))
  /\ (0 <= qos <= 2 -> topic <> [] ->
      (set_last_will topic msg retain qos ;; connect fuel cs) w =
      (Ret (Z.land sp 1),
       set_sock (set_net (set_cfg w c') rest)
         (Some (set_rx (sent s (connect_packet c' cs) None) then_)))
      /\ will_flags c' = 4 + 8 * qos + 32 * Z.b2z retain
      /\ truthy (lw_topic c') = true).
Proof.
  intros c' Hnet Hc Hb Hst Hka Hup Hsz Hf Hrx. split.
  - intros H. unfold set_last_will.
    destruct ((0 <=? qos) && (qos <=? 2)) eqn:E; [|reflexivity].
    apply andb_true_iff in E. destruct E as [E1 E2].
    apply Z.leb_le in E1, E2.
    destruct H as [H | [H | H]]; [lia|lia|]. subst topic. reflexivity.
  - intros Hq Ht.
    assert (Hset : set_last_will topic msg retain qos w = (Ret tt, set_cfg w c')).
    { unfold set_last_will.
      replace ((0 <=? qos) && (qos <=? 2)) with true
        by (symmetry; apply andb_true_iff; split; apply Z.leb_le; lia).
      rewrite bind_assert_true.
      destruct topic as [|t0 topic']; [contradiction|]. reflexivity. }
    split; [|split].
    + rewrite (bind_Ret _ _ _ _ _ Hset).
      rewrite (connect_sends fuel (set_cfg w c') s rest cs); auto.
      * rewrite (read_connack_round _ (sent s _ None) 0x20 0x02 sp 0 then_ Hc Hrx).
        reflexivity.
      * intros _. discriminate.
    + unfold will_flags, c'. cbn [lw_qos lw_retain].
      assert (Hq3 : qos = 0 \/ qos = 1 \/ qos = 2) by lia.
      destruct Hq3 as [-> | [-> | ->]]; destruct retain; reflexivity.
    + destruct topic; [contradiction|reflexivity].
Qed.

Lemma set_last_will_then_connect_witness :
  (set_last_will [116] [109] true 1 ;; connect 3 true)
    (init plain_config [Some (fresh_socket [0x20; 0x02; 0; 0] Silent None)]) =
  (Ret (Z.land 0 1),
   set_sock
     (set_net
        (set_cfg (init plain_config
                    [Some (fresh_socket [0x20; 0x02; 0; 0] Silent None)])
           (mkConfig [99] None None 0 (Some [116]) (Some [109]) 1 true false false))
        [])
     (Some (set_rx
              (sent (fresh_socket [0x20; 0x02; 0; 0] Silent None)
                 (connect_packet
                    (mkConfig [99] None None 0 (Some [116]) (Some [109]) 1 true
                       false false) true) None) []))).
Proof.
  refine (proj1 (proj2 (set_last_will_then_connect 3
                          (init plain_config
                             [Some (fresh_socket [0x20; 0x02; 0; 0] Silent None)])
                          (fresh_socket [0x20; 0x02; 0; 0] Silent None) [] true
                          [116] [109] true 1 0 []
                          eq_refl eq_refl eq_refl eq_refl _ _ _ _ eq_refl) _ _)).
  - cbn. lia.
  - intros H. exfalso. apply H. reflexivity.
  - vm_compute. reflexivity.
  - lia.
  - lia.
  - discriminate.
Defined.

(** ** The keepalive timer of the two scripts *)

Lemma sent_nothing (s : socket) : wbudget s = None -> sent s [] None = s.
Proof.
  destruct s as [r a t b bl cl]. cbn. intros ->. unfold sent. cbn.
  rewrite app_nil_r. reflexivity.
Qed.

Lemma ticks_on_open_socket (n : nat) :
  forall (c0 : Z) (w : client) (s : socket),
    closed s = false -> wbudget s = None -> 0 <= c0 < 30 ->
    ticks n (c0, set_sock w (Some s)) =
    (Ret tt,
     ((c0 + Z.of_nat n) mod 30,
      set_sock w
        (Some (sent s (pings (Z.to_nat ((c0 + Z.of_nat n) / 30))) None)))).
Proof.
  induction n as [|n IH]; intros c0 w s Hc Hb Hc0.
  - cbn [ticks]. change (Z.of_nat 0) with 0. rewrite Z.add_0_r.
    rewrite Z.mod_small, Z.div_small by lia.
    change (Z.to_nat 0) with O. cbn [pings].
    rewrite sent_nothing by exact Hb. reflexivity.
  - cbn [ticks]. unfold timer_callback.
    destruct (c0 + 1 >=? 30) eqn:E.
    + assert (c0 = 29) by (apply Z.geb_le in E; lia). subst c0.
      unfold ping. rewrite (sock_write_ok w s _ Hc Hb).
      rewrite (IH 0 w (sent s [0xc0; 0] None) Hc eq_refl ltac:(lia)).
      rewrite sent_sent.
      replace (29 + Z.of_nat (S n)) with (Z.of_nat n + 1 * 30) by lia.
      rewrite Z.mod_add, Z.div_add by lia. rewrite Z.add_0_l.
      replace (Z.to_nat (Z.of_nat n / 30 + 1)) with (S (Z.to_nat (Z.of_nat n / 30))).
      * reflexivity.
      * assert (0 <= Z.of_nat n / 30) by (apply Z.div_pos; lia). lia.
    + assert (c0 + 1 < 30) by (rewrite Z.geb_leb in E; apply Z.leb_gt in E; lia).
      rewrite (IH (c0 + 1) w s Hc Hb ltac:(lia)).
      replace (c0 + 1 + Z.of_nat n) with (c0 + Z.of_nat (S n)) by lia.
      reflexivity.
Qed.

Lemma ticks_on_closed_socket (m : nat) :
  forall (w : client) (s : socket),
    closed s = true -> (1 <= m <= 30)%nat ->
    ticks m (30 - Z.of_nat m, set_sock w (Some s)) =
    (Raise (OSError EBADF), (0, set_sock w (Some s))).
Proof.
  induction m as [|m IH]; intros w s Hc Hm; [lia|].
  cbn [ticks]. unfold timer_callback.
  destruct (Nat.eq_dec m 0) as [->|Hne].
  - change (30 - Z.of_nat 1 + 1 >=? 30) with true. cbv iota.
    unfold ping, sock_write. cbn [sock set_sock]. rewrite Hc. reflexivity.
  - replace (30 - Z.of_nat (S m) + 1 >=? 30) with false
      by (symmetry; rewrite Z.geb_leb; apply Z.leb_gt; lia).
    replace (30 - Z.of_nat (S m) + 1) with (30 - Z.of_nat m) by lia.
    apply IH; [exact Hc|lia].
Qed.

(** The timer callback of the two scripts, called once a second, sends one
    PINGREQ every 30 calls and nothing else: after [n] calls from a count
    [c0], the count is [(c0 + n) mod 30] and [(c0 + n) / 30] PINGREQ packets
    have been written.  The callback reads nothing, so each PINGRESP stays on
    the stream until a [wait_msg] meets it.  On a socket that has been
    closed, the call that reaches 30 raises [OSError] out of the callback,
    with the count already back at 0. *)
Theorem timer_pings_every_thirty_ticks (n : nat) (c0 : Z) (w : client)
  (s : socket) :
  0 <= c0 < 30 -> wbudget s = None ->
  (closed s = false ->
   ticks n (c0, set_sock w (Some s)) =
   (Ret tt,
    ((c0 + Z.of_nat n) mod 30,
     set_sock w
       (Some (sent s (pings (Z.to_nat ((c0 + Z.of_nat n) / 30))) None)))))
  /\ (closed s = true ->
      ticks (Z.to_nat (30 - c0)) (c0, set_sock w (Some s)) =
      (Raise (OSError EBADF), (0, set_sock w (Some s)))).
Proof.
  intros Hc0 Hb. split.
  - intros Hc. apply ticks_on_open_socket; assumption.
  - intros Hc.
    replace c0 with (30 - Z.of_nat (Z.to_nat (30 - c0))) at 2 by lia.
    apply ticks_on_closed_socket; [exact Hc|lia].
Qed.

Lemma timer_pings_every_thirty_ticks_witness :
  ticks 61 (0, set_sock (init plain_config []) (Some (fresh_socket [] Silent None))) =
  (Ret tt,
   ((0 + Z.of_nat 61) mod 30,
    set_sock (init plain_config [])
      (Some (sent (fresh_socket [] Silent None)
               (pings (Z.to_nat ((0 + Z.of_nat 61) / 30))) None)))).
Proof.
  refine (proj1 (timer_pings_every_thirty_ticks 61 0 (init plain_config [])
                   (fresh_socket [] Silent None) _ eq_refl) eq_refl).
  lia.
Defined.

(** ** A QoS 1 publish that is sent again *)

Lemma log_ok (b : bool) (e : exn) (w : client) :
  log b e w =
  (Ret tt,
   set_printed w (if debug (cfg w) then printed w ++ [(b, e)] else printed w)).
Proof. unfold log. destruct (debug (cfg w)); destruct w; reflexivity. Qed.



(** ** check_msg and the blocking mode of the socket *)



(** ** publish after disconnect *)

Lemma publish_on_closed_socket (fuel : nat) (w : client) (s : socket)
  (topic msg : bytes) (retain : bool) (qos : Z) :
  closed s = true -> 0 <= qos <= 2 ->
  publish_size topic msg qos < 2097152 -> (2 <= fuel)%nat ->
  publish fuel topic msg retain qos (set_sock w (Some s)) =
  (Raise (OSError EBADF), set_sock w (Some s)).
Proof.
  intros Hc Hq Hsz Hf.
  pose proof (len_nonneg topic) as Ht0. pose proof (len_nonneg msg) as Hm0.
  assert (Hq3 : qos = 0 \/ qos = 1 \/ qos = 2) by lia.
  unfold publish. fold (publish_size topic msg qos).
  rewrite (bind_Ret _ _ _ _ _
             (store_or_ok [0x30; 0; 0; 0] 0 0x30
                (Z.lor (Z.shiftl qos 1) (Z.b2z retain)) _ eq_refl
                ltac:(destruct Hq3 as [-> | [-> | ->]]; destruct retain;
                      vm_compute; split; first [discriminate | reflexivity]))).
  cbn [firstn skipn app cfg set_sock].
  replace (publish_size topic msg qos <? 2097152) with true
    by (symmetry; apply Z.ltb_lt; exact Hsz).
  rewrite bind_assert_true, bind_get_strict. cbn [cfg set_sock].
  rewrite len_loop_publish;
    [|clear - Hsz Ht0 Hm0; unfold publish_size in *; destruct (qos >? 0); lia
     |exact Hf].
  rewrite bind_lift_Ret.
  destruct (publish_header _ (publish_size topic msg qos)) as [pkt i].
  apply bind_Raise. unfold sock_write. cbn [sock set_sock]. rewrite Hc.
  reflexivity.
Qed.

(** After [disconnect], [publish] of the base class raises [OSError] on the
    closed socket and has written nothing.  [publish] of the subclass takes
    that error for a lost connection: it reconnects and publishes on the new
    connection, so a [disconnect] does not keep the robust client
    disconnected. *)
Theorem robust_publish_after_disconnect_reconnects (f : nat) (w : client)
  (s1 s2 : socket) (rest : list (option socket)) (topic msg : bytes)
  (retain : bool) (sp : Z) (then_ : bytes) :
  closed s1 = false -> wbudget s1 = None ->
  net w = Some s2 :: rest -> closed s2 = false -> wbudget s2 = None ->
  rx s2 = 0x20 :: 0x02 :: sp :: 0 :: then_ ->
  strict (cfg w) = false ->
  0 <= keepalive (cfg w) < 65536 -> 0 <= lw_qos (cfg w) <= 2 ->
  (user (cfg w) <> None -> pswd (cfg w) <> None) ->
  (truthy (lw_topic (cfg w)) = true -> lw_msg (cfg w) <> None) ->
  connect_size (cfg w) < 2 ^ 28 -> (3 <= f)%nat ->
  publish_size topic msg 0 < 2097152 ->
  let gone := set_sock w (Some (set_closed (sent s1 [0xe0; 0] None))) in
  disconnect (set_sock w (Some s1)) = (Ret tt, gone)
  /\ publish (S f) topic msg retain 0 gone = (Raise (OSError EBADF), gone)
  /\ exists w' : client,
       robust_publish (S (S f)) topic msg retain 0 gone = (Ret tt, w')
       /\ written w' =
          tx s2 ++ connect_packet (cfg w) false ++
          publish_packet topic msg retain 0 0
       /\ unread w' = then_ /\ pid w' = pid w.
Proof.
  intros Hc1 Hb1 Hnet Hc2 Hb2 Hrx2 Hst Hka Hq Hup Hwm Hsz Hf Hps gone.
  assert (Hfit : forall (x : client) (n : nat) (v : Z),
             cfg x = cfg w -> fits (strict (cfg x)) n v)
    by (intros x n v ->; rewrite Hst; apply fits_loose).
  assert (Hfirst : publish (S f) topic msg retain 0 gone =
                   (Raise (OSError EBADF), gone)).
  { apply publish_on_closed_socket; auto; lia. }
  split; [|split; [exact Hfirst|]].
  - unfold disconnect.
    rewrite (bind_Ret _ _ _ _ _ (sock_write_ok w s1 _ Hc1 Hb1)). reflexivity.
  - set (W2 := set_printed gone
                 (if debug (cfg gone) then printed gone ++ [(false, OSError EBADF)]
                  else printed gone)).
    set (cp := connect_packet (cfg w) false).
    set (W3 := set_sock (set_net W2 rest) (Some (set_rx (sent s2 cp None) then_))).
    assert (Hre : reconnect (S f) W2 = (Ret (Z.land sp 1), W3)).
    { unfold reconnect. rewrite reconnect_loop_S.
      apply on_OSError_passes; [|discriminate].
      rewrite (connect_sends f W2 s2 rest false); auto.
      change (cfg W2) with (cfg w).
      rewrite (read_connack_round _ (sent s2 _ None) 0x20 0x02 sp 0 _ Hc2 Hrx2).
      reflexivity. }
    eexists. split; [|split; [|split]].
    + rewrite robust_publish_S.
      rewrite (on_OSError_caught _ _ _ _ _ Hfirst).
      rewrite (bind_Ret _ _ _ _ _ (log_ok false (OSError EBADF) gone)).
      fold W2. rewrite (bind_Ret _ _ _ _ _ Hre).
      rewrite robust_publish_S.
      apply on_OSError_passes; [|discriminate].
      unfold W3.
      rewrite publish_sends;
        [cbn [Z.eqb Z.gtb Z.compare]; reflexivity|..]; auto; lia.
    + unfold written, publish_packet. cbn [Z.gtb Z.compare].
      cbn [sock set_sock tx sent set_rx]. rewrite <- app_assoc. reflexivity.
    + reflexivity.
    + reflexivity.
Qed.

Lemma robust_publish_after_disconnect_reconnects_witness :
  disconnect
    (set_sock (init plain_config [Some (fresh_socket [0x20; 0x02; 0; 0] Silent None)])
       (Some (fresh_socket [] Silent None))) =
  (Ret tt,
   set_sock (init plain_config [Some (fresh_socket [0x20; 0x02; 0; 0] Silent None)])
     (Some (set_closed (sent (fresh_socket [] Silent None) [0xe0; 0] None)))).
Proof.
  refine (proj1 (robust_publish_after_disconnect_reconnects 3
                   (init plain_config
                      [Some (fresh_socket [0x20; 0x02; 0; 0] Silent None)])
                   (fresh_socket [] Silent None)
                   (fresh_socket [0x20; 0x02; 0; 0] Silent None)
                   [] [116] [109] false 0 []
                   eq_refl eq_refl eq_refl eq_refl eq_refl eq_refl eq_refl
                   _ _ _ _ _ _ _)).
  - cbn. lia.
  - cbn. lia.
  - intros H. exfalso. apply H. reflexivity.
  - discriminate.
  - vm_compute. reflexivity.
  - lia.
  - vm_compute. reflexivity.
Defined.
